(** * configure.py: dependency probing and configuration synthesis

    A shallow embedding of the probing core of [configure.py]: the header
    heuristic and the synthesized test program, the configuration store
    ([EnvManager]) with its transform rules, the search-path resolution and the
    library probe state machine ([LibraryCheck]), and the compile-and-execute
    harness with its temporary files.

    Python values are modelled as the code has them: [str] as [string] (a
    sequence of code points below 256), [None]-or-[str] as [option string],
    the tri-state [fHave] as [option bool], the ordered [dict] of the store as
    an association list that keeps insertion order.  The host (filesystem,
    [os.path], [glob], child processes) is a record of oracles, [World]. *)

From Stdlib Require Import String Ascii List Bool Arith Lia ZArith.
Import ListNotations.
Open Scope list_scope.
Open Scope string_scope.

(** ** Python strings *)

Module PyStr.

Definition chr (n : nat) : string := String (ascii_of_nat n) EmptyString.

(** Characters that cannot be written inside a literal here. *)
Definition nl : string := chr 10.
Definition dq : string := chr 34.
Definition sq : string := chr 39.
Definition bs : string := chr 92.

(** [bool(s)] for a [str]. *)
Definition truthy (s : string) : bool := negb (s =? EmptyString).

(** [bool(o)] for a value that is [None] or a [str]. *)
Definition truthy_opt (o : option string) : bool :=
  match o with
  | Some s => truthy s
  | None => false
  end.

(** [needle in hay] for two [str]. *)
Fixpoint contains (needle hay : string) : bool :=
  if prefix needle hay then true
  else match hay with
       | EmptyString => false
       | String _ t => contains needle t
       end.

(** [x in l] for a list of [str]. *)
Definition mem (x : string) (l : list string) : bool :=
  existsb (String.eqb x) l.

(** [x in l] when [x] may be [None]: [None] equals no [str]. *)
Definition mem_opt (x : option string) (l : list string) : bool :=
  match x with
  | Some s => mem s l
  | None => false
  end.

(** [x == s] when [x] may be [None]. *)
Definition eq_opt (x : option string) (s : string) : bool :=
  match x with
  | Some v => v =? s
  | None => false
  end.

(** [sep.join(l)]. *)
Fixpoint join (sep : string) (l : list string) : string :=
  match l with
  | [] => EmptyString
  | [x] => x
  | x :: t => x ++ sep ++ join sep t
  end.

Definition has_char (c : ascii) (s : string) : bool :=
  existsb (Ascii.eqb c) (list_ascii_of_string s).

Definition hex_digit (n : nat) : string :=
  match n with
  | 0 => "0" | 1 => "1" | 2 => "2" | 3 => "3" | 4 => "4" | 5 => "5" | 6 => "6"
  | 7 => "7" | 8 => "8" | 9 => "9" | 10 => "a" | 11 => "b" | 12 => "c"
  | 13 => "d" | 14 => "e" | _ => "f"
  end.

(** A code point below 256 that [repr] prints as it is. *)
Definition printable (n : nat) : bool :=
  ((32 <=? n)%nat && (n <? 127)%nat) || ((161 <=? n)%nat && negb (n =? 173)%nat).

(** One character of [repr(s)], [q] being the quote chosen for the string. *)
Definition repr_char (q : ascii) (c : ascii) : string :=
  let n := nat_of_ascii c in
  if Ascii.eqb c q || (n =? 92)%nat then bs ++ String c EmptyString
  else if (n =? 9)%nat then bs ++ "t"
  else if (n =? 10)%nat then bs ++ "n"
  else if (n =? 13)%nat then bs ++ "r"
  else if printable n then String c EmptyString
  else bs ++ "x" ++ hex_digit (n / 16) ++ hex_digit (n mod 16).

(** [repr(s)]: single quotes, unless the string has a single quote and no
    double quote. *)
Definition repr (s : string) : string :=
  let q := if has_char (ascii_of_nat 39) s && negb (has_char (ascii_of_nat 34) s)
           then ascii_of_nat 34 else ascii_of_nat 39 in
  String q (String.concat EmptyString (map (repr_char q) (list_ascii_of_string s)))
    ++ String q EmptyString.

(** [str(l)] for a list of [str], which is what an f-string renders. *)
Definition str_of_list (l : list string) : string :=
  "[" ++ join ", " (map repr l) ++ "]".

(** [str.isspace] on one code point below 256. *)
Definition is_space (c : ascii) : bool :=
  let n := nat_of_ascii c in
  ((9 <=? n)%nat && (n <=? 13)%nat) || ((28 <=? n)%nat && (n <=? 32)%nat)
  || (n =? 133)%nat || (n =? 160)%nat.

Fixpoint lstrip (s : string) : string :=
  match s with
  | EmptyString => EmptyString
  | String c t => if is_space c then lstrip t else s
  end.

Definition rev_string (s : string) : string :=
  string_of_list_ascii (rev (list_ascii_of_string s)).

(** [s.strip()]. *)
Definition strip (s : string) : string :=
  rev_string (lstrip (rev_string (lstrip s))).

(** [s.replace(a, b)] for single characters. *)
Fixpoint replace_char (a b : ascii) (s : string) : string :=
  match s with
  | EmptyString => EmptyString
  | String c t => String (if Ascii.eqb c a then b else c) (replace_char a b t)
  end.

(** [bool(l)] for a list. *)
Definition truthy_list {A : Type} (l : list A) : bool :=
  match l with
  | [] => false
  | _ => true
  end.

(** [bool(o)] for a value that is [None] or a list. *)
Definition truthy_olist {A : Type} (o : option (list A)) : bool :=
  match o with
  | Some l => truthy_list l
  | None => false
  end.

End PyStr.

(** ** Build targets (string constants, as in [class BuildTarget]) *)

Module BuildTarget.
Definition ANY : string := "any".
Definition LINUX : string := "linux".
Definition WINDOWS : string := "win".
Definition DARWIN : string := "darwin".
Definition SOLARIS : string := "solaris".
Definition BSD : string := "bsd".
Definition HAIKU : string := "haiku".
Definition UNKNOWN : string := "unknown".
End BuildTarget.

(** ** The header heuristic *)

(** The fragments listed in [hasCPPHeader]. *)
Definition asCPPHdr_base : list string :=
  [ "c++"; "iostream"; "Qt"; "qt"; "qglobal.h"; "qcoreapplication.h" ].

(** [hasCPPHeader(asHeader)].  The fragment list is extended with the headers
    and the final [any] ranges over that extended list on both sides: the
    elements tested and the fragments looked for. *)
Definition hasCPPHeader (asHeader : list string) : bool :=
  if (List.length asHeader =? 0)%nat then false
  else
    let asCPPHdr :=
      if PyStr.truthy_list asHeader then (asCPPHdr_base ++ asHeader)%list
      else asCPPHdr_base in
    existsb PyStr.truthy
      (filter (fun h => PyStr.truthy h
                        && existsb (fun c => PyStr.contains c h) asCPPHdr)
              asCPPHdr).

(** What the docstring of [hasCPPHeader] describes: some declared header
    carries one of the listed fragments. *)
Definition has_cpp_fragment (asHeader : list string) : bool :=
  existsb (fun h => existsb (fun c => PyStr.contains c h) asCPPHdr_base) asHeader.

(** ** The configuration store *)

(** A Python [dict] from [str] to [str]: keys are unique and iteration follows
    insertion order, so the model is an association list where [set] rewrites
    a present key in place and appends an absent one. *)
Module Dict.

Definition t : Type := list (string * string).

(** [d.get(k)]: [None] when the key is absent. *)
Fixpoint get (d : t) (k : string) : option string :=
  match d with
  | [] => None
  | (k', v) :: r => if k' =? k then Some v else get r k
  end.

(** [k in d]. *)
Definition has (d : t) (k : string) : bool :=
  match get d k with
  | Some _ => true
  | None => false
  end.

(** [d[k] = v]. *)
Fixpoint set (d : t) (k v : string) : t :=
  match d with
  | [] => [(k, v)]
  | (k', v') :: r => if k' =? k then (k, v) :: r else (k', v') :: set r k v
  end.

(** [del d[k]]. *)
Definition del (d : t) (k : string) : t :=
  filter (fun kv => negb (fst kv =? k)) d.

(** [d.update(u)]. *)
Definition update (d u : t) : t :=
  fold_left (fun acc kv => set acc (fst kv) (snd kv)) u d.

Definition keys (d : t) : list string := map fst d.

(** The keys of a [dict] are pairwise distinct. *)
Definition wf (d : t) : Prop := NoDup (keys d).

End Dict.

(** The result of calling one transform expression: a [dict], or anything
    else, which [transform] ignores. *)
Inductive RuleResult : Type :=
| RDict (d : Dict.t)
| ROther.

Module EnvManager.

(** [set(sKey, sVal)]: [None] skips setting altogether, every [str] is stored,
    the empty one included. *)
Definition set (env : Dict.t) (sKey : string) (sVal : option string) : Dict.t :=
  match sVal with
  | None => env
  | Some v => Dict.set env sKey v
  end.

(** [unset(sKey)]. *)
Definition unset (env : Dict.t) (sKey : string) : Dict.t :=
  if Dict.has env sKey then Dict.del env sKey else env.

(** [get(key, default)]. *)
Definition get (env : Dict.t) (key : string) (default : option string) : option string :=
  match Dict.get env key with
  | Some v => Some v
  | None => default
  end.

(** [__getitem__]: the value, [None] when the key is absent. *)
Definition getitem (env : Dict.t) (sName : string) : option string :=
  get env sName None.

(** [append(sKey, sVal)] for a [str] value. *)
Definition append (env : Dict.t) (sKey sVal : string) : Dict.t :=
  set env sKey
      (match Dict.get env sKey with
       | Some old => Some (old ++ sVal)
       | None => Some sVal
       end).

(** [prependPath(sKey, sPath, enmBuildTarget)]; the caller's default for
    [enmBuildTarget] is the host target. *)
Definition prependPath (env : Dict.t) (sKey : string) (sPath : option string)
           (enmBuildTarget : string) : Dict.t :=
  match sPath with
  | None => env
  | Some p =>
      if negb (PyStr.truthy p) || (String.length p =? 0)%nat then env
      else
        match Dict.get env sKey with
        | None => set env sKey (Some p)
        | Some old =>
            let sDelim := if enmBuildTarget =? BuildTarget.WINDOWS then ";" else ":" in
            set env sKey (Some (p ++ sDelim ++ old))
        end
  end.

(** One iteration of the loop of [transform]: the expression is called on the
    store as it is now, and a [dict] result is merged into it.  An expression
    is a function of the store: it returns a value and leaves the dict it is
    handed as it is, which is what the lambdas of [envTransforms] do. *)
Definition transform_step (env : Dict.t) (exprCur : Dict.t -> RuleResult) : Dict.t :=
  match exprCur env with
  | RDict result => Dict.update env result
  | ROther => env
  end.

(** [transform(mapTransform)]. *)
Definition transform (env : Dict.t) (mapTransform : list (Dict.t -> RuleResult)) : Dict.t :=
  fold_left transform_step mapTransform env.

(** What a rule list would compute if every rule were evaluated on the store
    as it was before the first rule ran.  Not what [transform] does; used to
    tell the two readings apart. *)
Definition transform_frozen (env : Dict.t) (mapTransform : list (Dict.t -> RuleResult)) : Dict.t :=
  fold_left (fun acc exprCur =>
               match exprCur env with
               | RDict result => Dict.update acc result
               | ROther => acc
               end) mapTransform env.

End EnvManager.

(** ** The transform rules of [main] *)

(** [bool(g_oEnv[k])]: the key is present with a non-empty value. *)
Definition flag (env : Dict.t) (k : string) : bool :=
  PyStr.truthy_opt (EnvManager.getitem env k).

(** [g_oEnv[k] == s]. *)
Definition flag_is (env : Dict.t) (k s : string) : bool :=
  PyStr.eq_opt (EnvManager.getitem env k) s.

(** [envTransforms], in declaration order.  Each lambda reads the global store
    [g_oEnv], which is the store [transform] is called on and updates. *)
Definition envTransforms : list (Dict.t -> RuleResult) :=
  [ (fun env => RDict (if flag env "VBOX_ONLY_ADDITIONS" || flag_is env "VBOX_WITH_DOCS" ""
                       then [("VBOX_WITH_DOCS_PACKING", "")] else []));
    (fun env => RDict (if flag env "VBOX_ONLY_ADDITIONS" || flag_is env "VBOX_OSE" "1"
                       then [("VBOX_WITH_EXTPACK_VNC", "")] else []));
    (fun env => RDict (if flag env "VBOX_ONLY_ADDITIONS"
                       then [("VBOX_WITH_WEBSERVICES", "")] else []));
    (fun env => RDict (if flag env "VBOX_OSE"
                       then [("VBOX_WITH_VALIDATIONKIT", ""); ("VBOX_WITH_WIN32_ADDITIONS", "")]
                       else []));
    (fun env => RDict (if flag env "VBOX_ONLY_ADDITIONS"
                       then [("VBOX_WITH_EXTPACK_PUEL_BUILD", "")] else []));
    (fun env => RDict (if flag env "CONFIG_LIBS_DISABLE_QT"
                       then [("VBOX_WITH_QTGUI", "")] else []));
    (fun env => RDict (if flag env "CONFIG_BUILD_HEADLESS"
                       then [("VBOX_WITH_HEADLESS", "1");
                             ("VBOX_WITH_QTGUI", "");
                             ("VBOX_WITH_SECURELABEL", "");
                             ("VBOX_WITH_VMSVGA3D", "");
                             ("VBOX_WITH_3D_ACCELERATION", "");
                             ("VBOX_GUI_USE_QGL", "")]
                       else []));
    (fun env => RDict (if flag env "CONFIG_LIBS_DISABLE_LIBVPX"
                       then [("VBOX_WITH_LIBVPX", ""); ("VBOX_WITH_RECORDING", "")]
                       else []));
    (fun env => RDict (if flag env "CONFIG_LIBS_DISABLE_LIBOGG"
                          && flag env "CONFIG_LIBS_DISABLE_LIBVORBIS"
                       then [("VBOX_WITH_LIBOGG", "");
                             ("VBOX_WITH_LIBVORBIS", "");
                             ("VBOX_WITH_AUDIO_RECORDING", "")]
                       else []));
    (fun env => RDict (if flag env "CONFIG_TOOLS_DISABLE_GSOAP"
                       then [("VBOX_WITH_GSOAP", ""); ("VBOX_WITH_WEBSERVICES", "")]
                       else []));
    (fun env => RDict (if flag env "CONFIG_DISABLE_COM"
                       then [("VBOX_WITH_MAIN", "");
                             ("VBOX_WITH_QTGUI", "");
                             ("VBOX_WITH_VBOXSDL", "");
                             ("VBOX_WITH_DEBUGGER_GUI", "")]
                       else [])) ].

(** The shape shared by the rules: a condition on the store and the [dict]
    returned when it holds ([{}] otherwise). *)
Record Rule : Type := mkRule {
  rule_cond : Dict.t -> bool;
  rule_out : Dict.t
}.

Definition run_rule (r : Rule) : Dict.t -> RuleResult :=
  fun env => RDict (if rule_cond r env then rule_out r else []).

(** [envTransforms] read off as conditions and outputs. *)
Definition envRules : list Rule :=
  [ mkRule (fun env => flag env "VBOX_ONLY_ADDITIONS" || flag_is env "VBOX_WITH_DOCS" "")
           [("VBOX_WITH_DOCS_PACKING", "")];
    mkRule (fun env => flag env "VBOX_ONLY_ADDITIONS" || flag_is env "VBOX_OSE" "1")
           [("VBOX_WITH_EXTPACK_VNC", "")];
    mkRule (fun env => flag env "VBOX_ONLY_ADDITIONS")
           [("VBOX_WITH_WEBSERVICES", "")];
    mkRule (fun env => flag env "VBOX_OSE")
           [("VBOX_WITH_VALIDATIONKIT", ""); ("VBOX_WITH_WIN32_ADDITIONS", "")];
    mkRule (fun env => flag env "VBOX_ONLY_ADDITIONS")
           [("VBOX_WITH_EXTPACK_PUEL_BUILD", "")];
    mkRule (fun env => flag env "CONFIG_LIBS_DISABLE_QT")
           [("VBOX_WITH_QTGUI", "")];
    mkRule (fun env => flag env "CONFIG_BUILD_HEADLESS")
           [("VBOX_WITH_HEADLESS", "1");
            ("VBOX_WITH_QTGUI", "");
            ("VBOX_WITH_SECURELABEL", "");
            ("VBOX_WITH_VMSVGA3D", "");
            ("VBOX_WITH_3D_ACCELERATION", "");
            ("VBOX_GUI_USE_QGL", "")];
    mkRule (fun env => flag env "CONFIG_LIBS_DISABLE_LIBVPX")
           [("VBOX_WITH_LIBVPX", ""); ("VBOX_WITH_RECORDING", "")];
    mkRule (fun env => flag env "CONFIG_LIBS_DISABLE_LIBOGG"
                       && flag env "CONFIG_LIBS_DISABLE_LIBVORBIS")
           [("VBOX_WITH_LIBOGG", "");
            ("VBOX_WITH_LIBVORBIS", "");
            ("VBOX_WITH_AUDIO_RECORDING", "")];
    mkRule (fun env => flag env "CONFIG_TOOLS_DISABLE_GSOAP")
           [("VBOX_WITH_GSOAP", ""); ("VBOX_WITH_WEBSERVICES", "")];
    mkRule (fun env => flag env "CONFIG_DISABLE_COM")
           [("VBOX_WITH_MAIN", "");
            ("VBOX_WITH_QTGUI", "");
            ("VBOX_WITH_VBOXSDL", "");
            ("VBOX_WITH_DEBUGGER_GUI", "")] ].

(** Every key some rule reads. *)
Definition envReads : list string :=
  [ "VBOX_ONLY_ADDITIONS"; "VBOX_WITH_DOCS"; "VBOX_OSE"; "CONFIG_LIBS_DISABLE_QT";
    "CONFIG_BUILD_HEADLESS"; "CONFIG_LIBS_DISABLE_LIBVPX"; "CONFIG_LIBS_DISABLE_LIBOGG";
    "CONFIG_LIBS_DISABLE_LIBVORBIS"; "CONFIG_TOOLS_DISABLE_GSOAP"; "CONFIG_DISABLE_COM" ].

(** Every pair some rule writes. *)
Definition envWrites : Dict.t := flat_map rule_out envRules.

(** ** The host *)

(** The Python exceptions the probing code meets.  [PermissionError] and
    [FileNotFoundError] are subclasses of [OSError]; [OSError_other] stands for
    every other [OSError]. *)
Inductive PyExn : Type :=
| TypeError
| AssertionError
| AttributeError
| PermissionError
| FileNotFoundError
| OSError_other
| SubprocessError.

(** [isinstance(e, OSError)]. *)
Definition is_OSError (e : PyExn) : bool :=
  match e with
  | PermissionError | FileNotFoundError | OSError_other => true
  | _ => false
  end.

Inductive NodeKind : Type := File | Dir.

(** What [subprocess.run] does for the compiler: it raises, or the child exits
    with a return code and its decoded output; [co_image] tells whether the
    child wrote the output binary. *)
Inductive CompileOutcome : Type :=
| CompileRaises (e : PyExn)
| CompileExits (returncode : Z) (stdout stderr : string) (co_image : bool).

(** What [subprocess.run] does for the test binary. *)
Inductive RunOutcome : Type :=
| RunRaises (e : PyExn)
| RunExits (returncode : Z) (stdout stderr : string).

(** Everything the script asks of its host during one probe.  The filesystem
    the searches look at is [fs_node]; [os.path] is the flavour of the host. *)
Record World : Type := mkWorld {
  g_sScriptPath : string;
  g_enmHostTarget : string;
  g_fDebug : bool;
  platform_machine : string;
  os_sep : string;
  os_path_join : string -> string -> string;
  os_path_relpath : string -> string -> string;
  os_path_basename : string -> string;
  os_path_normpath : string -> string;
  fs_node : string -> option NodeKind;
  glob_glob : string -> list string;
  os_walk : string -> list (string * list string);
  tempfile_gettempdir : string;
  tempfile_gettempdir_raises : option PyExn;
  tempfile_mkdtemp : string;
  tempfile_mkdtemp_raises : option PyExn;
  open_write : string -> option PyExn;
  os_remove_denied : string -> bool;
  run_compiler : list string -> Dict.t -> CompileOutcome;
  run_image : string -> Dict.t -> RunOutcome;
  getWinError : Z -> option string
}.

(** [os.path.exists], [os.path.isdir], [os.path.isfile]. *)
Definition os_path_exists (w : World) (p : string) : bool :=
  match fs_node w p with
  | Some _ => true
  | None => false
  end.

Definition os_path_isdir (w : World) (p : string) : bool :=
  match fs_node w p with
  | Some Dir => true
  | _ => false
  end.

Definition os_path_isfile (w : World) (p : string) : bool :=
  match fs_node w p with
  | Some File => true
  | _ => false
  end.

(** [os.path.join(a, b, c)]. *)
Definition os_path_join3 (w : World) (a b c : string) : string :=
  os_path_join w (os_path_join w a b) c.

(** [getLinuxGnuTypeFromPlatform()]: [None] for a machine not in the map. *)
Definition getLinuxGnuTypeFromPlatform (w : World) : option string :=
  let m := platform_machine w in
  if m =? "x86_64" then Some "x86_64-linux-gnu"
  else if m =? "amd64" then Some "x86_64-linux-gnu"
  else if m =? "i386" then Some "i386-linux-gnu"
  else if m =? "i686" then Some "i386-linux-gnu"
  else if m =? "aarch64" then Some "aarch64-linux-gnu"
  else if m =? "arm64" then Some "aarch64-linux-gnu"
  else if m =? "armv7l" then Some "arm-linux-gnueabihf"
  else if m =? "armv6l" then Some "arm-linux-gnueabi"
  else if m =? "ppc64le" then Some "powerpc64le-linux-gnu"
  else if m =? "s390x" then Some "s390x-linux-gnu"
  else if m =? "riscv64" then Some "riscv64-linux-gnu"
  else None.

(** ** Probes and the state of a run *)

(** The attributes of a [LibraryCheck] object. *)
Record LibraryCheck : Type := mkLibraryCheck {
  sName : string;
  asIncFiles : list string;
  asLibFiles : list string;
  sCode : option string;
  aeTargets : list string;
  aeTargetsExcluded : list string;
  asAltIncFiles : list string;
  fDisabled : bool;
  sCustomPath : option string;
  asIncPaths : option (list string);
  asLibPaths : option (list string);
  fHave : option bool;
  sVer : option string
}.

(** [LibraryCheck.__init__]. *)
Definition LibraryCheck_init (sName : string) (asIncFiles asLibFiles aeTargets : list string)
           (sCode : option string) (aeTargetsExcluded asAltIncFiles : list string)
  : LibraryCheck :=
  mkLibraryCheck sName asIncFiles asLibFiles sCode aeTargets aeTargetsExcluded
                 asAltIncFiles false None None None None None.

(** What a probe does that a claim may count. *)
Inductive Event : Type :=
| EvHeaderSearch (name : string)
| EvLibrarySearch (name : string)
| EvHarness (name : string)
| EvCompilerSpawn (asCmd : list string)
| EvImageSpawn (sFileImage : string).

(** The mutable state of a run as one probe sees it: the probe itself, the
    global error counter, the global store [g_oEnv.env], the temporary files
    and directories that exist, and the log of events so far (latest last). *)
Record State : Type := mkState {
  self : LibraryCheck;
  g_cErrors : nat;
  g_oEnv : Dict.t;
  fs_tmp : list string;
  trace : list Event
}.

Definition with_self (f : LibraryCheck -> LibraryCheck) (s : State) : State :=
  mkState (f (self s)) (g_cErrors s) (g_oEnv s) (fs_tmp s) (trace s).

Definition with_env (f : Dict.t -> Dict.t) (s : State) : State :=
  mkState (self s) (g_cErrors s) (f (g_oEnv s)) (fs_tmp s) (trace s).

Definition with_fs (f : list string -> list string) (s : State) : State :=
  mkState (self s) (g_cErrors s) (g_oEnv s) (f (fs_tmp s)) (trace s).

(** ** A state monad with exceptions *)

Inductive Res (A : Type) : Type :=
| Ok (a : A) (s : State)
| Raise (e : PyExn) (s : State).
Arguments Ok {A} a s.
Arguments Raise {A} e s.

Definition M (A : Type) : Type := State -> Res A.

Definition ret {A : Type} (a : A) : M A := fun s => Ok a s.

Definition bind {A B : Type} (m : M A) (k : A -> M B) : M B :=
  fun s => match m s with
           | Ok a s' => k a s'
           | Raise e s' => Raise e s'
           end.

Definition raise {A : Type} (e : PyExn) : M A := fun s => Raise e s.

(** [try: m  except ...: h e], for the exceptions [catches] accepts. *)
Definition try_except {A : Type} (m : M A) (catches : PyExn -> bool) (h : PyExn -> M A) : M A :=
  fun s => match m s with
           | Ok a s' => Ok a s'
           | Raise e s' => if catches e then h e s' else Raise e s'
           end.

Definition gets {A : Type} (f : State -> A) : M A := fun s => Ok (f s) s.

Definition update_state (f : State -> State) : M unit := fun s => Ok tt (f s).

Notation "x <- m ;; k" := (bind m (fun x => k))
  (at level 61, m at next level, right associativity).
Notation "m ;;; k" := (bind m (fun _ => k))
  (at level 61, right associativity).

(** [when c m]: [if c: m]. *)
Definition when (c : bool) (m : M unit) : M unit := if c then m else ret tt.

(** [for x in l: body x]. *)
Fixpoint for_each {A : Type} (l : list A) (body : A -> M unit) : M unit :=
  match l with
  | [] => ret tt
  | x :: t => body x ;;; for_each t body
  end.

(** [printError(sMessage, fDontCount = ...)]: the message goes to stderr, the
    global counter moves unless told otherwise. *)
Definition printError (fDontCount : bool) : M unit :=
  update_state (fun s => if fDontCount then s
                   else mkState (self s) (S (g_cErrors s)) (g_oEnv s) (fs_tmp s) (trace s)).

Definition log_event (e : Event) : M unit :=
  update_state (fun s => mkState (self s) (g_cErrors s) (g_oEnv s) (fs_tmp s) (trace s ++ [e])%list).

(** ** The compile-and-execute harness *)

(** [getLinkerArgs(enmBuildTarget, asLibFiles)]. *)
Definition getLinkerArgs (enmBuildTarget : option string) (asLibFiles : list string)
  : list string :=
  if negb (PyStr.truthy_list asLibFiles) then []
  else
    List.app
      (if PyStr.eq_opt enmBuildTarget BuildTarget.WINDOWS then ["/link"] else [])
      (map (fun sLibCur =>
              if PyStr.eq_opt enmBuildTarget BuildTarget.WINDOWS then sLibCur ++ ".lib"
              else if prefix "lib" sLibCur
                   then "-l" ++ substring 3 (String.length sLibCur - 3) sLibCur
                   else "-l" ++ ":" ++ sLibCur)
           asLibFiles).

(** The compiler [compileAndExecute] picks: the C++ one on the Windows target,
    otherwise by [hasCPPHeader]; [None] when the store has no such key. *)
Definition select_compiler (env : Dict.t) (enmBuildTarget : option string)
           (asIncFiles : list string) : option string :=
  if PyStr.eq_opt enmBuildTarget BuildTarget.WINDOWS
  then EnvManager.getitem env "config_cpp_compiler"
  else if hasCPPHeader asIncFiles
       then EnvManager.getitem env "config_cpp_compiler"
       else EnvManager.getitem env "config_c_compiler".

Definition remove_path (p : string) (fs : list string) : list string :=
  filter (fun q => negb (q =? p)) fs.

Definition add_path (p : string) (fs : list string) : list string :=
  if PyStr.mem p fs then fs else (fs ++ [p])%list.

(** [tempfile.gettempdir()]: the directory for temporary files, or the
    exception it raises when no directory is usable. *)
Definition gettempdir (w : World) : M string :=
  match tempfile_gettempdir_raises w with
  | Some e => raise e
  | None => ret (tempfile_gettempdir w)
  end.

(** [tempfile.mkdtemp()]: a fresh directory, which now exists, or the
    exception it raises when the directory cannot be made. *)
Definition mkdtemp (w : World) : M string :=
  match tempfile_mkdtemp_raises w with
  | Some e => raise e
  | None =>
      update_state (with_fs (add_path (tempfile_mkdtemp w))) ;;;
      ret (tempfile_mkdtemp w)
  end.

(** [with open(sFileSource, "w") as fh: fh.write(sCode)]. *)
Definition write_source (w : World) (sFileSource : string) : M unit :=
  match open_write w sFileSource with
  | Some e => raise e
  | None => update_state (with_fs (add_path sFileSource))
  end.

(** [os.remove(p)]. *)
Definition os_remove (w : World) (p : string) : M unit :=
  fun s =>
    if os_remove_denied w p then Raise PermissionError s
    else if PyStr.mem p (fs_tmp s) then Ok tt (with_fs (remove_path p) s)
    else Raise FileNotFoundError s.

(** [os.rmdir(d)]: refused while something is left inside the directory. *)
Definition os_rmdir (w : World) (d : string) : M unit :=
  fun s =>
    if existsb (fun p => prefix (d ++ os_sep w) p) (fs_tmp s) then Raise OSError_other s
    else if PyStr.mem d (fs_tmp s) then Ok tt (with_fs (remove_path d) s)
    else Raise FileNotFoundError s.

(** The block under [# Clean up.]. *)
Definition cleanup (w : World) (asFilesToDelete : list string) (sTempDir : string) : M unit :=
  try_except
    (when (negb (g_fDebug w))
          (for_each asFilesToDelete
                    (fun sFileToDel =>
                       try_except (os_remove w sFileToDel)
                                  (fun e => match e with PermissionError => true | _ => false end)
                                  (fun _ => ret tt)) ;;;
           os_rmdir w sTempDir))
    is_OSError
    (fun _ => ret tt).

Definition HarnessResult : Type := (bool * option string * option string)%type.

(** The body of the outer [try] of [compileAndExecute]: compile, then run. *)
Definition compile_and_run (w : World) (enmBuildTarget : option string)
           (asCmd : list string) (sFileImage : string) (fLog : bool) : M HarnessResult :=
  log_event (EvCompilerSpawn asCmd) ;;;
  env <- gets g_oEnv ;;
  match run_compiler w asCmd env with
  | CompileRaises e => raise e
  | CompileExits rc sOut sErr fImage =>
      when fImage (update_state (with_fs (add_path sFileImage))) ;;;
      if negb (rc =? 0)%Z then
        when fLog (printError true ;;; printError true ;;; printError true ;;; printError false) ;;;
        ret (false, Some sOut, Some sErr)
      else
        try_except
          (log_event (EvImageSpawn sFileImage) ;;;
           match run_image w sFileImage env with
           | RunRaises e => raise e
           | RunExits rc2 sOut2 sErr2 =>
               if (rc2 =? 0)%Z then ret (true, Some (PyStr.strip sOut2), None)
               else
                 when fLog
                      (printError false ;;;
                       when (PyStr.eq_opt enmBuildTarget BuildTarget.WINDOWS)
                            (match getWinError w rc2 with
                             | Some _ => printError true
                             | None => raise AttributeError
                             end) ;;;
                       when (PyStr.truthy sErr2) (printError true)) ;;;
                 ret (false, None, Some sErr2)
           end)
          (fun e => match e with SubprocessError => true | _ => false end)
          (fun _ => when fLog (printError false ;;; printError true) ;;;
                    ret (false, None, None))
  end.

(** [compileAndExecute(sName, enmBuildTarget, enmBuildArch, asIncPaths,
    asLibPaths, asIncFiles, asLibFiles, sCode, oEnv = None, fLog)], with the
    process environment being the global store. *)
Definition compileAndExecute (w : World) (sName : string) (enmBuildTarget : option string)
           (asIncPaths asLibPaths : option (list string)) (asIncFiles asLibFiles : list string)
           (sCode : string) (fLog : bool) : M HarnessResult :=
  log_event (EvHarness sName) ;;;
  env0 <- gets g_oEnv ;;
  match select_compiler env0 enmBuildTarget asIncFiles with
  | None => raise AssertionError
  | Some sCompiler =>
      let fWin := PyStr.eq_opt enmBuildTarget BuildTarget.WINDOWS in
      sTempDir <- (if g_fDebug w then gettempdir w else mkdtemp w) ;;
      let sFileSource :=
        os_path_join w sTempDir
                     (if PyStr.contains "g++" sCompiler || PyStr.contains "cl.exe" sCompiler
                      then "testlib.cpp" else "testlib.c") in
      let sFileImage := os_path_join w sTempDir (if negb fWin then "a.out" else "a.exe") in
      let asFilesToDelete := [sFileSource; sFileImage] in
      write_source w sFileSource ;;;
      let incs := match asIncPaths with Some l => l | None => [] end in
      let libs := match asLibPaths with Some l => l | None => [] end in
      when fWin
           (for_each incs (fun sIncPath =>
              update_state (with_env (fun e =>
                EnvManager.prependPath e "INCLUDE" (Some sIncPath) (g_enmHostTarget w)))) ;;;
            for_each libs (fun sLibPath =>
              update_state (with_env (fun e =>
                EnvManager.prependPath e "LIB" (Some sLibPath) (g_enmHostTarget w))))) ;;;
      let asCmd :=
        List.concat
          [ [sCompiler];
            (if g_fDebug w && fWin then ["/showIncludes"] else []);
            (if fWin then [sFileSource; "/Fe:" ++ sFileImage]
             else List.concat [ map (fun sIncPath => "-I" ++ sIncPath) incs;
                                map (fun sLibPath => "-L" ++ sLibPath) libs;
                                [sFileSource; "-o"; sFileImage] ]);
            getLinkerArgs enmBuildTarget asLibFiles ] in
      r <- try_except
             (compile_and_run w enmBuildTarget asCmd sFileImage fLog)
             (fun e => match e with
                       | PermissionError | FileNotFoundError | SubprocessError => true
                       | _ => false
                       end)
             (fun e => match e with
                       | PermissionError => printError true
                       | _ => printError true ;;; printError true ;;; printError false
                       end ;;;
                       ret (false, None, None)) ;;
      cleanup w asFilesToDelete sTempDir ;;;
      ret r
  end.

(** ** The methods of [LibraryCheck] *)

(** The value bound to [header] in [getTestCode]: the list [asIncFiles] itself
    when it is not empty, else the first alternative header, else [None]. *)
Inductive HeaderVal : Type :=
| HdrList (l : list string)
| HdrStr (h : string)
| HdrNone.

(** How a pure computation ends: a value or an exception. *)
Inductive Try (A : Type) : Type :=
| Val (a : A)
| Err (e : PyExn).
Arguments Val {A} a.
Arguments Err {A} e.

Definition lift_try {A : Type} (t : Try A) : M A :=
  match t with
  | Val a => ret a
  | Err e => raise e
  end.

(** The regular expression [-([\d\.]+)$]: the class [[\d\.]]. *)
Definition is_ver_char (c : ascii) : bool :=
  let n := nat_of_ascii c in
  ((48 <=? n)%nat && (n <=? 57)%nat) || (n =? 46)%nat.

(** The longest run of version characters at the head of [s], and the rest. *)
Fixpoint span_ver (s : string) : string * string :=
  match s with
  | EmptyString => (EmptyString, EmptyString)
  | String c t =>
      if is_ver_char c
      then let '(run, rest) := span_ver t in (String c run, rest)
      else (EmptyString, s)
  end.

(** [re.search(r'-([\d\.]+)$', s)], giving [group(1)]: the leftmost dash
    followed by one or more version characters up to the end of the string
    (or up to a final newline, where [$] also matches). *)
Fixpoint re_search_version (s : string) : option string :=
  match s with
  | EmptyString => None
  | String c t =>
      if (nat_of_ascii c =? 45)%nat then
        let '(run, rest) := span_ver t in
        if PyStr.truthy run && ((rest =? EmptyString) || (rest =? PyStr.nl))
        then Some run
        else re_search_version t
      else re_search_version t
  end.

Module LibCheck.

Definition header_of (p : LibraryCheck) : HeaderVal :=
  if PyStr.truthy_list (asIncFiles p) then HdrList (asIncFiles p)
  else match asAltIncFiles p with
       | h :: _ => HdrStr h
       | [] => HdrNone
       end.

Definition header_truthy (h : HeaderVal) : bool :=
  match h with
  | HdrList l => PyStr.truthy_list l
  | HdrStr s => PyStr.truthy s
  | HdrNone => false
  end.

(** What [{header}] renders inside an f-string. *)
Definition header_str (h : HeaderVal) : string :=
  match h with
  | HdrList l => PyStr.str_of_list l
  | HdrStr s => s
  | HdrNone => "None"
  end.

(** The two programs [getTestCode] synthesizes around [{header}]. *)
Definition cpp_program (header : string) : string :=
  "#include <" ++ header ++ ">" ++ PyStr.nl ++ "#include <iostream>" ++ PyStr.nl
  ++ "int main() { std::cout << " ++ PyStr.dq ++ "1" ++ PyStr.dq
  ++ " << std::endl; return 0; }" ++ PyStr.nl.

Definition c_program (header : string) : string :=
  "#include <" ++ header ++ ">" ++ PyStr.nl ++ "#include <stdio.h>" ++ PyStr.nl
  ++ "int main(void) { printf(" ++ PyStr.dq ++ "<found>" ++ PyStr.dq
  ++ "); return 0; }" ++ PyStr.nl.

(** [getTestCode()]. *)
Definition getTestCode (p : LibraryCheck) : string :=
  let header := header_of p in
  if negb (header_truthy header) then EmptyString
  else if PyStr.truthy_opt (sCode p) then
    let code := match sCode p with Some c => c | None => EmptyString end in
    if hasCPPHeader (asIncFiles p)
    then "#include <iostream>" ++ PyStr.nl ++ code
    else "#include <stdio.h>" ++ PyStr.nl ++ code
  else if hasCPPHeader (asIncFiles p) then cpp_program (header_str header)
  else c_program (header_str header).

Definition set_sVer (v : option string) (p : LibraryCheck) : LibraryCheck :=
  mkLibraryCheck (sName p) (asIncFiles p) (asLibFiles p) (sCode p) (aeTargets p)
                 (aeTargetsExcluded p) (asAltIncFiles p) (fDisabled p) (sCustomPath p)
                 (asIncPaths p) (asLibPaths p) (fHave p) v.

Definition set_fHave (v : option bool) (p : LibraryCheck) : LibraryCheck :=
  mkLibraryCheck (sName p) (asIncFiles p) (asLibFiles p) (sCode p) (aeTargets p)
                 (aeTargetsExcluded p) (asAltIncFiles p) (fDisabled p) (sCustomPath p)
                 (asIncPaths p) (asLibPaths p) v (sVer p).

Definition set_asIncPaths (v : option (list string)) (p : LibraryCheck) : LibraryCheck :=
  mkLibraryCheck (sName p) (asIncFiles p) (asLibFiles p) (sCode p) (aeTargets p)
                 (aeTargetsExcluded p) (asAltIncFiles p) (fDisabled p) (sCustomPath p)
                 v (asLibPaths p) (fHave p) (sVer p).

Definition set_asLibPaths (v : option (list string)) (p : LibraryCheck) : LibraryCheck :=
  mkLibraryCheck (sName p) (asIncFiles p) (asLibFiles p) (sCode p) (aeTargets p)
                 (aeTargetsExcluded p) (asAltIncFiles p) (fDisabled p) (sCustomPath p)
                 (asIncPaths p) v (fHave p) (sVer p).

(** [setArgs(args)]: the two attributes read from the parsed arguments. *)
Definition setArgs (disable : bool) (path : option string) (p : LibraryCheck) : LibraryCheck :=
  mkLibraryCheck (sName p) (asIncFiles p) (asLibFiles p) (sCode p) (aeTargets p)
                 (aeTargetsExcluded p) (asAltIncFiles p) disable path
                 (asIncPaths p) (asLibPaths p) (fHave p) (sVer p).

(** [x.extend([v])] after [if not x: x = []]. *)
Definition extend_paths (x : option (list string)) (v : string) : option (list string) :=
  if PyStr.truthy_olist x
  then match x with Some l => Some (l ++ [v])%list | None => Some [v] end
  else Some [v].

(** The method [compileAndExecute(enmBuildTarget, enmBuildArch)]: the captured
    output becomes [sVer] when the run succeeded and printed something. *)
Definition compileAndExecute (w : World) (enmBuildTarget : option string) : M HarnessResult :=
  p <- gets self ;;
  r <- compileAndExecute w (sName p) enmBuildTarget (asIncPaths p) (asLibPaths p)
                         (asIncFiles p) (asLibFiles p) (getTestCode p) true ;;
  let '(fRc, sStdOut, sStdErr) := r in
  when (fRc && PyStr.truthy_opt sStdOut)
       (update_state (with_self (set_sVer sStdOut))) ;;;
  ret r.

(** The drive letters [getIncSearchPaths] and [getLibSearchPaths] try. *)
Definition drive_letters : list string :=
  [ "C"; "D"; "E"; "F"; "G"; "H"; "I"; "J"; "K"; "L"; "M"; "N"; "O"; "P"; "Q"; "R";
    "S"; "T"; "U"; "V"; "W"; "X"; "Y"; "Z" ].

Definition root_drives (w : World) : list string :=
  filter (os_path_exists w) (map (fun d => d ++ ":") drive_letters).

(** The walk of the custom path: every directory of the walk that holds one of
    the wanted files is put in front, the latest find first. *)
Definition walk_custom (w : World) (sCustomPath : string) (asFiles : list string)
           (asPaths : list string) : list string :=
  fold_left
    (fun acc sFile =>
       fold_left
         (fun acc' entry =>
            if PyStr.mem sFile (snd entry) then fst entry :: acc' else acc')
         (os_walk w sCustomPath) acc)
    asFiles asPaths.

(** The candidate list of [getIncSearchPaths] before the final filter.  On a
    target other than Windows the GNU type is concatenated to a [str], which
    raises [TypeError] when the machine is not in the map. *)
Definition inc_candidates (w : World) (env : Dict.t) (p : LibraryCheck) : Try (list string) :=
  let first :=
    match sCustomPath p with
    | Some c => if PyStr.truthy c then [c]
                else [os_path_join3 w (g_sScriptPath w) "src/libs" (sName p)]
    | None => [os_path_join3 w (g_sScriptPath w) "src/libs" (sName p)]
    end in
  let platform : Try (list string) :=
    if PyStr.eq_opt (EnvManager.getitem env "KBUILD_TARGET") BuildTarget.WINDOWS then
      Val (List.app
             (match EnvManager.getitem env "VCPKG_ROOT" with
              | Some root => if PyStr.truthy root
                             then [os_path_join3 w root "packages" (sName p)] else []
              | None => []
              end)
             (flat_map (fun r =>
                          [ os_path_join w r "\msys64\mingw64\include";
                            os_path_join w r "\msys64\mingw32\include";
                            os_path_join w r "\include";
                            "c:\\Program Files"; "c:\\Program Files (x86)" ])
                       (root_drives w)))
    else
      match getLinuxGnuTypeFromPlatform w with
      | None => Err TypeError
      | Some sGnuType =>
          Val (List.app
                 [ "/usr/include"; "/usr/local/include";
                   "/usr/include/" ++ sGnuType; "/usr/local/include/" ++ sGnuType;
                   "/usr/include/" ++ sName p; "/usr/local/include/" ++ sName p;
                   "/opt/include"; "/opt/local/include" ]
                 (if PyStr.eq_opt (EnvManager.getitem env "KBUILD_TARGET") BuildTarget.DARWIN
                  then ["/opt/homebrew/include"] else []))
      end in
  match platform with
  | Err e => Err e
  | Val more =>
      let asPaths := List.app first more in
      let asPaths :=
        match sCustomPath p with
        | Some c => if PyStr.truthy c then walk_custom w c (asIncFiles p) asPaths else asPaths
        | None => asPaths
        end in
      Val (List.app asPaths [os_path_join w (g_sScriptPath w) "include"])
  end.

(** [getIncSearchPaths()]. *)
Definition getIncSearchPaths (w : World) (env : Dict.t) (p : LibraryCheck) : Try (list string) :=
  match inc_candidates w env p with
  | Err e => Err e
  | Val asPaths => Val (filter (os_path_isdir w) asPaths)
  end.

(** The candidate list of [getLibSearchPaths] before the final filter. *)
Definition lib_candidates (w : World) (env : Dict.t) (p : LibraryCheck) : Try (list string) :=
  let first :=
    match sCustomPath p with
    | Some c => if PyStr.truthy c then [os_path_join w c "lib"] else []
    | None => []
    end in
  let intree := [os_path_join3 w (g_sScriptPath w) "src/libs" (sName p)] in
  let target := EnvManager.getitem env "KBUILD_TARGET" in
  let platform : Try (list string) :=
    if PyStr.eq_opt target BuildTarget.WINDOWS then
      Val (List.app
             (match EnvManager.getitem env "VCPKG_ROOT" with
              | Some root => if PyStr.truthy root
                             then [os_path_join3 w root "packages" (sName p)] else []
              | None => []
              end)
             (flat_map (fun r =>
                          [ os_path_join w r "\msys64\mingw64\lib";
                            os_path_join w r "\msys64\mingw32\lib";
                            os_path_join w r "\lib";
                            "c:\\Program Files"; "c:\\Program Files (x86)" ])
                       (root_drives w)))
    else if PyStr.eq_opt target BuildTarget.LINUX || PyStr.eq_opt target BuildTarget.SOLARIS then
      match getLinuxGnuTypeFromPlatform w with
      | None => Err TypeError
      | Some sGnuType =>
          Val [ "/usr/lib"; "/usr/local/lib";
                "/usr/lib/" ++ sGnuType; "/opt/local/lib/" ++ sGnuType;
                "/usr/lib64"; "/lib"; "/lib64";
                "/opt/lib"; "/opt/local/lib" ]
      end
    else Val ["/opt/homebrew/lib"] in
  match platform with
  | Err e => Err e
  | Val more =>
      let asPaths := List.app first (List.app intree more) in
      Val (match sCustomPath p with
           | Some c => if PyStr.truthy c then walk_custom w c (asLibFiles p) asPaths else asPaths
           | None => asPaths
           end)
  end.

(** [getLibSearchPaths()]. *)
Definition getLibSearchPaths (w : World) (env : Dict.t) (p : LibraryCheck) : Try (list string) :=
  match lib_candidates w env p with
  | Err e => Err e
  | Val asPaths => Val (filter (os_path_exists w) asPaths)
  end.

(** The inner loop of [checkInc] for one header: the first search path that
    holds the header as a regular file. *)
Definition find_header (w : World) (asSearchPaths : list string) (sCurHeader : string)
  : option string :=
  find (fun sCurSearchPath => os_path_isfile w (os_path_join w sCurSearchPath sCurHeader))
       asSearchPaths.

(** The two nested loops of [checkInc]: the include paths recorded on the
    probe and the headers found, in order. *)
Definition scan_headers (w : World) (asSearchPaths asHeaderToSearch : list string)
           (asIncPaths0 : option (list string)) : option (list string) * list string :=
  fold_left
    (fun acc sCurHeader =>
       match find_header w asSearchPaths sCurHeader with
       | Some sCurSearchPath =>
           let sCurSearchPath :=
             if os_sep w =? "\" then PyStr.replace_char "/"%char "\"%char sCurSearchPath
             else sCurSearchPath in
           (extend_paths (fst acc) sCurSearchPath, (snd acc ++ [sCurHeader])%list)
       | None => acc
       end)
    asHeaderToSearch (asIncPaths0, []).

(** [checkInc()]. *)
Definition checkInc (w : World) : M bool :=
  p <- gets self ;;
  if negb (PyStr.truthy_list (asIncFiles p)) && negb (PyStr.truthy_list (asAltIncFiles p))
  then ret true
  else
    let asHeaderToSearch := List.app (asIncFiles p) (asAltIncFiles p) in
    log_event (EvHeaderSearch (sName p)) ;;;
    env <- gets g_oEnv ;;
    asSearchPaths <- lift_try (getIncSearchPaths w env p) ;;
    let '(paths, asHeaderFound) := scan_headers w asSearchPaths asHeaderToSearch (asIncPaths p) in
    update_state (with_self (set_asIncPaths paths)) ;;;
    if list_eq_dec string_dec asHeaderFound asHeaderToSearch
    then ret true
    else printError false ;;; ret false.

(** The extensions [checkLib] accepts on a target. *)
Definition lib_exts (target : option string) : list string :=
  if PyStr.eq_opt target BuildTarget.WINDOWS then [".lib"; ".dll"; ".a"; ".dll.a"]
  else if PyStr.eq_opt target BuildTarget.DARWIN then [".a"; ".dylib"; ".so"]
  else [".a"; ".so"].

(** The pattern [checkLib] globs for one path, base name and extension. *)
Definition lib_pattern (w : World) (sCurSearchPath sCurLib sCurExt : string) : string :=
  os_path_join w sCurSearchPath (sCurLib ++ "*" ++ sCurExt).

(** The four nested loops of [checkLib], in their order: every file some
    pattern matches, with the search path it was found under. *)
Definition lib_matches (w : World) (asSearchPaths asLibToSearch asLibExts : list string)
  : list (string * string) :=
  flat_map (fun sCurSearchPath =>
    flat_map (fun sCurLib =>
      flat_map (fun sCurExt =>
        map (fun sCurFile => (sCurSearchPath, sCurFile))
            (glob_glob w (lib_pattern w sCurSearchPath sCurLib sCurExt)))
        asLibExts)
      asLibToSearch)
    asSearchPaths.

(** [checkLib()].  The first match that is a regular file returns [True]; the
    list [asLibFound] is never added to, so the comparison after the loops
    compares the empty list with the declared libraries. *)
Definition checkLib (w : World) : M bool :=
  p <- gets self ;;
  if negb (PyStr.truthy_list (asLibFiles p)) then ret true
  else
    let asLibToSearch := asLibFiles p in
    log_event (EvLibrarySearch (sName p)) ;;;
    env <- gets g_oEnv ;;
    let asLibExts := lib_exts (EnvManager.getitem env "KBUILD_TARGET") in
    let asLibFound : list string := [] in
    asSearchPaths <- lift_try (getLibSearchPaths w env p) ;;
    match find (fun m => os_path_isfile w (snd m))
               (lib_matches w asSearchPaths asLibToSearch asLibExts) with
    | Some (sCurSearchPath, _) =>
        update_state (with_self (fun q => set_asLibPaths (extend_paths (asLibPaths q) sCurSearchPath) q)) ;;;
        ret true
    | None =>
        if list_eq_dec string_dec asLibFound asLibToSearch then ret true
        else printError false ;;; ret false
    end.

(** The pattern of the in-tree copy: [src/libs/<name>-*] under the script. *)
Definition intree_pattern (w : World) (p : LibraryCheck) : string :=
  os_path_join3 w (g_sScriptPath w) "src/libs" (sName p ++ "-*").

(** [performCheck()]. *)
Definition performCheck (w : World) : M bool :=
  p <- gets self ;;
  env <- gets g_oEnv ;;
  let target := EnvManager.getitem env "KBUILD_TARGET" in
  if PyStr.mem_opt target (aeTargetsExcluded p) then ret true
  else if fDisabled p then ret true
  else
    match (if negb (PyStr.truthy_opt (sCustomPath p))
           then glob_glob w (intree_pattern w p) else []) with
    | sCurMatch :: _ =>
        update_state (with_self (set_fHave (Some true))) ;;;
        match re_search_version (os_path_basename w (os_path_normpath w sCurMatch)) with
        | Some v => update_state (with_self (set_sVer (Some v)))
        | None => ret tt
        end ;;;
        update_state (with_self (fun q =>
          set_asIncPaths (extend_paths (asIncPaths q)
                                       (os_path_relpath w sCurMatch (g_sScriptPath w))) q)) ;;;
        ret true
    | [] =>
        update_state (with_self (set_fHave (Some false))) ;;;
        when (PyStr.mem_opt target (aeTargets p) || PyStr.mem BuildTarget.ANY (aeTargets p))
             (fInc <- checkInc w ;;
              when fInc
                   (fLib <- checkLib w ;;
                    when fLib
                         (r <- compileAndExecute w target ;;
                          update_state (with_self (set_fHave (Some (fst (fst r))))))) ;;;
              q <- gets self ;;
              when (negb (match fHave q with Some b => b | None => false end))
                   (printError false)) ;;;
        q <- gets self ;;
        ret (match fHave q with Some b => b | None => false end)
    end.

End LibCheck.

(** ** Example hosts *)

(** [posixpath.join(a, b)]. *)
Definition posix_join (a b : string) : string :=
  if prefix "/" b then b
  else if (a =? EmptyString) || (substring (String.length a - 1) 1 a =? "/") then a ++ b
  else a ++ "/" ++ b.

(** The part of [s] after its last slash, [acc] being the part read since the
    latest slash. *)
Fixpoint after_last_slash (s acc : string) : string :=
  match s with
  | EmptyString => acc
  | String c t =>
      if (nat_of_ascii c =? 47)%nat then after_last_slash t EmptyString
      else after_last_slash t (acc ++ String c EmptyString)
  end.

(** [posixpath.basename(p)]. *)
Definition posix_basename (p : string) : string := after_last_slash p EmptyString.

(** [posixpath.relpath(p, start)] for a path [p] below [start]. *)
Definition posix_relpath_below (p start : string) : string :=
  if prefix (start ++ "/") p
  then substring (String.length start + 1) (String.length p - String.length start - 1) p
  else p.

Definition lookup {A : Type} (l : list (string * A)) (k : string) : option A :=
  match find (fun kv => fst kv =? k) l with
  | Some kv => Some (snd kv)
  | None => None
  end.

(** A POSIX host with the script in [/vbox]: the filesystem is the table
    [nodes], [glob.glob] answers from the table [globs], the compiler and the
    test binary behave as [cc] and [run] say.  The paths used on it are
    normalized already, so [normpath] has nothing to do. *)
Definition posix_host (machine : string) (debug : bool)
           (nodes : list (string * NodeKind)) (globs : list (string * list string))
           (cc : CompileOutcome) (run : RunOutcome) : World :=
  mkWorld "/vbox" BuildTarget.LINUX debug machine "/"
          posix_join posix_relpath_below posix_basename (fun p => p)
          (lookup nodes)
          (fun pat => match lookup globs pat with Some l => l | None => [] end)
          (fun _ => [])
          "/tmp" None "/tmp/tmpq1w2e3" None
          (fun _ => None) (fun _ => false)
          (fun _ _ => cc) (fun _ _ => run)
          (fun _ => None).

(** The store of a Linux run with both compilers configured. *)
Definition linux_env : Dict.t :=
  [ ("KBUILD_TARGET", "linux"); ("KBUILD_TARGET_ARCH", "amd64");
    ("config_c_compiler", "gcc"); ("config_cpp_compiler", "g++") ].

Definition initial_state (p : LibraryCheck) (env : Dict.t) : State :=
  mkState p 0 env [] [].

(** The probe [zlib] of [g_aoLibs], and the same probe without test code. *)
Definition zlib_code : string :=
  "#include <zlib.h>" ++ PyStr.nl ++ "int main() { printf(" ++ PyStr.dq ++ "%s"
  ++ PyStr.dq ++ ", ZLIB_VERSION); return 0; }" ++ PyStr.nl.

Definition probe_zlib : LibraryCheck :=
  LibraryCheck_init "zlib" ["zlib.h"] ["libz"] [BuildTarget.ANY] (Some zlib_code) [] [].

Definition probe_zlib_nocode : LibraryCheck :=
  LibraryCheck_init "zlib" ["zlib.h"] ["libz"] [BuildTarget.ANY] None [] [].

(** The probe [xrandr] of [g_aoLibs], which declares two libraries. *)
Definition probe_xrandr : LibraryCheck :=
  LibraryCheck_init "xrandr" ["X11/extensions/Xrandr.h"] ["libXrandr"; "libX11"]
                    [BuildTarget.LINUX; BuildTarget.SOLARIS; BuildTarget.BSD]
                    (Some "int main() { return 0; }") [] [].

(** A compiler that fails without writing a binary, one that succeeds, and a
    test binary that prints a version. *)
Definition cc_fails : CompileOutcome := CompileExits 1 EmptyString "error: no such file" false.
Definition cc_ok : CompileOutcome := CompileExits 0 EmptyString EmptyString true.
Definition run_prints (out : string) : RunOutcome := RunExits 0 out EmptyString.

(** More hosts and probes used below. *)

(** A Linux host where only [/usr/include] and [/usr/lib] exist. *)
Definition host_usr_only : World :=
  posix_host "x86_64" false [("/usr/include", Dir); ("/usr/lib", Dir)] [] cc_ok
             (run_prints "1").

(** A Linux host with [libXrandr.so] in [/usr/lib] and no [libX11] anywhere. *)
Definition host_xrandr_only : World :=
  posix_host "x86_64" false
             [("/usr/lib", Dir); ("/usr/lib/libXrandr.so", File)]
             [("/usr/lib/libXrandr*.so", ["/usr/lib/libXrandr.so"])]
             cc_ok (run_prints "1").

(** A Linux host whose tree carries [src/libs/zlib-1.3.1]. *)
Definition host_intree_zlib : World :=
  posix_host "x86_64" false
             [("/vbox/src/libs/zlib-1.3.1", Dir)]
             [("/vbox/src/libs/zlib-*", ["/vbox/src/libs/zlib-1.3.1"])]
             cc_ok (run_prints "1").

(** The probe [zlib] after [--disable-zlib]. *)
Definition probe_zlib_disabled : LibraryCheck := LibCheck.setArgs true None probe_zlib.

(** A Linux host with [zlib.h] in [/usr/include] and nothing in [/usr/lib]. *)
Definition host_zlib_header_only : World :=
  posix_host "x86_64" false
             [("/usr/include", Dir); ("/usr/include/zlib.h", File); ("/usr/lib", Dir)]
             [] cc_ok (run_prints "1").

(** A Linux host whose compiler fails and writes no binary. *)
Definition host_cc_fails : World :=
  posix_host "x86_64" false [] [] cc_fails (run_prints "1").

(** A Linux host where the test compiles and prints the version. *)
Definition host_cc_ok : World :=
  posix_host "x86_64" false [] [] cc_ok (run_prints ("1.3.1" ++ PyStr.nl)).

(** A Linux host with [zlib.h] and [libz.so] installed, where the test
    compiles and prints the version. *)
Definition host_zlib_installed : World :=
  posix_host "x86_64" false
             [("/usr/include", Dir); ("/usr/include/zlib.h", File);
              ("/usr/lib", Dir); ("/usr/lib/libz.so", File)]
             [("/usr/lib/libz*.so", ["/usr/lib/libz.so"])]
             cc_ok (run_prints ("1.3.1" ++ PyStr.nl)).

(** The harness run for the probe [zlib] with its paths resolved. *)
Definition harness_zlib (w : World) : M HarnessResult :=
  compileAndExecute w "zlib" (Some BuildTarget.LINUX)
                    (Some ["/usr/include"]) (Some ["/usr/lib"])
                    ["zlib.h"] ["libz"] zlib_code true.

(** Two rules that tell the readings of [transform] apart: the second reads
    what the first wrote. *)
Definition chain_rules : list (Dict.t -> RuleResult) :=
  [ (fun env => RDict [("A", "1")]);
    (fun env => RDict (if flag env "A" then [("B", "1")] else [])) ].

(** ** Vocabulary of the statements *)

(** Every pair of [out] is in the store [env]. *)
Definition settled (env out : Dict.t) : Prop :=
  forall k v, In (k, v) out -> Dict.get env k = Some v.

(** One iteration of [transform] on a rule given by condition and output. *)
Definition step (env : Dict.t) (r : Rule) : Dict.t :=
  EnvManager.transform_step env (run_rule r).

(** Every rule of [l] whose condition holds has its output in the store. *)
Definition fired_settled (l : list Rule) (env : Dict.t) : Prop :=
  forall r, In r l -> rule_cond r env = true -> settled env (rule_out r).

(** The reading of the store the data model announces: every value present
    is a non-empty string. *)
Definition values_nonempty (env : Dict.t) : Prop :=
  forall k v, Dict.get env k = Some v -> v <> EmptyString.

(** A string of digits and dots. *)
Definition all_ver (v : string) : bool :=
  forallb is_ver_char (list_ascii_of_string v).

(** The events of the header and library searches. *)
Definition search_event (e : Event) : Prop :=
  match e with
  | EvHeaderSearch _ | EvLibrarySearch _ => True
  | _ => False
  end.

(** The state a computation ends in, returned or raised. *)
Definition state_of {A : Type} (r : Res A) : State :=
  match r with
  | Ok _ s => s
  | Raise _ s => s
  end.

(** ** More of [EnvManager]: modify, updateFromArgs and the writers *)

From Stdlib Require DecimalString.

(** A value of the [argparse] namespace: [None], a flag, a count or a string. *)
Inductive ArgVal : Type :=
| ANone
| ABool (b : bool)
| AInt (n : Z)
| AStr (s : string).

Module EnvOps.

(** [bool(v)]. *)
Definition arg_truthy (v : ArgVal) : bool :=
  match v with
  | ANone => false
  | ABool b => b
  | AInt n => negb (n =? 0)%Z
  | AStr s => PyStr.truthy s
  end.

(** [str(v)]. *)
Definition arg_str (v : ArgVal) : string :=
  match v with
  | ANone => "None"
  | ABool true => "True"
  | ABool false => "False"
  | AInt n => DecimalString.NilZero.string_of_int (Z.to_int n)
  | AStr s => s
  end.

(** [s.find(c)] for one character: the first index, [None] standing for -1. *)
Fixpoint find_char (c : ascii) (s : string) : option nat :=
  match s with
  | EmptyString => None
  | String a t =>
      if Ascii.eqb a c then Some 0
      else match find_char c t with
           | Some i => Some (S i)
           | None => None
           end
  end.

(** [modify(sKey, func)]: [None] stands for the [KeyError] raised on a key
    that is not set; [func] is the given function followed by [str]. *)
Definition modify (env : Dict.t) (sKey : string) (func : string -> string) : option Dict.t :=
  match Dict.get env sKey with
  | Some v => Some (Dict.set env sKey (func v))
  | None => None
  end.

(** [updateFromArgs(oArgs)] over the items of [vars(oArgs)], in their order.
    A key that does not start with [config_] is cut at its first [=]; index 0
    breaks out of the loop, and with no [=] at all [find] gives -1, so the key
    loses its last character and the whole key is the value. *)
Fixpoint updateFromArgs (env : Dict.t) (items : list (string * ArgVal)) : Dict.t :=
  match items with
  | [] => env
  | (sKey, aValue) :: rest =>
      if arg_truthy aValue then
        if prefix "config_" sKey
        then updateFromArgs (EnvManager.set env sKey (Some (arg_str aValue))) rest
        else
          match find_char "="%char sKey with
          | Some 0 => env
          | Some idxSep =>
              updateFromArgs
                (EnvManager.set env (substring 0 idxSep sKey)
                   (Some (substring (idxSep + 1) (String.length sKey - (idxSep + 1)) sKey)))
                rest
          | None =>
              updateFromArgs
                (EnvManager.set env (substring 0 (String.length sKey - 1) sKey) (Some sKey))
                rest
          end
      else updateFromArgs env rest
  end.

(** A file handle opened for writing: the strings written so far. *)
Definition Handle : Type := list string.

(** [write_single(fh, sKey, sVal, sWhat)]. *)
Definition write_single (fh : Handle) (sKey sVal : string) (sWhat : option string) : Handle :=
  let sVal := PyStr.replace_char "\"%char "/"%char sVal in
  List.app fh
           [(if PyStr.truthy_opt sWhat
             then match sWhat with Some x => x | None => EmptyString end
             else EmptyString)
            ++ sKey ++ "=" ++ sVal ++ PyStr.nl].

(** [any(sKey.startswith(p) for p in l)]. *)
Definition starts_with_any (sKey : string) (l : list string) : bool :=
  existsb (fun p => prefix p sKey) l.

(** The two [continue] tests of [write_all]. *)
Definition skipped (sKey : string) (asPrefixInclude asPrefixExclude : option (list string)) : bool :=
  (PyStr.truthy_olist asPrefixExclude
   && starts_with_any sKey (match asPrefixExclude with Some l => l | None => [] end))
  || (PyStr.truthy_olist asPrefixInclude
      && negb (starts_with_any sKey (match asPrefixInclude with Some l => l | None => [] end))).

(** [write_all(fh, sWhat, asPrefixInclude, asPrefixExclude)]; it returns
    [True]. *)
Definition write_all (env : Dict.t) (fh : Handle) (sWhat : option string)
           (asPrefixInclude asPrefixExclude : option (list string)) : Handle :=
  fold_left
    (fun fh kv =>
       if skipped (fst kv) asPrefixInclude asPrefixExclude then fh
       else if PyStr.truthy (snd kv) then write_single fh (fst kv) (snd kv) sWhat
       else fh)
    env fh.

(** The word [write_all_as_exports] and [write_as_export] put in front. *)
Definition export_word (enmBuildTarget : string) : string :=
  if enmBuildTarget =? BuildTarget.WINDOWS then "set " else "export ".

(** [write_all_as_exports(fh, enmBuildTarget, asPrefixInclude, asPrefixExclude)]. *)
Definition write_all_as_exports (env : Dict.t) (fh : Handle) (enmBuildTarget : string)
           (asPrefixInclude asPrefixExclude : option (list string)) : Handle :=
  write_all env fh (Some (export_word enmBuildTarget)) asPrefixInclude asPrefixExclude.

(** [write(fh, sKey, sWhat)]: the handle and the value returned. *)
Definition write (env : Dict.t) (fh : Handle) (sKey : string) (sWhat : option string)
  : Handle * bool :=
  match Dict.get env sKey with
  | Some sVal =>
      if PyStr.truthy sVal then (write_single fh sKey sVal sWhat, true) else (fh, false)
  | None => (fh, false)
  end.

(** [write_as_export(fh, sKey, enmBuildTarget)]. *)
Definition write_as_export (env : Dict.t) (fh : Handle) (sKey enmBuildTarget : string)
  : Handle * bool :=
  write env fh sKey (Some (export_word enmBuildTarget)).

End EnvOps.

(** ** The summary table *)

Module SimpleTable.

(** The attributes of a [SimpleTable]; cells are kept as their [str]. *)
Record t : Type := mk {
  asHeaders : list string;
  aRows : list (list string);
  sFmt : string;
  aiWidths : list nat
}.

(** [SimpleTable(asHeaders)]. *)
Definition init (asHeaders : list string) : t := mk asHeaders [] EmptyString [].

(** [addRow(asCells)]: [None] stands for the [AssertionError] of a row whose
    length is not that of the headers. *)
Definition addRow (tb : t) (asCells : list string) : option t :=
  if (List.length asCells =? List.length (asHeaders tb))%nat
  then Some (mk (asHeaders tb) (List.app (aRows tb) [asCells]) (sFmt tb) (aiWidths tb))
  else None.











End SimpleTable.

(** ** The status of a probe and the loop over the probes *)

(** [LibraryCheck.getStatusString()]. *)
Definition getStatusString (p : LibraryCheck) : string :=
  if fDisabled p then "DISABLED"
  else if (match fHave p with Some b => b | None => false end) then "ok"
  else match fHave p with
       | None => "?"
       | Some _ => "failed"
       end.

(** What [setArgs] reads from the parsed arguments for a library name: the
    disable flag and the custom path. *)
Definition LibArgs : Type := string -> bool * option string.

(** The loop of [main] over the libraries to check: each probe takes its
    arguments and is checked; a failed check ends the loop unless errors are
    to be continued on.  The probes are returned as the loop leaves them. *)
Fixpoint lib_loop (w : World) (fContOnErr : bool) (oArgs : LibArgs)
         (aoLibsToCheck : list LibraryCheck) : M (list LibraryCheck) :=
  match aoLibsToCheck with
  | [] => ret []
  | oLibCur :: rest =>
      update_state (with_self (fun _ =>
        LibCheck.setArgs (fst (oArgs (sName oLibCur))) (snd (oArgs (sName oLibCur))) oLibCur)) ;;;
      fRc <- LibCheck.performCheck w ;;
      oLibDone <- gets self ;;
      if negb fRc && negb fContOnErr then ret (oLibDone :: rest)
      else (tl <- lib_loop w fContOnErr oArgs rest ;; ret (oLibDone :: tl))
  end.

(** The block [# Perform library checks.] of [main]. *)
Definition perform_library_checks (w : World) (fContOnErr : bool) (oArgs : LibArgs)
           (aoLibsToCheck : list LibraryCheck) : M (list LibraryCheck) :=
  cErrors <- gets g_cErrors ;;
  if (cErrors =? 0)%nat || fContOnErr then lib_loop w fContOnErr oArgs aoLibsToCheck
  else ret aoLibsToCheck.

(** The value [main] returns at its end. *)
Definition exit_status (cErrors : nat) : Z :=
  if (cErrors =? 0)%nat then 0%Z else 1%Z.

(** [target in aeTargets or BuildTarget.ANY in aeTargets]. *)
Definition applicable (target : option string) (p : LibraryCheck) : bool :=
  PyStr.mem_opt target (aeTargets p) || PyStr.mem BuildTarget.ANY (aeTargets p).

(** The state keeps everything but the temporary files. *)
Definition same_but_fs (s s' : State) : Prop :=
  self s' = self s /\ g_cErrors s' = g_cErrors s /\ g_oEnv s' = g_oEnv s /\ trace s' = trace s.

(** The outcomes of a child process the harness turns into a failed result. *)
Definition handled_exn (e : PyExn) : bool :=
  match e with
  | PermissionError | FileNotFoundError | SubprocessError => true
  | _ => false
  end.

Definition compile_handled (o : CompileOutcome) : Prop :=
  match o with
  | CompileRaises e => handled_exn e = true
  | CompileExits _ _ _ _ => True
  end.

Definition run_handled (o : RunOutcome) : Prop :=
  match o with
  | RunRaises e => handled_exn e = true
  | RunExits _ _ _ => True
  end.

(** ** Vocabulary of the further properties *)


(** The rows of a table have as many cells as there are headers. *)
Definition table_wf (tb : SimpleTable.t) : Prop :=
  forall row, In row (SimpleTable.aRows tb)
              -> List.length row = List.length (SimpleTable.asHeaders tb).


(** The paths a probe has recorded, none when the attribute is [None]. *)
Definition paths_of (x : option (list string)) : list string :=
  match x with
  | Some l => l
  | None => []
  end.

(** The header is a regular file under one of the paths. *)
Definition header_in (w : World) (l : list string) (h : string) : bool :=
  existsb (fun path => os_path_isfile w (os_path_join w path h)) l.

(** A Linux host where [sdl2]'s header is installed and its alternative
    header is not. *)
Definition host_sdl_header : World :=
  posix_host "x86_64" false
             [("/usr/include", Dir); ("/usr/include/SDL2/SDL.h", File)] [] cc_ok
             (run_prints "1").

(** The probe [sdl2] of [g_aoLibs]. *)
Definition probe_sdl2 : LibraryCheck :=
  LibraryCheck_init "sdl2" ["SDL2/SDL.h"] ["libSDL2"]
                    [BuildTarget.LINUX; BuildTarget.SOLARIS; BuildTarget.BSD]
                    (Some ("#include <SDL2/SDL.h>" ++ PyStr.nl ++ "int main() { printf("
                           ++ PyStr.dq ++ "%d.%d.%d" ++ PyStr.dq
                           ++ ", SDL_MAJOR_VERSION, SDL_MINOR_VERSION, SDL_PATCHLEVEL); return 0; }"
                           ++ PyStr.nl))
                    [] ["SDL.h"].

(** What holds when [m] ends from [s]: [Q] of the value and state returned,
    [E] of the exception and state raised. *)
Definition post {A : Type} (m : M A) (s : State)
           (Q : A -> State -> Prop) (E : PyExn -> State -> Prop) : Prop :=
  match m s with
  | Ok a s' => Q a s'
  | Raise e s' => E e s'
  end.

(** What the harness keeps of the state it starts from: the probe, and, on a
    target other than Windows, the store. *)
Definition harness_frame (tgt : option string) (s s' : State) : Prop :=
  self s' = self s
  /\ (PyStr.eq_opt tgt BuildTarget.WINDOWS = false -> g_oEnv s' = g_oEnv s)
  /\ (forall k, k <> "INCLUDE" -> k <> "LIB" ->
                Dict.get (g_oEnv s') k = Dict.get (g_oEnv s) k).

(** The directory the harness works in, and the exception that keeps it from
    getting one: [gettempdir()] in debug mode, a fresh [mkdtemp()] otherwise. *)
Definition harness_tempdir (w : World) : string :=
  if g_fDebug w then tempfile_gettempdir w else tempfile_mkdtemp w.

Definition harness_tempdir_raises (w : World) : option PyExn :=
  if g_fDebug w then tempfile_gettempdir_raises w else tempfile_mkdtemp_raises w.

(** [sFileSource] and [sFileImage] of the harness. *)
Definition harness_source (w : World) (sCompiler : string) : string :=
  os_path_join w (harness_tempdir w)
               (if PyStr.contains "g++" sCompiler || PyStr.contains "cl.exe" sCompiler
                then "testlib.cpp" else "testlib.c").

Definition harness_image (w : World) (enmBuildTarget : option string) : string :=
  os_path_join w (harness_tempdir w)
               (if negb (PyStr.eq_opt enmBuildTarget BuildTarget.WINDOWS)
                then "a.out" else "a.exe").

(** [asCmd] of the harness: the command line it hands to [subprocess.run]. *)
Definition harness_cmd (w : World) (sCompiler : string) (enmBuildTarget : option string)
           (asIncPaths asLibPaths : option (list string)) (asLibFiles : list string)
  : list string :=
  let fWin := PyStr.eq_opt enmBuildTarget BuildTarget.WINDOWS in
  let incs := match asIncPaths with Some l => l | None => [] end in
  let libs := match asLibPaths with Some l => l | None => [] end in
  List.concat
    [ [sCompiler];
      (if g_fDebug w && fWin then ["/showIncludes"] else []);
      (if fWin then [harness_source w sCompiler; "/Fe:" ++ harness_image w enmBuildTarget]
       else List.concat [ map (fun sIncPath => "-I" ++ sIncPath) incs;
                          map (fun sLibPath => "-L" ++ sLibPath) libs;
                          [harness_source w sCompiler; "-o"; harness_image w enmBuildTarget] ]);
      getLinkerArgs enmBuildTarget asLibFiles ].

(** [oProcEnv.env] as the child processes of the harness get it: the store,
    with the include and library paths prepended on the Windows target. *)
Definition harness_env (w : World) (enmBuildTarget : option string)
           (asIncPaths asLibPaths : option (list string)) (env : Dict.t) : Dict.t :=
  if PyStr.eq_opt enmBuildTarget BuildTarget.WINDOWS
  then fold_left (fun e sLibPath =>
                    EnvManager.prependPath e "LIB" (Some sLibPath) (g_enmHostTarget w))
                 (match asLibPaths with Some l => l | None => [] end)
                 (fold_left (fun e sIncPath =>
                               EnvManager.prependPath e "INCLUDE" (Some sIncPath)
                                                      (g_enmHostTarget w))
                            (match asIncPaths with Some l => l | None => [] end)
                            env)
  else env.

(** How the two child processes make the body of the outer [try] raise [e]:
    running the compiler raises it; or the compiler exits with 0 and running
    the binary raises it; or the binary exits with another code than 0 and,
    on the Windows target with logging, the text of that code is not to be
    had. *)
Definition child_raise_cause (w : World) (enmBuildTarget : option string) (fLog : bool)
           (asCmd : list string) (sFileImage : string) (env : Dict.t) (e : PyExn) : Prop :=
  run_compiler w asCmd env = CompileRaises e
  \/ ((exists out err fimg, run_compiler w asCmd env = CompileExits 0 out err fimg)
      /\ (run_image w sFileImage env = RunRaises e
          \/ (e = AttributeError /\ fLog = true
              /\ PyStr.eq_opt enmBuildTarget BuildTarget.WINDOWS = true
              /\ exists rc out2 err2,
                   run_image w sFileImage env = RunExits rc out2 err2
                   /\ rc <> 0%Z /\ getWinError w rc = None))).

(** Why the harness raises [e] from a store [env]: no compiler is configured;
    or no temporary directory is to be had; or the source file it names
    cannot be written; or the command it built or the binary it named fails
    with an exception that none of its handlers takes. *)
Definition harness_raise_cause (w : World) (enmBuildTarget : option string)
           (asIncPaths asLibPaths : option (list string)) (asIncFiles asLibFiles : list string)
           (fLog : bool) (env : Dict.t) (e : PyExn) : Prop :=
  match select_compiler env enmBuildTarget asIncFiles with
  | None => e = AssertionError
  | Some sCompiler =>
      harness_tempdir_raises w = Some e
      \/ (harness_tempdir_raises w = None
          /\ (open_write w (harness_source w sCompiler) = Some e
              \/ (open_write w (harness_source w sCompiler) = None
                  /\ handled_exn e = false
                  /\ child_raise_cause
                       w enmBuildTarget fLog
                       (harness_cmd w sCompiler enmBuildTarget asIncPaths asLibPaths asLibFiles)
                       (harness_image w enmBuildTarget)
                       (harness_env w enmBuildTarget asIncPaths asLibPaths env) e)))
  end.

(** A Linux host whose compiler does not finish in time. *)
Definition host_cc_timeout : World :=
  posix_host "x86_64" false [] [] (CompileRaises SubprocessError) (run_prints "1").

(** A Linux host on which [mkdtemp()] fails: no directory can be made. *)
Definition host_no_tempdir : World :=
  mkWorld "/vbox" BuildTarget.LINUX false "x86_64" "/"
          posix_join posix_relpath_below posix_basename (fun p => p)
          (fun _ => None) (fun _ => []) (fun _ => [])
          "/tmp" None "/tmp/tmpq1w2e3" (Some OSError_other)
          (fun _ => None) (fun _ => false)
          (fun _ _ => cc_ok) (fun _ _ => run_prints "1")
          (fun _ => None).

(** The declaration of a probe and the arguments given to it: everything but
    the result, the version and the recorded paths. *)
Definition same_decl (p p' : LibraryCheck) : Prop :=
  sName p' = sName p /\ asIncFiles p' = asIncFiles p /\ asLibFiles p' = asLibFiles p
  /\ sCode p' = sCode p /\ aeTargets p' = aeTargets p
  /\ aeTargetsExcluded p' = aeTargetsExcluded p /\ asAltIncFiles p' = asAltIncFiles p
  /\ fDisabled p' = fDisabled p /\ sCustomPath p' = sCustomPath p.

(** A key of the store other than the two the harness prepends to. *)
Definition env_kept (env env' : Dict.t) : Prop :=
  forall k, k <> "INCLUDE" -> k <> "LIB" -> Dict.get env' k = Dict.get env k.

(** A probe [performCheck] returns from at once: the target is excluded or
    the probe is disabled. *)
Definition not_checked (target : option string) (p : LibraryCheck) : bool :=
  PyStr.mem_opt target (aeTargetsExcluded p) || fDisabled p.

(** What [performCheck] leaves when it returns [r] from [s]. *)
Definition performCheck_post (s : State) (r : bool) (s' : State) : Prop :=
  let target := EnvManager.getitem (g_oEnv s) "KBUILD_TARGET" in
  same_decl (self s) (self s') /\ env_kept (g_oEnv s) (g_oEnv s')
  /\ (not_checked target (self s) = true -> r = true /\ s' = s)
  /\ (not_checked target (self s) = false -> fHave (self s') = Some r)
  /\ (r = true -> g_cErrors s' = g_cErrors s)
  /\ (r = false ->
      if applicable target (self s)
      then S (g_cErrors s) <= g_cErrors s' <= S (S (g_cErrors s))
      else g_cErrors s' = g_cErrors s)
  /\ (r = false -> sVer (self s') = sVer (self s)).

(** What the loop of [main] over the libraries leaves when it returns the
    probes [out] from [s]. *)
Definition loop_post (fContOnErr : bool) (libs : list LibraryCheck) (s : State)
           (out : list LibraryCheck) (s' : State) : Prop :=
  let target := EnvManager.getitem (g_oEnv s) "KBUILD_TARGET" in
  map sName out = map sName libs
  /\ env_kept (g_oEnv s) (g_oEnv s')
  /\ g_cErrors s <= g_cErrors s'
  /\ (fContOnErr = false -> g_cErrors s' <= S (S (g_cErrors s)))
  /\ (Forall (fun p => applicable target p = true /\ fHave p = None) libs ->
      (g_cErrors s' = g_cErrors s
       <-> Forall (fun p => getStatusString p <> "failed") out)).

(** The libraries [main] checks: those of [libs] declared for the target. *)
Definition libs_for_target (target : option string) (libs : list LibraryCheck)
  : list LibraryCheck :=
  filter (applicable target) libs.

(** The arguments of a run without [--disable-<lib>] and [--with-<lib>-path]. *)
Definition no_lib_args : LibArgs := fun _ => (false, None).

(** * Properties *)

(** ** The store as a dictionary *)

Section DictFacts.

Lemma get_set_same (d : Dict.t) (k v : string) : Dict.get (Dict.set d k v) k = Some v.
Proof.
  induction d as [|[k' v'] r IH]; simpl.
  - now rewrite String.eqb_refl.
  - destruct (k' =? k) eqn:E; simpl.
    + now rewrite String.eqb_refl.
    + now rewrite E.
Qed.

Lemma get_set_other (d : Dict.t) (k k' v : string) :
  k' <> k -> Dict.get (Dict.set d k' v) k = Dict.get d k.
Proof.
  intros Hne. induction d as [|[k0 v0] r IH]; simpl.
  - destruct (k' =? k) eqn:E; [apply String.eqb_eq in E; contradiction | reflexivity].
  - destruct (k0 =? k') eqn:E0; simpl.
    + apply String.eqb_eq in E0; subst k0.
      destruct (k' =? k) eqn:E; [apply String.eqb_eq in E; contradiction | reflexivity].
    + destruct (k0 =? k); [reflexivity | exact IH].
Qed.

Lemma set_get_id (d : Dict.t) (k v : string) :
  Dict.get d k = Some v -> Dict.set d k v = d.
Proof.
  induction d as [|[k' v'] r IH]; simpl; [discriminate|].
  destruct (k' =? k) eqn:E.
  - apply String.eqb_eq in E; subst k'. intros H; now inversion H.
  - intros H. now rewrite IH.
Qed.

Lemma get_del_same (d : Dict.t) (k : string) : Dict.get (Dict.del d k) k = None.
Proof.
  induction d as [|[k' v'] r IH]; simpl; [reflexivity|].
  destruct (k' =? k) eqn:E; simpl; [exact IH | now rewrite E].
Qed.

Lemma get_del_other (d : Dict.t) (k k' : string) :
  k' <> k -> Dict.get (Dict.del d k') k = Dict.get d k.
Proof.
  intros Hne. induction d as [|[k0 v0] r IH]; simpl; [reflexivity|].
  destruct (k0 =? k') eqn:E0; simpl.
  - apply String.eqb_eq in E0; subst k0.
    destruct (k' =? k) eqn:E; [apply String.eqb_eq in E; contradiction | exact IH].
  - destruct (k0 =? k); [reflexivity | exact IH].
Qed.

Lemma get_none_not_key (d : Dict.t) (k : string) :
  Dict.get d k = None <-> ~ In k (Dict.keys d).
Proof.
  induction d as [|[k' v'] r IH]; simpl.
  - tauto.
  - destruct (k' =? k) eqn:E.
    + apply String.eqb_eq in E. split; [discriminate | intros H; exfalso; apply H; now left].
    + apply String.eqb_neq in E. rewrite IH. tauto.
Qed.

Lemma keys_set (d : Dict.t) (k v : string) :
  Dict.keys (Dict.set d k v)
  = if Dict.has d k then Dict.keys d else (Dict.keys d ++ [k])%list.
Proof.
  unfold Dict.has. induction d as [|[k' v'] r IH]; simpl; [reflexivity|].
  destruct (k' =? k) eqn:E; simpl.
  - apply String.eqb_eq in E; now subst.
  - rewrite IH. now destruct (Dict.get r k).
Qed.

(** [d[k] = v] and [del d[k]] keep the keys distinct: the association list
    stays a dictionary. *)
Lemma wf_set (d : Dict.t) (k v : string) : Dict.wf d -> Dict.wf (Dict.set d k v).
Proof.
  unfold Dict.wf. intros H. rewrite keys_set. unfold Dict.has.
  destruct (Dict.get d k) eqn:E; [exact H|].
  apply get_none_not_key in E.
  apply NoDup_rev in H. rewrite <- (rev_involutive (_ ++ _)%list).
  apply NoDup_rev. rewrite rev_app_distr. simpl. constructor; [|exact H].
  now rewrite <- in_rev.
Qed.

Lemma wf_del (d : Dict.t) (k : string) : Dict.wf d -> Dict.wf (Dict.del d k).
Proof.
  unfold Dict.wf, Dict.del, Dict.keys. induction d as [|[k' v'] r IH]; simpl; intros H.
  - constructor.
  - inversion H as [|? ? Hnin Hnd]; subst.
    destruct (k' =? k); simpl; [now apply IH|].
    constructor; [|now apply IH].
    intros Hin. apply Hnin. apply in_map_iff in Hin as [[a b] [Ha Hb]].
    apply filter_In in Hb as [Hb _]. apply in_map_iff. now exists (a, b).
Qed.

Lemma wf_update (d u : Dict.t) : Dict.wf d -> Dict.wf (Dict.update d u).
Proof.
  unfold Dict.update. revert d. induction u as [|[k v] t IH]; simpl; intros d H; [exact H|].
  apply IH. now apply wf_set.
Qed.

(** Merging pairs that all agree on the value of [k] keeps that value. *)
Lemma update_keeps (u d : Dict.t) (k v : string) :
  Dict.get d k = Some v ->
  (forall v', In (k, v') u -> v' = v) ->
  Dict.get (Dict.update d u) k = Some v.
Proof.
  unfold Dict.update. revert d. induction u as [|[k1 v1] t IH]; simpl; intros d Hg Hu; [exact Hg|].
  apply IH; [|intros v' Hin; apply Hu; now right].
  destruct (string_dec k1 k) as [->|Hne].
  - rewrite (Hu v1 (or_introl eq_refl)). apply get_set_same.
  - now rewrite get_set_other.
Qed.

Lemma update_other (u d : Dict.t) (k : string) :
  ~ In k (Dict.keys u) -> Dict.get (Dict.update d u) k = Dict.get d k.
Proof.
  unfold Dict.update. revert d. induction u as [|[k1 v1] t IH]; simpl; intros d Hn; [reflexivity|].
  rewrite IH by tauto. apply get_set_other. tauto.
Qed.

End DictFacts.

(** ** Rule lists whose conditions ignore what the rules write *)

Section RuleLists.

(** [T]: every pair the rules may write; [rs]: the rules. *)
Variable T : Dict.t.
Variable rs : list Rule.

(** A key is written with one value only. *)
Hypothesis T_functional : forall k v v', In (k, v) T -> In (k, v') T -> v = v'.
(** The rules write pairs of [T], and no condition changes when one is written. *)
Hypothesis rs_out : forall r, In r rs -> incl (rule_out r) T.
Hypothesis rs_stable :
  forall r, In r rs -> forall env k v, In (k, v) T -> rule_cond r (Dict.set env k v) = rule_cond r env.

Lemma transform_map_fold (env : Dict.t) (l : list Rule) :
  EnvManager.transform env (map run_rule l) = fold_left step l env.
Proof.
  unfold EnvManager.transform. revert env.
  induction l as [|r t IH]; simpl; intros env; [reflexivity | apply IH].
Qed.

Lemma step_unfold (env : Dict.t) (r : Rule) :
  step env r = if rule_cond r env then Dict.update env (rule_out r) else env.
Proof.
  unfold step, EnvManager.transform_step, run_rule. now destruct (rule_cond r env).
Qed.

Lemma update_settled (out env : Dict.t) : settled env out -> Dict.update env out = env.
Proof.
  unfold Dict.update, settled. revert env.
  induction out as [|[k v] t IH]; simpl; intros env H; [reflexivity|].
  rewrite set_get_id by (apply H; now left).
  apply IH. intros k' v' Hin. apply H. now right.
Qed.

Lemma update_settles (out env : Dict.t) : incl out T -> settled (Dict.update env out) out.
Proof.
  unfold Dict.update, settled. revert env.
  induction out as [|[k0 v0] t IH]; simpl; intros env Hi k v Hin; [contradiction|].
  assert (Ht : incl t T) by (intros x Hx; apply Hi; now right).
  destruct Hin as [Heq|Hin].
  - inversion Heq; subst k0 v0. apply (update_keeps t); [apply get_set_same|].
    intros v' Hv'. apply (T_functional k); [apply Ht; exact Hv' | apply Hi; now left].
  - now apply IH.
Qed.

Lemma cond_update (r : Rule) (out env : Dict.t) :
  In r rs -> incl out T -> rule_cond r (Dict.update env out) = rule_cond r env.
Proof.
  intros Hr. unfold Dict.update. revert env.
  induction out as [|[k v] t IH]; simpl; intros env Hi; [reflexivity|].
  rewrite IH by (intros x Hx; apply Hi; now right).
  apply rs_stable; [exact Hr | apply Hi; now left].
Qed.

Lemma cond_step (r r' : Rule) (env : Dict.t) :
  In r rs -> In r' rs -> rule_cond r' (step env r) = rule_cond r' env.
Proof.
  intros Hr Hr'. rewrite step_unfold. destruct (rule_cond r env); [|reflexivity].
  apply cond_update; [exact Hr' | now apply rs_out].
Qed.

Lemma settled_step (r r' : Rule) (env : Dict.t) :
  In r rs -> In r' rs -> settled env (rule_out r') -> settled (step env r) (rule_out r').
Proof.
  intros Hr Hr' Hs k v Hin. rewrite step_unfold. destruct (rule_cond r env); [|now apply Hs].
  apply update_keeps; [now apply Hs|].
  intros v' Hv'. apply (T_functional k); [now apply (rs_out r) | now apply (rs_out r')].
Qed.

Lemma fold_fired_settled (todo done : list Rule) (env : Dict.t) :
  incl done rs -> incl todo rs ->
  fired_settled done env ->
  fired_settled (done ++ todo) (fold_left step todo env).
Proof.
  revert done env. induction todo as [|r t IH]; simpl; intros done env Hd Ht Hf.
  - now rewrite app_nil_r.
  - assert (Hr : In r rs) by (apply Ht; now left).
    replace (done ++ r :: t)%list with ((done ++ [r]) ++ t)%list
      by (now rewrite <- app_assoc).
    apply IH.
    + intros x Hx. apply in_app_or in Hx as [Hx|[<-|[]]]; [now apply Hd | exact Hr].
    + intros x Hx. apply Ht. now right.
    + intros r' Hin Hc. apply in_app_or in Hin as [Hin|[<-|[]]].
      * apply settled_step; [exact Hr | now apply Hd |].
        apply Hf; [exact Hin|]. now rewrite cond_step in Hc by (auto).
      * rewrite cond_step in Hc by assumption.
        rewrite step_unfold, Hc. apply update_settles. now apply rs_out.
Qed.

Lemma fold_fixed (l : list Rule) (env : Dict.t) :
  fired_settled l env -> fold_left step l env = env.
Proof.
  induction l as [|r t IH]; simpl; intros Hf; [reflexivity|].
  assert (Hs : step env r = env).
  { rewrite step_unfold. destruct (rule_cond r env) eqn:E; [|reflexivity].
    apply update_settled. apply Hf; [now left | exact E]. }
  rewrite Hs. apply IH. intros r' Hin. apply Hf. now right.
Qed.

(** One pass of such a rule list reaches a store the list leaves alone. *)
Lemma transform_rules_idempotent (env : Dict.t) :
  EnvManager.transform (EnvManager.transform env (map run_rule rs)) (map run_rule rs)
  = EnvManager.transform env (map run_rule rs).
Proof.
  rewrite !transform_map_fold. apply fold_fixed.
  apply (fold_fired_settled rs [] env).
  - intros x [].
  - apply incl_refl.
  - intros r [].
Qed.

End RuleLists.

(** ** The transform rules of [main] *)

Lemma envTransforms_rules : envTransforms = map run_rule envRules.
Proof. reflexivity. Qed.

Lemma flag_set_other (env : Dict.t) (k k' v : string) :
  k' <> k -> flag (Dict.set env k' v) k = flag env k.
Proof.
  intros H. unfold flag, EnvManager.getitem, EnvManager.get. now rewrite get_set_other.
Qed.

Lemma flag_is_set_other (env : Dict.t) (k k' v s : string) :
  k' <> k -> flag_is (Dict.set env k' v) k s = flag_is env k s.
Proof.
  intros H. unfold flag_is, EnvManager.getitem, EnvManager.get. now rewrite get_set_other.
Qed.

(** No rule writes a key that some rule reads. *)
Lemma envWrites_not_read (k v k' : string) :
  In (k, v) envWrites -> In k' envReads -> k <> k'.
Proof.
  intros Hw Hr.
  assert (H : forallb (fun kv => forallb (fun r => negb (fst kv =? r)) envReads) envWrites = true)
    by reflexivity.
  rewrite forallb_forall in H. specialize (H _ Hw). rewrite forallb_forall in H.
  specialize (H _ Hr). simpl in H. apply negb_true_iff in H. now apply String.eqb_neq in H.
Qed.

(** A key is written with the same value by every rule that writes it. *)
Lemma envWrites_functional (k v v' : string) :
  In (k, v) envWrites -> In (k, v') envWrites -> v = v'.
Proof.
  intros H1 H2.
  assert (H : forallb (fun a => forallb (fun b => negb (fst a =? fst b) || (snd a =? snd b))
                                        envWrites) envWrites = true) by reflexivity.
  rewrite forallb_forall in H. specialize (H _ H1). rewrite forallb_forall in H.
  specialize (H _ H2). simpl in H. rewrite String.eqb_refl in H. simpl in H.
  now apply String.eqb_eq in H.
Qed.

Lemma envRules_out (r : Rule) : In r envRules -> incl (rule_out r) envWrites.
Proof.
  intros Hr x Hx. unfold envWrites. apply in_flat_map. now exists r.
Qed.

Ltac read_key := unfold envReads; simpl; tauto.

Lemma envRules_stable (r : Rule) :
  In r envRules ->
  forall env k v, In (k, v) envWrites -> rule_cond r (Dict.set env k v) = rule_cond r env.
Proof.
  intros Hr env k v Hw.
  assert (Hk : forall k', In k' envReads -> k <> k')
    by (intros k'; now apply (envWrites_not_read k v)).
  unfold envRules in Hr. simpl in Hr.
  repeat (destruct Hr as [<-|Hr]); try contradiction; simpl;
    rewrite ?flag_set_other, ?flag_is_set_other; try reflexivity;
    apply Hk; read_key.
Qed.

Lemma envTransforms_idempotent (env : Dict.t) :
  EnvManager.transform (EnvManager.transform env envTransforms) envTransforms
  = EnvManager.transform env envTransforms.
Proof.
  rewrite envTransforms_rules.
  apply (transform_rules_idempotent envWrites envRules).
  - exact envWrites_functional.
  - exact envRules_out.
  - exact envRules_stable.
Qed.

(** Merging a [dict] gives every key of it the value it has there and leaves
    the other keys with the value they had. *)
Lemma get_update (u d : Dict.t) (k : string) :
  Dict.wf u ->
  Dict.get (Dict.update d u) k
  = match Dict.get u k with
    | Some v => Some v
    | None => Dict.get d k
    end.
Proof.
  unfold Dict.update, Dict.wf. revert d.
  induction u as [|[k1 v1] t IH]; intros d Hwf; [reflexivity|].
  cbn [fold_left fst snd Dict.get]. cbn [Dict.keys map fst] in Hwf.
  apply NoDup_cons_iff in Hwf. destruct Hwf as (Hnot & Hwf).
  destruct (k1 =? k) eqn:E.
  - apply String.eqb_eq in E. subst k1.
    change (fold_left (fun acc kv => Dict.set acc (fst kv) (snd kv)) t (Dict.set d k v1))
      with (Dict.update (Dict.set d k v1) t).
    rewrite update_other by exact Hnot. apply get_set_same.
  - apply String.eqb_neq in E. rewrite (IH (Dict.set d k1 v1) Hwf).
    destruct (Dict.get t k); [reflexivity|]. now apply get_set_other.
Qed.

Lemma transform_snoc (env : Dict.t) (first : list (Dict.t -> RuleResult))
      (r : Dict.t -> RuleResult) :
  EnvManager.transform env (first ++ [r])
  = match r (EnvManager.transform env first) with
    | RDict result => Dict.update (EnvManager.transform env first) result
    | ROther => EnvManager.transform env first
    end.
Proof.
  unfold EnvManager.transform. rewrite fold_left_app. reflexivity.
Qed.

(** C8: [EnvManager.transform] runs the rules in declaration order, each rule
    on the store as the earlier rules left it, and merges what the rule
    returns into that store: after the rules [first] and then [r], the store
    is the store after [first] updated with the dict [r] returned for that
    store, so every key of that dict has the value the rule gave it and every
    other key the value it had after [first] (a result that is no dict
    changes nothing, and no rule at all leaves the store as it is).  The
    frozen-snapshot reading gives another store.  One more pass of
    [envTransforms] over the store it produced changes nothing. *)
Theorem transform_in_order_and_idempotent :
  (forall env, EnvManager.transform env [] = env)
  /\ (forall env first r,
         EnvManager.transform env (first ++ [r])
         = match r (EnvManager.transform env first) with
           | RDict result => Dict.update (EnvManager.transform env first) result
           | ROther => EnvManager.transform env first
           end)
  /\ (forall env first r result k,
         r (EnvManager.transform env first) = RDict result -> Dict.wf result ->
         Dict.get (EnvManager.transform env (first ++ [r])) k
         = match Dict.get result k with
           | Some v => Some v
           | None => Dict.get (EnvManager.transform env first) k
           end)
  /\ (forall env r rest,
         EnvManager.transform env (r :: rest)
         = EnvManager.transform (EnvManager.transform_step env r) rest)
  /\ (forall env first second,
         EnvManager.transform env (first ++ second)
         = EnvManager.transform (EnvManager.transform env first) second)
  /\ (Dict.get (EnvManager.transform [] chain_rules) "B" = Some "1"
      /\ Dict.get (EnvManager.transform_frozen [] chain_rules) "B" = None)
  /\ (forall env,
         EnvManager.transform (EnvManager.transform env envTransforms) envTransforms
         = EnvManager.transform env envTransforms).
Proof.
  split; [reflexivity|]. split; [exact transform_snoc|]. split.
  { intros env first r result k Hr Hwf. rewrite transform_snoc, Hr.
    now apply get_update. }
  repeat split.
  - intros env first second. unfold EnvManager.transform. apply fold_left_app.
  - exact envTransforms_idempotent.
Qed.

(** Scenario C: with libvpx disabled the recording flag ends up switched off,
    on the first pass and on every later one. *)
Example transform_libvpx :
  let env := EnvManager.transform
               [("CONFIG_LIBS_DISABLE_LIBVPX", "1"); ("VBOX_WITH_RECORDING", "1")]
               envTransforms in
  Dict.get env "VBOX_WITH_RECORDING" = Some ""
  /\ EnvManager.transform env envTransforms = env.
Proof. split; reflexivity. Qed.

(** ** [EnvManager]: set, unset, prependPath *)

Lemma unset_get_same (env : Dict.t) (k : string) :
  Dict.get (EnvManager.unset env k) k = None.
Proof.
  unfold EnvManager.unset, Dict.has.
  destruct (Dict.get env k) eqn:E; [apply get_del_same | exact E].
Qed.

Lemma unset_get_other (env : Dict.t) (k k' : string) :
  k' <> k -> Dict.get (EnvManager.unset env k') k = Dict.get env k.
Proof.
  intros H. unfold EnvManager.unset. destruct (Dict.has env k'); [|reflexivity].
  now apply get_del_other.
Qed.

Lemma truthy_false_empty (p : string) : PyStr.truthy p = false -> p = EmptyString.
Proof.
  unfold PyStr.truthy. intros H. apply negb_false_iff in H. now apply String.eqb_eq in H.
Qed.

Lemma truthy_nonempty (p : string) : p <> EmptyString -> PyStr.truthy p = true.
Proof.
  unfold PyStr.truthy. intros H. apply negb_true_iff. now apply String.eqb_neq.
Qed.

Lemma length_nonempty (p : string) : p <> EmptyString -> (String.length p =? 0)%nat = false.
Proof. destruct p; [congruence | reflexivity]. Qed.

(** C10: [prependPath] with [None] or the empty path leaves the store as it
    is; with a path and an absent key the key holds exactly the path; with a
    path and a present key the key holds the path, then [;] on the Windows
    target and [:] on any other, then the previous value.  No other key
    changes. *)
Theorem prependPath_spec (env : Dict.t) (sKey : string) (sPath : option string)
        (enmBuildTarget : string) :
  let env' := EnvManager.prependPath env sKey sPath enmBuildTarget in
  (sPath = None \/ sPath = Some EmptyString -> env' = env)
  /\ (forall p, sPath = Some p -> p <> EmptyString -> Dict.get env sKey = None ->
        Dict.get env' sKey = Some p)
  /\ (forall p old, sPath = Some p -> p <> EmptyString -> Dict.get env sKey = Some old ->
        Dict.get env' sKey
        = Some (p ++ (if enmBuildTarget =? BuildTarget.WINDOWS then ";" else ":") ++ old))
  /\ (forall k, k <> sKey -> Dict.get env' k = Dict.get env k).
Proof.
  unfold EnvManager.prependPath. repeat split.
  - intros [->| ->]; reflexivity.
  - intros p -> Hp Hg. rewrite truthy_nonempty, length_nonempty, Hg by assumption.
    simpl. apply get_set_same.
  - intros p old -> Hp Hg. rewrite truthy_nonempty, length_nonempty, Hg by assumption.
    simpl. apply get_set_same.
  - intros k Hk. destruct sPath as [p|]; [|reflexivity].
    destruct (negb (PyStr.truthy p) || (String.length p =? 0)%nat); [reflexivity|].
    destruct (Dict.get env sKey); simpl; apply get_set_other; congruence.
Qed.

(** The three cases of [prependPath] on concrete stores. *)
Lemma prependPath_spec_witness :
  EnvManager.prependPath [("LIB", "C:\old")] "LIB" (Some EmptyString) BuildTarget.WINDOWS
  = [("LIB", "C:\old")]
  /\ Dict.get (EnvManager.prependPath [] "INCLUDE" (Some "/usr/include") BuildTarget.LINUX)
              "INCLUDE" = Some "/usr/include"
  /\ Dict.get (EnvManager.prependPath [("LIB", "C:\old")] "LIB" (Some "D:\new")
                                      BuildTarget.WINDOWS) "LIB" = Some "D:\new;C:\old"
  /\ Dict.get (EnvManager.prependPath [("PATH", "/bin")] "PATH" (Some "/opt/bin")
                                      BuildTarget.DARWIN) "PATH" = Some "/opt/bin:/bin".
Proof.
  split; [|split; [|split]].
  - destruct (prependPath_spec [("LIB", "C:\old")] "LIB" (Some EmptyString)
                               BuildTarget.WINDOWS) as (H & _).
    apply H. now right.
  - destruct (prependPath_spec [] "INCLUDE" (Some "/usr/include") BuildTarget.LINUX)
      as (_ & H & _).
    apply H; [reflexivity | discriminate | reflexivity].
  - destruct (prependPath_spec [("LIB", "C:\old")] "LIB" (Some "D:\new")
                               BuildTarget.WINDOWS) as (_ & _ & H & _).
    apply (H "D:\new" "C:\old"); [reflexivity | discriminate | reflexivity].
  - destruct (prependPath_spec [("PATH", "/bin")] "PATH" (Some "/opt/bin")
                               BuildTarget.DARWIN) as (_ & _ & H & _).
    apply (H "/opt/bin" "/bin"); [reflexivity | discriminate | reflexivity].
Defined.

(** C6, as stated, fails: [set] stores the empty string it is given, and a
    transform rule that fires writes empty strings, both from stores whose
    values are all non-empty. *)
Lemma values_nonempty_not_preserved :
  (values_nonempty [] /\ ~ values_nonempty (EnvManager.set [] "VBOX_WITH_DOCS" (Some EmptyString)))
  /\ (values_nonempty [("CONFIG_BUILD_HEADLESS", "1")]
      /\ ~ values_nonempty (EnvManager.transform [("CONFIG_BUILD_HEADLESS", "1")] envTransforms)).
Proof.
  split; split.
  - intros k v H. discriminate H.
  - intros H. apply (H "VBOX_WITH_DOCS" EmptyString); reflexivity.
  - intros k v H. cbn [Dict.get] in H.
    destruct (String.eqb "CONFIG_BUILD_HEADLESS" k); [|discriminate H].
    inversion H. discriminate.
  - intros H. apply (H "VBOX_WITH_QTGUI" EmptyString); reflexivity.
Qed.

(** C6, amended: a key of the store holds a string that may be empty.  [set]
    with [None] leaves the store as it is and with a string stores that
    string, the empty one included; [unset] removes the key and no other; a
    transform rule that fires stores its pairs, whose values are the empty
    string except for [VBOX_WITH_HEADLESS]. *)
Theorem store_holds_strings_possibly_empty :
  (forall env k, EnvManager.set env k None = env)
  /\ (forall env k v, Dict.get (EnvManager.set env k (Some v)) k = Some v)
  /\ (forall env k, Dict.get (EnvManager.unset env k) k = None)
  /\ (forall env k k', k' <> k -> Dict.get (EnvManager.unset env k') k = Dict.get env k)
  /\ (forall r k v, In r envRules -> In (k, v) (rule_out r) ->
                    v = EmptyString \/ (k = "VBOX_WITH_HEADLESS" /\ v = "1"))
  /\ (forall env r k v, In r envRules -> rule_cond r env = true -> In (k, v) (rule_out r) ->
                        Dict.get (EnvManager.transform_step env (run_rule r)) k = Some v).
Proof.
  split; [reflexivity|]. split; [intros; apply get_set_same|].
  split; [exact unset_get_same|]. split; [intros; now apply unset_get_other|]. split.
  - intros r k v Hr Hin. unfold envRules in Hr. simpl in Hr.
    repeat (destruct Hr as [<-|Hr]); try contradiction; simpl in Hin;
      repeat (destruct Hin as [Hin|Hin]); try contradiction;
        inversion Hin; subst; auto.
  - intros env r k v Hr Hc Hin.
    change (Dict.get (step env r) k = Some v). rewrite step_unfold, Hc.
    apply (update_settles envWrites envWrites_functional (rule_out r) env);
      [now apply envRules_out | exact Hin].
Qed.

(** ** The header heuristic and the synthesized program *)

(** The first fragment of the extended list is a non-empty string that
    contains itself, so the final [any] succeeds on every non-empty list. *)
Lemma hasCPPHeader_nonempty (asHeader : list string) :
  asHeader <> [] -> hasCPPHeader asHeader = true.
Proof.
  destruct asHeader as [|h t]; [congruence|]. intros _. reflexivity.
Qed.

Lemma hasCPPHeader_empty : hasCPPHeader [] = false.
Proof. reflexivity. Qed.

(** On the Windows target the C++ compiler is taken whatever the headers. *)
Lemma select_compiler_windows (env : Dict.t) (asIncFiles : list string) :
  select_compiler env (Some BuildTarget.WINDOWS) asIncFiles
  = EnvManager.getitem env "config_cpp_compiler".
Proof. reflexivity. Qed.

(** C3 at [['zlib.h']] on Linux: the header carries none of the listed
    fragments, yet [hasCPPHeader] answers [True] and [compileAndExecute] takes
    the C++ compiler [g++], not the C compiler [gcc]. *)
Theorem hasCPPHeader_true_on_c_header :
  has_cpp_fragment ["zlib.h"] = false
  /\ hasCPPHeader ["zlib.h"] = true
  /\ select_compiler linux_env (Some BuildTarget.LINUX) ["zlib.h"] = Some "g++".
Proof. repeat split. Qed.

(** [repr] of a plain header name puts it between single quotes. *)
Example repr_header : PyStr.repr "zlib.h" = PyStr.sq ++ "zlib.h" ++ PyStr.sq.
Proof. reflexivity. Qed.

(** With no declared header but an alternative one, [header] is that string
    and the C program with the found-marker is synthesized around it. *)
Lemma getTestCode_alt_header (p : LibraryCheck) (h : string) (rest : list string) :
  asIncFiles p = [] -> asAltIncFiles p = h :: rest -> h <> EmptyString ->
  PyStr.truthy_opt (sCode p) = false ->
  LibCheck.getTestCode p = LibCheck.c_program h.
Proof.
  intros Hi Ha Hh Hc. unfold LibCheck.getTestCode, LibCheck.header_of.
  rewrite Hi, Ha, Hc. simpl. now rewrite truthy_nonempty.
Qed.

(** With declared headers and no test code, [header] is the list itself; the
    program includes the rendering of the list, and it is the C++ one. *)
Lemma getTestCode_declared_headers (p : LibraryCheck) :
  asIncFiles p <> [] -> PyStr.truthy_opt (sCode p) = false ->
  LibCheck.getTestCode p = LibCheck.cpp_program (PyStr.str_of_list (asIncFiles p)).
Proof.
  intros Hi Hc. unfold LibCheck.getTestCode, LibCheck.header_of.
  rewrite Hc, hasCPPHeader_nonempty by exact Hi.
  destruct (asIncFiles p); [congruence | reflexivity].
Qed.

(** C5 at the probe [zlib] without test code: the synthesized program does
    not include [zlib.h]; its first line includes the text of the Python list,
    and the program is the C++ one although the header is a C header. *)
Theorem getTestCode_includes_list_text :
  LibCheck.getTestCode probe_zlib_nocode
  = "#include <[" ++ PyStr.sq ++ "zlib.h" ++ PyStr.sq ++ "]>" ++ PyStr.nl
    ++ "#include <iostream>" ++ PyStr.nl
    ++ "int main() { std::cout << " ++ PyStr.dq ++ "1" ++ PyStr.dq
    ++ " << std::endl; return 0; }" ++ PyStr.nl
  /\ PyStr.contains "#include <zlib.h>" (LibCheck.getTestCode probe_zlib_nocode) = false
  /\ LibCheck.getTestCode probe_zlib_nocode <> LibCheck.c_program "zlib.h"
  /\ LibCheck.getTestCode probe_zlib_nocode <> LibCheck.cpp_program "zlib.h".
Proof.
  split; [reflexivity|]. split; [reflexivity|]. split; intros H; discriminate H.
Qed.

(** ** Search paths *)

Lemma isdir_exists (w : World) (p : string) :
  os_path_isdir w p = true -> os_path_exists w p = true.
Proof.
  unfold os_path_isdir, os_path_exists. destruct (fs_node w p) as [[|]|]; congruence.
Qed.

(** [getIncSearchPaths] and [getLibSearchPaths] return a list unless the
    GNU type is needed and the machine is not in the map. *)
Lemma getIncSearchPaths_returns (w : World) (env : Dict.t) (p : LibraryCheck) :
  PyStr.eq_opt (EnvManager.getitem env "KBUILD_TARGET") BuildTarget.WINDOWS = true
  \/ getLinuxGnuTypeFromPlatform w <> None ->
  exists l, LibCheck.getIncSearchPaths w env p = Val l.
Proof.
  unfold LibCheck.getIncSearchPaths, LibCheck.inc_candidates. intros [H|H].
  - rewrite H. eauto.
  - destruct (PyStr.eq_opt _ BuildTarget.WINDOWS); [eauto|].
    destruct (getLinuxGnuTypeFromPlatform w); [eauto | congruence].
Qed.

Lemma getLibSearchPaths_returns (w : World) (env : Dict.t) (p : LibraryCheck) :
  PyStr.eq_opt (EnvManager.getitem env "KBUILD_TARGET") BuildTarget.WINDOWS = true
  \/ getLinuxGnuTypeFromPlatform w <> None ->
  exists l, LibCheck.getLibSearchPaths w env p = Val l.
Proof.
  unfold LibCheck.getLibSearchPaths, LibCheck.lib_candidates. intros [H|H].
  - rewrite H. eauto.
  - destruct (PyStr.eq_opt _ BuildTarget.WINDOWS); [eauto|].
    destruct (_ || _); [|eauto].
    destruct (getLinuxGnuTypeFromPlatform w); [eauto | congruence].
Qed.

(** C9: whatever the probe, the store and the filesystem, every path in the
    list [getIncSearchPaths] returns is an existing directory and every path
    in the list [getLibSearchPaths] returns exists; a candidate that does not
    exist is in neither list.  Both return a list on the Windows target and
    on every machine whose GNU type is known. *)
Theorem search_paths_exist (w : World) (env : Dict.t) (p : LibraryCheck) :
  (forall l, LibCheck.getIncSearchPaths w env p = Val l ->
             forall q, In q l -> os_path_isdir w q = true /\ os_path_exists w q = true)
  /\ (forall l, LibCheck.getLibSearchPaths w env p = Val l ->
                forall q, In q l -> os_path_exists w q = true)
  /\ (forall l q, os_path_exists w q = false ->
                  LibCheck.getIncSearchPaths w env p = Val l
                  \/ LibCheck.getLibSearchPaths w env p = Val l ->
                  ~ In q l)
  /\ (PyStr.eq_opt (EnvManager.getitem env "KBUILD_TARGET") BuildTarget.WINDOWS = true
      \/ getLinuxGnuTypeFromPlatform w <> None ->
      (exists l, LibCheck.getIncSearchPaths w env p = Val l)
      /\ (exists l, LibCheck.getLibSearchPaths w env p = Val l)).
Proof.
  assert (Hinc : forall l, LibCheck.getIncSearchPaths w env p = Val l ->
                           forall q, In q l -> os_path_isdir w q = true).
  { unfold LibCheck.getIncSearchPaths. intros l H q Hq.
    destruct (LibCheck.inc_candidates w env p); [|discriminate].
    inversion H; subst l. now apply filter_In in Hq. }
  assert (Hlib : forall l, LibCheck.getLibSearchPaths w env p = Val l ->
                           forall q, In q l -> os_path_exists w q = true).
  { unfold LibCheck.getLibSearchPaths. intros l H q Hq.
    destruct (LibCheck.lib_candidates w env p); [|discriminate].
    inversion H; subst l. now apply filter_In in Hq. }
  split; [|split; [exact Hlib|split]].
  - intros l H q Hq. split; [|apply isdir_exists]; now apply (Hinc l).
  - intros l q Hne [H|H] Hq.
    + apply (Hinc l H) in Hq. apply isdir_exists in Hq. congruence.
    + apply (Hlib l H) in Hq. congruence.
  - intros H. split; [now apply getIncSearchPaths_returns | now apply getLibSearchPaths_returns].
Qed.

Lemma search_paths_exist_witness :
  LibCheck.getIncSearchPaths host_usr_only linux_env probe_zlib = Val ["/usr/include"]
  /\ os_path_isdir host_usr_only "/usr/include" = true
  /\ LibCheck.getLibSearchPaths host_usr_only linux_env probe_zlib = Val ["/usr/lib"]
  /\ os_path_exists host_usr_only "/usr/lib" = true
  /\ ~ In "/usr/local/include" ["/usr/include"].
Proof.
  destruct (search_paths_exist host_usr_only linux_env probe_zlib) as (Hi & Hl & Hd & _).
  split; [reflexivity|]. split.
  - apply (Hi ["/usr/include"]); [reflexivity | now left].
  - split; [reflexivity|]. split.
    + apply (Hl ["/usr/lib"]); [reflexivity | now left].
    + apply (Hd ["/usr/include"] "/usr/local/include"); [reflexivity | now left].
Defined.

(** ** The library search *)

Ltac run_monad :=
  unfold bind, gets, ret, raise, update_state, when, lift_try, log_event, printError; simpl.

(** What [checkLib] does on a probe that declares libraries, once the search
    paths are known: it succeeds as soon as one file matches one declared
    library, and records the search path of that file. *)
Lemma checkLib_first_match (w : World) (s : State) (l : list string) :
  asLibFiles (self s) <> [] ->
  LibCheck.getLibSearchPaths w (g_oEnv s) (self s) = Val l ->
  let ms := LibCheck.lib_matches w l (asLibFiles (self s))
                                 (LibCheck.lib_exts (EnvManager.getitem (g_oEnv s) "KBUILD_TARGET")) in
  let s1 := mkState (self s) (g_cErrors s) (g_oEnv s) (fs_tmp s)
                    (trace s ++ [EvLibrarySearch (sName (self s))])%list in
  LibCheck.checkLib w s
  = match find (fun m => os_path_isfile w (snd m)) ms with
    | Some (sCurSearchPath, _) =>
        Ok true (with_self (fun q => LibCheck.set_asLibPaths
                                       (LibCheck.extend_paths (asLibPaths q) sCurSearchPath) q) s1)
    | None =>
        Ok false (mkState (self s) (S (g_cErrors s)) (g_oEnv s) (fs_tmp s) (trace s1))
    end.
Proof.
  intros Hne Hp. unfold LibCheck.checkLib. run_monad.
  destruct (asLibFiles (self s)) as [|lib libs] eqn:El; [congruence|]. simpl.
  rewrite Hp. simpl.
  destruct (find _ _) as [[path file]|]; [reflexivity|].
  destruct (list_eq_dec string_dec [] (lib :: libs)); [discriminate | reflexivity].
Qed.

(** C2 at the probe [xrandr], which declares [libXrandr] and [libX11]: the
    only search path is [/usr/lib], no file there matches [libX11] with any
    accepted extension, and [checkLib] still returns [True], without an
    error. *)
Theorem checkLib_true_with_missing_library :
  let w := host_xrandr_only in
  let s := initial_state probe_xrandr linux_env in
  LibCheck.getLibSearchPaths w (g_oEnv s) (self s) = Val ["/usr/lib"]
  /\ LibCheck.lib_matches w ["/usr/lib"] ["libX11"] [".a"; ".so"] = []
  /\ exists s', LibCheck.checkLib w s = Ok true s'
                /\ asLibPaths (self s') = Some ["/usr/lib"]
                /\ g_cErrors s' = 0.
Proof.
  split; [reflexivity|]. split; [reflexivity|].
  eexists. split; [lazy; reflexivity|]. split; reflexivity.
Qed.

(** ** The version in the name of an in-tree copy *)

Lemma span_ver_all (v : string) : all_ver v = true -> span_ver v = (v, EmptyString).
Proof.
  unfold all_ver. induction v as [|c t IH]; simpl; [reflexivity|].
  intros H. apply andb_true_iff in H as [Hc Ht]. now rewrite Hc, IH.
Qed.

Lemma span_ver_before_dash (a v : string) :
  exists run x, span_ver (a ++ String "-" v) = (run, x ++ String "-" v).
Proof.
  induction a as [|c t (run & x & IH)]; simpl.
  - exists EmptyString, EmptyString. reflexivity.
  - destruct (is_ver_char c).
    + rewrite IH. now exists (String c run), x.
    + now exists EmptyString, (String c t).
Qed.

Lemma length_app (a b : string) :
  String.length (a ++ b) = String.length a + String.length b.
Proof. induction a as [|c t IH]; simpl; [reflexivity | now rewrite IH]. Qed.

Lemma app_dash_not_short (x v : string) :
  v <> EmptyString ->
  (x ++ String "-" v =? EmptyString) = false /\ (x ++ String "-" v =? PyStr.nl) = false.
Proof.
  intros Hv. split; apply String.eqb_neq; intros H;
    apply (f_equal String.length) in H; rewrite length_app in H;
    destruct v; try congruence; simpl in H; lia.
Qed.

(** A name that ends in a dash followed by digits and dots has that suffix
    as its version. *)
Lemma re_search_version_suffix (pre v : string) :
  v <> EmptyString -> all_ver v = true ->
  re_search_version (pre ++ String "-" v) = Some v.
Proof.
  intros Hv Ha. induction pre as [|c t IH]; simpl.
  - rewrite (span_ver_all v Ha), truthy_nonempty by exact Hv. reflexivity.
  - destruct (nat_of_ascii c =? 45)%nat; [|exact IH].
    destruct (span_ver_before_dash t v) as (run & x & ->).
    destruct (app_dash_not_short x v Hv) as [-> ->].
    rewrite andb_false_r. exact IH.
Qed.

(** ** The in-tree short circuit of [performCheck] *)

(** C1, as stated, fails on a disabled probe: no custom path is given and
    the in-tree directory exists, yet [performCheck] returns before looking
    for it and the result stays unknown. *)
Lemma performCheck_disabled_ignores_in_tree :
  sCustomPath probe_zlib_disabled = None
  /\ glob_glob host_intree_zlib (LibCheck.intree_pattern host_intree_zlib probe_zlib_disabled)
     = ["/vbox/src/libs/zlib-1.3.1"]
  /\ os_path_isdir host_intree_zlib "/vbox/src/libs/zlib-1.3.1" = true
  /\ LibCheck.performCheck host_intree_zlib (initial_state probe_zlib_disabled linux_env)
     = Ok true (initial_state probe_zlib_disabled linux_env)
  /\ fHave (self (initial_state probe_zlib_disabled linux_env)) <> Some true.
Proof.
  repeat split. discriminate.
Qed.

(** C1, amended: for a probe that is not disabled, whose target is not
    excluded and that has no custom path, when the pattern
    [src/libs/<name>-*] under the script matches, [performCheck] returns
    [True] with the result set to present, the version read from the
    trailing digits-and-dots suffix of the directory name when there is one
    (left as it was otherwise), and the first match, relative to the script,
    added to the include paths: it is the primary and only one for a probe
    that had none, which is how [__init__] leaves a probe.  Nothing else
    happens: no header search, no library search, no harness, no child
    process, no error, no temporary file, no change of the store. *)
Theorem performCheck_in_tree (w : World) (s : State) (sCurMatch : string) (rest : list string) :
  PyStr.truthy_opt (sCustomPath (self s)) = false ->
  fDisabled (self s) = false ->
  PyStr.mem_opt (EnvManager.getitem (g_oEnv s) "KBUILD_TARGET") (aeTargetsExcluded (self s))
  = false ->
  glob_glob w (LibCheck.intree_pattern w (self s)) = sCurMatch :: rest ->
  let sDir := os_path_basename w (os_path_normpath w sCurMatch) in
  let sRel := os_path_relpath w sCurMatch (g_sScriptPath w) in
  exists s',
    LibCheck.performCheck w s = Ok true s'
    /\ fHave (self s') = Some true
    /\ sVer (self s') = match re_search_version sDir with
                        | Some v => Some v
                        | None => sVer (self s)
                        end
    /\ (forall pre v, sDir = pre ++ String "-" v -> v <> EmptyString -> all_ver v = true ->
                      sVer (self s') = Some v)
    /\ asIncPaths (self s') = LibCheck.extend_paths (asIncPaths (self s)) sRel
    /\ (PyStr.truthy_olist (asIncPaths (self s)) = false ->
        asIncPaths (self s') = Some [sRel])
    /\ trace s' = trace s
    /\ g_cErrors s' = g_cErrors s
    /\ fs_tmp s' = fs_tmp s
    /\ g_oEnv s' = g_oEnv s.
Proof.
  intros Hc Hd He Hg sDir sRel.
  unfold LibCheck.performCheck. run_monad.
  rewrite He, Hd, Hc, Hg. simpl. fold sDir. fold sRel.
  assert (Hx : PyStr.truthy_olist (asIncPaths (self s)) = false ->
               LibCheck.extend_paths (asIncPaths (self s)) sRel = Some [sRel])
    by (intros Hi; unfold LibCheck.extend_paths; now rewrite Hi).
  destruct (re_search_version sDir) as [v|] eqn:Ev; simpl;
    (eexists; split; [reflexivity|]; simpl;
     repeat split; try reflexivity; try exact Hx).
  - intros pre v' Hs Hv Ha. rewrite Hs, (re_search_version_suffix pre v' Hv Ha) in Ev.
    now symmetry.
  - intros pre v' Hs Hv Ha. rewrite Hs, (re_search_version_suffix pre v' Hv Ha) in Ev.
    discriminate Ev.
Qed.

Lemma performCheck_in_tree_witness :
  exists s',
    LibCheck.performCheck host_intree_zlib (initial_state probe_zlib linux_env) = Ok true s'
    /\ fHave (self s') = Some true
    /\ sVer (self s') = Some "1.3.1"
    /\ asIncPaths (self s') = Some ["src/libs/zlib-1.3.1"]
    /\ trace s' = [] /\ g_cErrors s' = 0 /\ fs_tmp s' = [].
Proof.
  destruct (performCheck_in_tree host_intree_zlib (initial_state probe_zlib linux_env)
                                 "/vbox/src/libs/zlib-1.3.1" []
                                 eq_refl eq_refl eq_refl eq_refl)
    as (s' & H1 & H2 & H3 & _ & _ & H5 & H6 & H7 & H8 & _).
  exists s'. repeat split; try assumption. now apply H5.
Defined.

(** ** A probe whose headers are found and whose libraries are not *)

Lemma set_asIncPaths_same (p : LibraryCheck) : LibCheck.set_asIncPaths (asIncPaths p) p = p.
Proof. now destruct p. Qed.

(** [checkInc] touches the include paths of the probe, the error counter
    when it fails, and the event log; nothing else. *)
Lemma checkInc_frame (w : World) (s s1 : State) (b : bool) :
  LibCheck.checkInc w s = Ok b s1 ->
  (exists x, self s1 = LibCheck.set_asIncPaths x (self s))
  /\ g_oEnv s1 = g_oEnv s
  /\ fs_tmp s1 = fs_tmp s
  /\ g_cErrors s1 = (if b then g_cErrors s else S (g_cErrors s))
  /\ (trace s1 = trace s \/ trace s1 = (trace s ++ [EvHeaderSearch (sName (self s))])%list).
Proof.
  unfold LibCheck.checkInc. run_monad.
  destruct (negb (PyStr.truthy_list (asIncFiles (self s))) && negb (PyStr.truthy_list (asAltIncFiles (self s)))).
  - intros H; inversion H; subst. repeat split; auto.
    exists (asIncPaths (self s1)). now rewrite set_asIncPaths_same.
  - simpl. destruct (LibCheck.getIncSearchPaths w (g_oEnv s) (self s)) as [l|e]; simpl; [|discriminate].
    destruct (LibCheck.scan_headers w l _ _) as [paths found]. simpl.
    destruct (list_eq_dec string_dec found _); intros H; inversion H; subst; simpl;
      repeat split; eauto.
Qed.

(** C4, amended: for a probe on an applicable, not excluded target, not
    disabled, with no in-tree copy taken, whose header search succeeds and
    whose library search has a list of paths but no regular file among the
    matches, [performCheck] returns [False] with the result set to absent,
    two errors are counted (the one [checkLib] reports and the one
    [performCheck] reports), and the only events are the two searches: the
    harness is not entered, no child process is started, no temporary file
    is made. *)
Theorem performCheck_library_missing (w : World) (s s1 : State) (l : list string) :
  PyStr.mem_opt (EnvManager.getitem (g_oEnv s) "KBUILD_TARGET") (aeTargetsExcluded (self s))
  = false ->
  fDisabled (self s) = false ->
  PyStr.truthy_opt (sCustomPath (self s)) = true
  \/ glob_glob w (LibCheck.intree_pattern w (self s)) = [] ->
  PyStr.mem_opt (EnvManager.getitem (g_oEnv s) "KBUILD_TARGET") (aeTargets (self s))
  || PyStr.mem BuildTarget.ANY (aeTargets (self s)) = true ->
  LibCheck.checkInc w (with_self (LibCheck.set_fHave (Some false)) s) = Ok true s1 ->
  asLibFiles (self s) <> [] ->
  LibCheck.getLibSearchPaths w (g_oEnv s) (self s) = Val l ->
  (forall m, In m (LibCheck.lib_matches w l (asLibFiles (self s))
                     (LibCheck.lib_exts (EnvManager.getitem (g_oEnv s) "KBUILD_TARGET"))) ->
             os_path_isfile w (snd m) = false) ->
  exists s',
    LibCheck.performCheck w s = Ok false s'
    /\ fHave (self s') = Some false
    /\ g_cErrors s' = g_cErrors s + 2
    /\ (exists evs, trace s' = (trace s ++ evs)%list /\ Forall search_event evs)
    /\ fs_tmp s' = fs_tmp s.
Proof.
  intros He Hd Hv Ha Hinc Hne Hp Hm.
  destruct (checkInc_frame w _ s1 true Hinc) as ((x & Hself) & Henv & Hfs & Herr & Htr).
  simpl in Henv, Hfs, Herr, Htr, Hself.
  assert (Hlib : LibCheck.checkLib w s1
                 = Ok false (mkState (self s1) (S (g_cErrors s1)) (g_oEnv s1) (fs_tmp s1)
                                     (trace s1 ++ [EvLibrarySearch (sName (self s1))])%list)).
  { rewrite (checkLib_first_match w s1 l).
    - rewrite Hself, Henv. simpl.
      destruct (find _ _) as [[a b]|] eqn:Ef; [|reflexivity].
      apply find_some in Ef as [Hin Hf]. rewrite (Hm _ Hin) in Hf. discriminate.
    - now rewrite Hself.
    - now rewrite Hself, Henv. }
  unfold LibCheck.performCheck.
  unfold bind, gets, ret, update_state, when, printError. cbn beta iota.
  rewrite He, Hd.
  assert (Hg : (if negb (PyStr.truthy_opt (sCustomPath (self s)))
                then glob_glob w (LibCheck.intree_pattern w (self s)) else []) = []).
  { destruct Hv as [-> | ->]; [reflexivity | now destruct (negb _)]. }
  rewrite Hg, Ha. cbn beta iota.
  rewrite Hinc. cbn beta iota.
  rewrite Hlib. cbn beta iota. cbn [self]. rewrite Hself. cbn.
  eexists. split; [reflexivity|]. simpl. repeat split.
  - rewrite Herr. lia.
  - destruct Htr as [-> | ->].
    + eexists. split; [reflexivity|]. repeat constructor.
    + eexists. rewrite <- app_assoc. split; [reflexivity|]. repeat constructor.
  - exact Hfs.
Qed.

(** C4, as stated, fails on the count: for the probe [zlib] with its header
    found and no library file, the run that had no error has two afterwards,
    one from [checkLib] and one from [performCheck]. *)
Lemma performCheck_library_missing_two_errors :
  LibCheck.checkInc host_zlib_header_only
                    (with_self (LibCheck.set_fHave (Some false))
                               (initial_state probe_zlib linux_env))
  = Ok true (state_of (LibCheck.checkInc host_zlib_header_only
                         (with_self (LibCheck.set_fHave (Some false))
                                    (initial_state probe_zlib linux_env))))
  /\ LibCheck.lib_matches host_zlib_header_only ["/usr/lib"] ["libz"] [".a"; ".so"] = []
  /\ exists s',
       LibCheck.performCheck host_zlib_header_only (initial_state probe_zlib linux_env)
       = Ok false s'
       /\ fHave (self s') = Some false
       /\ g_cErrors (initial_state probe_zlib linux_env) = 0
       /\ g_cErrors s' = 2
       /\ g_cErrors s' <> 1
       /\ trace s' = [EvHeaderSearch "zlib"; EvLibrarySearch "zlib"].
Proof.
  split; [reflexivity|]. split; [reflexivity|].
  eexists. split; [lazy; reflexivity|]. repeat split. discriminate.
Qed.

Lemma performCheck_library_missing_witness :
  exists s',
    LibCheck.performCheck host_zlib_header_only (initial_state probe_zlib linux_env)
    = Ok false s'
    /\ fHave (self s') = Some false
    /\ g_cErrors s' = 2
    /\ fs_tmp s' = [].
Proof.
  destruct (performCheck_library_missing
              host_zlib_header_only (initial_state probe_zlib linux_env)
              (state_of (LibCheck.checkInc host_zlib_header_only
                           (with_self (LibCheck.set_fHave (Some false))
                                      (initial_state probe_zlib linux_env))))
              ["/usr/lib"] eq_refl eq_refl (or_intror eq_refl) eq_refl eq_refl)
    as (s' & H1 & H2 & H3 & _ & H5).
  - discriminate.
  - reflexivity.
  - intros m [].
  - exists s'. repeat split; assumption.
Defined.

(** ** The temporary files of the harness *)

(** When the test compiles and runs, the source, the binary and the
    directory are gone when the harness returns. *)
Example compileAndExecute_success_cleans :
  exists s',
    harness_zlib host_cc_ok (initial_state probe_zlib linux_env)
    = Ok (true, Some "1.3.1", None) s'
    /\ fs_tmp s' = [].
Proof. eexists. split; [lazy; reflexivity | reflexivity]. Qed.

(** C7 at a failing compile, debug mode off: the compiler exits with 1 and
    writes no binary.  The harness returns its failure; the source is
    removed, removing the binary that was never written raises
    [FileNotFoundError], the handler for [OSError] around the whole clean-up
    takes it, and [os.rmdir] is not reached: the fresh temporary directory
    is still there when the function returns. *)
Theorem compileAndExecute_compile_failure_leaves_tempdir :
  g_fDebug host_cc_fails = false
  /\ fs_tmp (initial_state probe_zlib linux_env) = []
  /\ exists s',
       harness_zlib host_cc_fails (initial_state probe_zlib linux_env)
       = Ok (false, Some EmptyString, Some "error: no such file") s'
       /\ fs_tmp s' = [tempfile_mkdtemp host_cc_fails]
       /\ trace s' = [EvHarness "zlib";
                      EvCompilerSpawn ["g++"; "-I/usr/include"; "-L/usr/lib";
                                       "/tmp/tmpq1w2e3/testlib.cpp"; "-o";
                                       "/tmp/tmpq1w2e3/a.out"; "-lz"]].
Proof.
  split; [reflexivity|]. split; [reflexivity|].
  eexists. split; [lazy; reflexivity|]. split; reflexivity.
Qed.

(** The step that is skipped: with the source removed and the binary absent
    the directory is empty, so [os.rmdir] would have removed it. *)
Example rmdir_would_succeed :
  os_rmdir host_cc_fails "/tmp/tmpq1w2e3"
           (mkState probe_zlib 0 linux_env ["/tmp/tmpq1w2e3"] [])
  = Ok tt (mkState probe_zlib 0 linux_env [] []).
Proof. reflexivity. Qed.

(** An exception the harness does not catch leaves everything behind: an
    [OSError] from starting the compiler that is neither a permission nor a
    missing-file error goes through all three handlers and past the
    clean-up. *)
Example compileAndExecute_oserror_skips_cleanup :
  exists s',
    harness_zlib (posix_host "x86_64" false [] [] (CompileRaises OSError_other)
                             (run_prints "1"))
                 (initial_state probe_zlib linux_env)
    = Raise OSError_other s'
    /\ fs_tmp s' = ["/tmp/tmpq1w2e3"; "/tmp/tmpq1w2e3/testlib.cpp"].
Proof. eexists. split; [lazy; reflexivity | reflexivity]. Qed.

(** Scenario A: the probe [zlib] with header and library installed and a test
    that prints 1.3.1 ends present with that version, without an error and
    with no temporary file left. *)
Example performCheck_zlib_present :
  exists s',
    LibCheck.performCheck host_zlib_installed (initial_state probe_zlib linux_env)
    = Ok true s'
    /\ fHave (self s') = Some true
    /\ sVer (self s') = Some "1.3.1"
    /\ asIncPaths (self s') = Some ["/usr/include"]
    /\ asLibPaths (self s') = Some ["/usr/lib"]
    /\ g_cErrors s' = 0
    /\ fs_tmp s' = [].
Proof. eexists. split; [lazy; reflexivity | repeat split]. Qed.

(** * Further properties *)

(** ** The store: round trips and composition *)

Lemma set_absent (d : Dict.t) (k v : string) :
  Dict.get d k = None -> Dict.set d k v = (d ++ [(k, v)])%list.
Proof.
  induction d as [|[k' v'] r IH]; simpl; [reflexivity|].
  destruct (k' =? k); [discriminate|]. intros H. now rewrite IH.
Qed.

Lemma del_absent (d : Dict.t) (k : string) : Dict.get d k = None -> Dict.del d k = d.
Proof.
  unfold Dict.del. induction d as [|[k' v'] r IH]; simpl; [reflexivity|].
  destruct (k' =? k); [discriminate|]. intros H. simpl. now rewrite IH.
Qed.

Lemma set_set (d : Dict.t) (k a b : string) :
  Dict.set (Dict.set d k a) k b = Dict.set d k b.
Proof.
  induction d as [|[k' v'] r IH]; simpl.
  - now rewrite String.eqb_refl.
  - destruct (k' =? k) eqn:E; simpl.
    + now rewrite String.eqb_refl.
    + now rewrite E, IH.
Qed.

Lemma string_app_assoc (a b c : string) : (a ++ b) ++ c = a ++ (b ++ c).
Proof. induction a as [|x t IH]; simpl; [reflexivity | now rewrite IH]. Qed.

(** X1: setting a key that was absent and unsetting it gives back the store,
    order included; setting a key twice is setting it to the later value. *)
Theorem set_unset_round_trip (env : Dict.t) (k v : string) :
  Dict.get env k = None ->
  EnvManager.unset (EnvManager.set env k (Some v)) k = env
  /\ (forall a b, EnvManager.set (EnvManager.set env k (Some a)) k (Some b)
                  = EnvManager.set env k (Some b)).
Proof.
  intros H. split.
  - unfold EnvManager.unset, EnvManager.set, Dict.has. rewrite get_set_same.
    rewrite (set_absent env k v H). unfold Dict.del. rewrite filter_app. simpl.
    rewrite String.eqb_refl. simpl. rewrite app_nil_r. now apply del_absent.
  - intros a b. simpl. apply set_set.
Qed.

Lemma set_unset_round_trip_witness :
  EnvManager.unset (EnvManager.set [("PATH", "/bin")] "CC" (Some "gcc")) "CC"
  = [("PATH", "/bin")].
Proof.
  apply (set_unset_round_trip [("PATH", "/bin")] "CC" "gcc"). reflexivity.
Defined.

(** X2: [append] creates an absent key with the value, extends a present one
    at its end, and two appends are one append of the concatenation. *)
Theorem append_composes (env : Dict.t) (k a b : string) :
  Dict.get (EnvManager.append env k a) k
  = Some (match Dict.get env k with Some old => old ++ a | None => a end)
  /\ EnvManager.append (EnvManager.append env k a) k b = EnvManager.append env k (a ++ b).
Proof.
  unfold EnvManager.append, EnvManager.set. split.
  - destruct (Dict.get env k); apply get_set_same.
  - destruct (Dict.get env k) as [old|]; rewrite get_set_same, set_set;
      [now rewrite string_app_assoc | reflexivity].
Qed.

(** X3: [modify] raises on a key that is not set; on a key that is set it
    stores the function's result under it, leaves the other keys and the
    order of the keys as they were. *)
Theorem modify_spec (env : Dict.t) (k : string) (func : string -> string) :
  (Dict.get env k = None -> EnvOps.modify env k func = None)
  /\ (forall old, Dict.get env k = Some old ->
        exists env', EnvOps.modify env k func = Some env'
                     /\ Dict.get env' k = Some (func old)
                     /\ (forall k', k' <> k -> Dict.get env' k' = Dict.get env k')
                     /\ Dict.keys env' = Dict.keys env).
Proof.
  unfold EnvOps.modify. split.
  - now intros ->.
  - intros old H. rewrite H. eexists. split; [reflexivity|]. split; [apply get_set_same|].
    split.
    + intros k' Hk. apply get_set_other. congruence.
    + rewrite keys_set. unfold Dict.has. now rewrite H.
Qed.

Lemma modify_spec_witness :
  EnvOps.modify [("CC", "gcc")] "CXX" (fun v => v ++ " -m64") = None
  /\ exists env', EnvOps.modify [("CC", "gcc"); ("LD", "ld")] "CC" (fun v => v ++ " -m64")
                  = Some env'
                  /\ Dict.get env' "CC" = Some "gcc -m64"
                  /\ Dict.keys env' = ["CC"; "LD"].
Proof.
  split.
  - apply (modify_spec [("CC", "gcc")] "CXX"). reflexivity.
  - destruct (modify_spec [("CC", "gcc"); ("LD", "ld")] "CC" (fun v => v ++ " -m64"))
      as (_ & H).
    destruct (H "gcc" eq_refl) as (env' & H1 & H2 & _ & H4).
    exists env'. repeat split; assumption.
Defined.

(** ** The command line into the store *)

Lemma find_char_app (c : ascii) (name rest : string) :
  PyStr.has_char c name = false ->
  EnvOps.find_char c (name ++ String c rest) = Some (String.length name).
Proof.
  unfold PyStr.has_char. induction name as [|a t IH]; simpl.
  - now rewrite Ascii.eqb_refl.
  - rewrite Ascii.eqb_sym. destruct (Ascii.eqb a c); simpl; [discriminate|].
    intros H. now rewrite IH.
Qed.

Lemma substring_app_head (a b : string) : substring 0 (String.length a) (a ++ b) = a.
Proof.
  induction a as [|x t IH]; simpl; [now destruct b | now rewrite IH].
Qed.

Lemma substring_all (b : string) : substring 0 (String.length b) b = b.
Proof. induction b as [|x t IH]; simpl; [reflexivity | now rewrite IH]. Qed.

Lemma substring_app_tail (a b : string) :
  substring (String.length a) (String.length b) (a ++ b) = b.
Proof.
  induction a as [|x t IH]; simpl; [apply substring_all | exact IH].
Qed.

(** X4: [updateFromArgs] skips every argument whose value is false or
    [None], wherever it stands in the list, and goes on with the arguments
    after it; an argument that is given and whose destination starts with
    [config_] stores the text of its value under that destination; one whose
    destination is [NAME=VALUE] (no [=] in the name, not a [config_] key)
    stores VALUE under NAME, the empty VALUE included; a destination that
    starts with [=] ends the loop, so the arguments after it are dropped. *)
Theorem updateFromArgs_spec (env : Dict.t) :
  (forall skipped rest,
      (forall kv, In kv skipped -> EnvOps.arg_truthy (snd kv) = false) ->
      EnvOps.updateFromArgs env (skipped ++ rest)%list = EnvOps.updateFromArgs env rest)
  /\ (forall items, (forall kv, In kv items -> EnvOps.arg_truthy (snd kv) = false) ->
                    EnvOps.updateFromArgs env items = env)
  /\ (forall sKey v rest,
         EnvOps.arg_truthy v = true -> prefix "config_" sKey = true ->
         EnvOps.updateFromArgs env ((sKey, v) :: rest)
         = EnvOps.updateFromArgs (Dict.set env sKey (EnvOps.arg_str v)) rest)
  /\ (forall name value v rest,
         EnvOps.arg_truthy v = true -> name <> EmptyString ->
         PyStr.has_char "="%char name = false ->
         prefix "config_" (name ++ String "=" value) = false ->
         EnvOps.updateFromArgs env ((name ++ String "=" value, v) :: rest)
         = EnvOps.updateFromArgs (Dict.set env name value) rest)
  /\ (forall x v rest,
         EnvOps.arg_truthy v = true ->
         EnvOps.updateFromArgs env ((String "=" x, v) :: rest) = env).
Proof.
  assert (Hskip : forall skipped rest e,
             (forall kv, In kv skipped -> EnvOps.arg_truthy (snd kv) = false) ->
             EnvOps.updateFromArgs e (skipped ++ rest)%list = EnvOps.updateFromArgs e rest).
  { intros skipped rest. induction skipped as [|[k v] t IH]; intros e H; [reflexivity|].
    cbn [List.app EnvOps.updateFromArgs].
    assert (Hv : EnvOps.arg_truthy v = false) by (apply (H (k, v)); now left).
    rewrite Hv. apply IH. intros kv Hin. apply H. now right. }
  split; [|split; [|split; [|split]]].
  - intros skipped rest H. now apply Hskip.
  - intros items H. rewrite <- (app_nil_r items). now rewrite Hskip.
  - intros sKey v rest Hv Hp. cbn [EnvOps.updateFromArgs]. now rewrite Hv, Hp.
  - intros name value v rest Hv Hn Hc Hp. simpl. rewrite Hv, Hp.
    rewrite (find_char_app "="%char name value Hc).
    destruct (String.length name) as [|n] eqn:El; [destruct name; simpl in El; congruence|].
    rewrite <- El. rewrite substring_app_head.
    replace (String.length (name ++ String "=" value) - (String.length name + 1))
      with (String.length value)
      by (rewrite length_app; simpl; lia).
    replace (String.length name + 1) with (String.length (name ++ "="))
      by (rewrite length_app; reflexivity).
    replace (name ++ String "=" value) with ((name ++ "=") ++ value)
      by (rewrite string_app_assoc; reflexivity).
    now rewrite substring_app_tail.
  - intros x v rest Hv. simpl. now rewrite Hv.
Qed.

Lemma updateFromArgs_spec_witness :
  EnvOps.updateFromArgs [("VBOX_WITH_DOCS", "1")]
                        [("config_verbose", AInt 0); ("VBOX_WITH_DOCS=", ABool true);
                         ("VBOX_OSE=1", ANone)]
  = [("VBOX_WITH_DOCS", EmptyString)].
Proof.
  destruct (updateFromArgs_spec [("VBOX_WITH_DOCS", "1")]) as (Hs & _ & _ & H & _).
  assert (Hne : "VBOX_WITH_DOCS" <> EmptyString) by discriminate.
  assert (E0 := Hs [("config_verbose", AInt 0)]
                   [("VBOX_WITH_DOCS=", ABool true); ("VBOX_OSE=1", ANone)]).
  etransitivity; [apply E0; intros kv [<-|[]]; reflexivity|].
  assert (E := H "VBOX_WITH_DOCS" EmptyString (ABool true) [("VBOX_OSE=1", ANone)]
                 eq_refl Hne eq_refl eq_refl).
  etransitivity; [exact E|].
  destruct (updateFromArgs_spec (Dict.set [("VBOX_WITH_DOCS", "1")] "VBOX_WITH_DOCS"
                                          EmptyString)) as (_ & H0 & _).
  apply H0. intros kv [<-|[]]. reflexivity.
Defined.

(** ** The writers *)





Lemma write_all_fold (env : Dict.t) (fh : EnvOps.Handle) (sWhat : option string)
      (incl excl : option (list string)) :
  EnvOps.write_all env fh sWhat incl excl
  = (fh ++ List.concat
             (map (fun kv => EnvOps.write_single [] (fst kv) (snd kv) sWhat)
                  (filter (fun kv => negb (EnvOps.skipped (fst kv) incl excl)
                                     && PyStr.truthy (snd kv)) env)))%list.
Proof.
  unfold EnvOps.write_all. revert fh. induction env as [|[k v] r IH]; intros fh; simpl.
  - now rewrite app_nil_r.
  - rewrite IH. destruct (EnvOps.skipped k incl excl); simpl; [reflexivity|].
    destruct (PyStr.truthy v); simpl; [|reflexivity].
    unfold EnvOps.write_single. simpl. now rewrite <- app_assoc.
Qed.

(** X6: [write_all] keeps what the handle holds and adds one [write_single]
    line for each key that passes the prefix filters and has a non-empty
    value, in the order of the store; a key with an empty value is never
    written, so a store of empty values writes nothing. *)
Theorem write_all_lines (env : Dict.t) (fh : EnvOps.Handle) (sWhat : option string)
        (incl excl : option (list string)) :
  EnvOps.write_all env fh sWhat incl excl
  = (fh ++ List.concat
             (map (fun kv => EnvOps.write_single [] (fst kv) (snd kv) sWhat)
                  (filter (fun kv => negb (EnvOps.skipped (fst kv) incl excl)
                                     && PyStr.truthy (snd kv)) env)))%list
  /\ ((forall kv, In kv env -> snd kv = EmptyString) ->
      EnvOps.write_all env fh sWhat incl excl = fh)
  /\ (List.length (EnvOps.write_all env fh sWhat incl excl)
      <= List.length fh + List.length env)%nat.
Proof.
  split; [apply write_all_fold|]. split.
  - intros H. rewrite write_all_fold.
    replace (filter _ env) with (@nil (string * string)); [simpl; apply app_nil_r|].
    symmetry. induction env as [|[k v] r IH]; simpl; [reflexivity|].
    assert (Hv : v = EmptyString) by (apply (H (k, v)); now left). subst v.
    simpl. rewrite andb_false_r.
    apply IH. intros kv Hin. apply H. now right.
  - rewrite write_all_fold, List.length_app. apply Nat.add_le_mono_l.
    induction env as [|[k v] r IH]; simpl; [lia|].
    destruct (negb _ && _); simpl; lia.
Qed.

Lemma write_all_lines_witness :
  EnvOps.write_all [("VBOX_WITH_DOCS", EmptyString); ("VBOX_WITH_QTGUI", EmptyString)]
                   ["# flags"] None (Some ["VBOX_"]) None
  = ["# flags"].
Proof.
  apply (write_all_lines [("VBOX_WITH_DOCS", EmptyString); ("VBOX_WITH_QTGUI", EmptyString)]).
  intros kv [<-|[<-|[]]]; reflexivity.
Defined.

(** What the build-variable file gets from a store: the [KBUILD_] keys are
    filtered out, the empty flag is not written, the path is written with
    forward slashes. *)
Example write_all_autoconfig :
  EnvOps.write_all [("KBUILD_TARGET", "win"); ("VBOX_WITH_DOCS", EmptyString);
                    ("PATH_TOOL_VCC", "C:\VS\cl.exe"); ("VBOX_OSE", "1")]
                   [] None (Some ["VBOX_"; "PATH_TOOL_"]) None
  = ["PATH_TOOL_VCC=C:/VS/cl.exe" ++ PyStr.nl; "VBOX_OSE=1" ++ PyStr.nl].
Proof. reflexivity. Qed.

(** X7: [write] answers [True] exactly for a key that is set to a non-empty
    value, and then adds its [write_single] line; in every other case the
    handle is left as it was.  [write_as_export] puts [set] in front of the
    line on the Windows target and [export] on any other. *)
Theorem write_only_nonempty (env : Dict.t) (fh : EnvOps.Handle) (sKey : string)
        (sWhat : option string) (enmBuildTarget : string) :
  (snd (EnvOps.write env fh sKey sWhat) = true
   <-> exists v, Dict.get env sKey = Some v /\ v <> EmptyString)
  /\ (snd (EnvOps.write env fh sKey sWhat) = false -> fst (EnvOps.write env fh sKey sWhat) = fh)
  /\ (forall v, Dict.get env sKey = Some v -> v <> EmptyString ->
        fst (EnvOps.write env fh sKey sWhat) = EnvOps.write_single fh sKey v sWhat
        /\ fst (EnvOps.write_as_export env fh sKey enmBuildTarget)
           = EnvOps.write_single fh sKey v
               (Some (if enmBuildTarget =? BuildTarget.WINDOWS then "set " else "export "))).
Proof.
  unfold EnvOps.write_as_export, EnvOps.write, EnvOps.export_word.
  destruct (Dict.get env sKey) as [v|] eqn:E; simpl.
  - destruct (PyStr.truthy v) eqn:T; simpl.
    + split; [|split].
      * split; [intros _; exists v; split; [reflexivity|] | reflexivity].
        intros ->. discriminate T.
      * discriminate.
      * intros v' Hv _. inversion Hv; subst. split; reflexivity.
    + apply truthy_false_empty in T. subst v. split; [|split].
      * split; [discriminate | intros (v & Hv & Hne); congruence].
      * reflexivity.
      * intros v' Hv Hne. congruence.
  - split; [|split].
    + split; [discriminate | intros (v & Hv & _); discriminate].
    + reflexivity.
    + intros v Hv. discriminate.
Qed.

Lemma write_only_nonempty_witness :
  fst (EnvOps.write_as_export [("PATH", "C:\kBuild\bin;C:\Windows")] [] "PATH" "win")
  = ["set PATH=C:/kBuild/bin;C:/Windows" ++ PyStr.nl]
  /\ fst (EnvOps.write_as_export [("PATH", "/opt/kBuild/bin:/usr/bin")] [] "PATH" "linux")
     = ["export PATH=/opt/kBuild/bin:/usr/bin" ++ PyStr.nl].
Proof.
  split.
  - destruct (write_only_nonempty [("PATH", "C:\kBuild\bin;C:\Windows")] [] "PATH" None "win")
      as (_ & _ & H).
    destruct (H "C:\kBuild\bin;C:\Windows" eq_refl) as (_ & H2); [discriminate|].
    rewrite H2. reflexivity.
  - destruct (write_only_nonempty [("PATH", "/opt/kBuild/bin:/usr/bin")] [] "PATH" None "linux")
      as (_ & _ & H).
    destruct (H "/opt/kBuild/bin:/usr/bin" eq_refl) as (_ & H2); [discriminate|].
    rewrite H2. reflexivity.
Defined.

(** ** Paths prepended one after the other *)

Lemma join_snoc_merge (d a b : string) (l : list string) :
  PyStr.join d (l ++ [a ++ d ++ b]) = PyStr.join d (l ++ [a; b]).
Proof.
  induction l as [|x t IH]; simpl; [reflexivity|].
  destruct t as [|y t']; simpl in *; [reflexivity | now rewrite IH].
Qed.

Lemma prependPath_truthy (env : Dict.t) (k p tgt : string) :
  PyStr.truthy p = true ->
  Dict.get (EnvManager.prependPath env k (Some p) tgt) k
  = Some (match Dict.get env k with
          | Some old => p ++ (if tgt =? BuildTarget.WINDOWS then ";" else ":") ++ old
          | None => p
          end).
Proof.
  intros H. unfold EnvManager.prependPath. rewrite H. simpl.
  assert (Hl : (String.length p =? 0)%nat = false)
    by (destruct p; [discriminate H | reflexivity]).
  rewrite Hl. destruct (Dict.get env k); simpl; apply get_set_same.
Qed.

(** X8: prepending a list of paths to a key, one call after the other, leaves
    the key with the non-empty paths in reverse order, the last one given
    first, then the previous value, joined by the delimiter of the target;
    empty paths count for nothing. *)
Theorem prependPath_sequence (paths : list string) (env : Dict.t) (k tgt : string) :
  Dict.get (fold_left (fun e p => EnvManager.prependPath e k (Some p) tgt) paths env) k
  = match (rev (filter PyStr.truthy paths)
           ++ match Dict.get env k with Some old => [old] | None => [] end)%list with
    | [] => None
    | l => Some (PyStr.join (if tgt =? BuildTarget.WINDOWS then ";" else ":") l)
    end.
Proof.
  revert env. induction paths as [|p t IH]; intros env; cbn [fold_left filter].
  - destruct (Dict.get env k); reflexivity.
  - rewrite IH. destruct (PyStr.truthy p) eqn:T.
    + rewrite (prependPath_truthy env k p tgt T). cbn [rev].
      set (d := if tgt =? BuildTarget.WINDOWS then ";" else ":").
      destruct (Dict.get env k) as [old|].
      * rewrite <- app_assoc. cbn [List.app].
        destruct (rev (filter PyStr.truthy t)) as [|x l]; [reflexivity|].
        cbn [List.app]. f_equal. apply (join_snoc_merge d p old (x :: l)).
      * rewrite app_nil_r. reflexivity.
    + apply truthy_false_empty in T. subst p. reflexivity.
Qed.

(** Two include paths prepended on the Windows target: the second one given
    comes first. *)
Example prependPath_sequence_windows :
  Dict.get (fold_left (fun e p => EnvManager.prependPath e "INCLUDE" (Some p) "win")
                      ["C:\zlib\include"; "C:\vbox\include"] [("INCLUDE", "C:\sdk")])
           "INCLUDE"
  = Some "C:\vbox\include;C:\zlib\include;C:\sdk".
Proof. reflexivity. Qed.

(** ** The summary table *)

Section TableFacts.

Import SimpleTable.









End TableFacts.

(** [addRow] accepts a row exactly when it has one cell per header, so a
    table built from [SimpleTable(...)] by [addRow] is well-formed. *)
Lemma addRow_wf (tb tb' : SimpleTable.t) (asCells : list string) :
  table_wf tb -> SimpleTable.addRow tb asCells = Some tb' ->
  table_wf tb'
  /\ SimpleTable.asHeaders tb' = SimpleTable.asHeaders tb
  /\ SimpleTable.aRows tb' = (SimpleTable.aRows tb ++ [asCells])%list.
Proof.
  unfold SimpleTable.addRow, table_wf. intros Hwf.
  destruct (Nat.eqb_spec (List.length asCells) (List.length (SimpleTable.asHeaders tb)));
    [|discriminate].
  intros H; inversion H; subst; simpl. split; [|split; reflexivity].
  intros row Hin. apply in_app_or in Hin as [Hin|[<-|[]]]; [now apply Hwf | assumption].
Qed.



(** ** What the transform rules leave alone, and what they settle *)

Lemma keys_update (u d : Dict.t) :
  exists added, Dict.keys (Dict.update d u) = (Dict.keys d ++ added)%list.
Proof.
  unfold Dict.update. revert d. induction u as [|[k v] t IH]; intros d; simpl.
  - exists []. now rewrite app_nil_r.
  - destruct (IH (Dict.set d k v)) as (added & H). rewrite H, keys_set.
    destruct (Dict.has d k); [now exists added|].
    exists (k :: added). now rewrite <- app_assoc.
Qed.

Lemma keys_update_incl (u d : Dict.t) :
  exists added, Dict.keys (Dict.update d u) = (Dict.keys d ++ added)%list
                /\ incl added (Dict.keys u).
Proof.
  unfold Dict.update. revert d. induction u as [|[k v] t IH]; intros d; simpl.
  - exists []. split; [now rewrite app_nil_r | intros x []].
  - destruct (IH (Dict.set d k v)) as (added & H & Hi). rewrite H, keys_set.
    destruct (Dict.has d k).
    + exists added. split; [reflexivity | intros x Hx; right; now apply Hi].
    + exists (k :: added). split; [now rewrite <- app_assoc|].
      intros x [<-|Hx]; [now left | right; now apply Hi].
Qed.

Lemma keys_fold_step (l : list Rule) (env : Dict.t) :
  exists added, Dict.keys (fold_left step l env) = (Dict.keys env ++ added)%list
                /\ incl added (Dict.keys (flat_map rule_out l)).
Proof.
  revert env. induction l as [|r t IH]; intros env; cbn [fold_left flat_map].
  - exists []. split; [now rewrite app_nil_r | intros x []].
  - destruct (IH (step env r)) as (added & H & Hi). rewrite H, step_unfold.
    unfold Dict.keys in *. rewrite map_app.
    destruct (rule_cond r env).
    + destruct (keys_update_incl (rule_out r) env) as (a1 & H1 & Hi1).
      unfold Dict.keys in H1, Hi1. rewrite H1.
      exists (a1 ++ added)%list. split; [now rewrite app_assoc|].
      intros x Hx. apply in_app_or in Hx. apply in_or_app.
      destruct Hx as [Hx|Hx]; [left; now apply Hi1 | right; now apply Hi].
    + exists added. split; [reflexivity|].
      intros x Hx. apply in_or_app. right. now apply Hi.
Qed.

(** X10: for rules that read the store they are handed and return a value
    without changing that store, as every lambda of [envTransforms] does (a
    rule of the model is such a function), [transform] removes no key and
    moves none: the keys of the store it returns are the keys it was given,
    in their order, followed by the keys the rules added.  For
    [envTransforms] itself every added key is one of the flags its rules
    write. *)
Theorem transform_keeps_keys (env : Dict.t) :
  (forall mapTransform : list (Dict.t -> RuleResult),
      exists added,
        Dict.keys (EnvManager.transform env mapTransform) = (Dict.keys env ++ added)%list)
  /\ (exists added,
         Dict.keys (EnvManager.transform env envTransforms) = (Dict.keys env ++ added)%list
         /\ incl added (Dict.keys envWrites)).
Proof.
  split.
  - intros mapTransform. unfold EnvManager.transform. revert env.
    induction mapTransform as [|r t IH]; intros env; simpl.
    + exists []. now rewrite app_nil_r.
    + destruct (IH (EnvManager.transform_step env r)) as (added & H). rewrite H.
      unfold EnvManager.transform_step. destruct (r env) as [d|]; [|now exists added].
      destruct (keys_update d env) as (a1 & ->). exists (a1 ++ added)%list.
      now rewrite app_assoc.
  - rewrite envTransforms_rules, transform_map_fold. apply keys_fold_step.
Qed.

Lemma cond_fold (l : list Rule) (r : Rule) (env : Dict.t) :
  incl l envRules -> In r envRules ->
  rule_cond r (fold_left step l env) = rule_cond r env.
Proof.
  revert env. induction l as [|x t IH]; intros env Hl Hr; simpl; [reflexivity|].
  rewrite IH; [|intros y Hy; apply Hl; now right | exact Hr].
  apply (cond_step envWrites envRules envRules_out envRules_stable);
    [apply Hl; now left | exact Hr].
Qed.

(** X11: every rule of [envTransforms] whose condition holds on the store
    given to [transform] has all its pairs in the store returned: no later
    rule undoes what an earlier one switched off, and a rule's condition is
    not changed by the rules before it. *)
Theorem envTransforms_fired_rules_hold (env : Dict.t) (r : Rule) (k v : string) :
  In r envRules -> rule_cond r env = true -> In (k, v) (rule_out r) ->
  Dict.get (EnvManager.transform env envTransforms) k = Some v.
Proof.
  intros Hr Hc Hin. rewrite envTransforms_rules, transform_map_fold.
  assert (Hf : fired_settled ([] ++ envRules) (fold_left step envRules env)).
  { apply (fold_fired_settled envWrites envRules envWrites_functional envRules_out
                              envRules_stable envRules [] env).
    - intros x [].
    - apply incl_refl.
    - intros x []. }
  apply (Hf r Hr); [|exact Hin].
  rewrite cond_fold; [exact Hc | apply incl_refl | exact Hr].
Qed.

Lemma envTransforms_fired_rules_hold_witness :
  Dict.get (EnvManager.transform
              [("CONFIG_LIBS_DISABLE_LIBVPX", "1"); ("VBOX_WITH_RECORDING", "1")]
              envTransforms) "VBOX_WITH_RECORDING" = Some EmptyString.
Proof.
  apply (envTransforms_fired_rules_hold
           [("CONFIG_LIBS_DISABLE_LIBVPX", "1"); ("VBOX_WITH_RECORDING", "1")]
           (mkRule (fun env => flag env "CONFIG_LIBS_DISABLE_LIBVPX")
                   [("VBOX_WITH_LIBVPX", EmptyString); ("VBOX_WITH_RECORDING", EmptyString)])).
  - unfold envRules. simpl. tauto.
  - reflexivity.
  - simpl. tauto.
Defined.

Lemma step_other (env : Dict.t) (r : Rule) (k : string) :
  In r envRules -> ~ In k (Dict.keys envWrites) ->
  Dict.get (step env r) k = Dict.get env k.
Proof.
  intros Hr Hk. rewrite step_unfold. destruct (rule_cond r env); [|reflexivity].
  apply update_other. intros Hin. apply Hk.
  unfold Dict.keys in *. apply in_map_iff in Hin as (kv & Hkv & Hin).
  apply in_map_iff. exists kv. split; [exact Hkv | now apply (envRules_out r Hr)].
Qed.

(** X12: [envTransforms] changes nothing but the flags its rules list: every
    other key keeps its value, and when no rule's condition holds the store
    comes back as it was given. *)
Theorem envTransforms_touch_only_their_flags (env : Dict.t) :
  (forall k, ~ In k (Dict.keys envWrites) ->
             Dict.get (EnvManager.transform env envTransforms) k = Dict.get env k)
  /\ ((forall r, In r envRules -> rule_cond r env = false) ->
      EnvManager.transform env envTransforms = env).
Proof.
  rewrite envTransforms_rules, transform_map_fold. split.
  - intros k Hk.
    assert (H : forall l e, incl l envRules ->
                            Dict.get (fold_left step l e) k = Dict.get e k).
    { induction l as [|x t IH]; intros e Hl; simpl; [reflexivity|].
      rewrite IH by (intros y Hy; apply Hl; now right).
      apply step_other; [apply Hl; now left | exact Hk]. }
    apply H, incl_refl.
  - intros Hno. apply fold_fixed. intros r Hr Hc. rewrite (Hno r Hr) in Hc. discriminate.
Qed.

Lemma envTransforms_touch_only_their_flags_witness :
  Dict.get (EnvManager.transform [("CONFIG_BUILD_HEADLESS", "1"); ("KBUILD_TYPE", "release")]
                                 envTransforms) "KBUILD_TYPE" = Some "release"
  /\ EnvManager.transform [("KBUILD_TYPE", "release"); ("VBOX_WITH_QTGUI", "1")] envTransforms
     = [("KBUILD_TYPE", "release"); ("VBOX_WITH_QTGUI", "1")].
Proof.
  split.
  - destruct (envTransforms_touch_only_their_flags
                [("CONFIG_BUILD_HEADLESS", "1"); ("KBUILD_TYPE", "release")]) as (H & _).
    rewrite H; [reflexivity|].
    simpl. intros H0. repeat (destruct H0 as [H0|H0]; [discriminate H0|]). exact H0.
  - destruct (envTransforms_touch_only_their_flags
                [("KBUILD_TYPE", "release"); ("VBOX_WITH_QTGUI", "1")]) as (_ & H).
    apply H. intros r Hr. unfold envRules in Hr. simpl in Hr.
    repeat (destruct Hr as [<-|Hr]; [reflexivity|]). contradiction.
Defined.

(** ** The header search and the library search *)

Lemma paths_of_extend (x : option (list string)) (v : string) :
  paths_of (LibCheck.extend_paths x v) = (paths_of x ++ [v])%list.
Proof. destruct x as [[|a l]|]; reflexivity. Qed.

Lemma find_header_some (w : World) (l : list string) (h : string) :
  match LibCheck.find_header w l h with
  | Some path => In path l /\ os_path_isfile w (os_path_join w path h) = true
                 /\ header_in w l h = true
  | None => header_in w l h = false
  end.
Proof.
  unfold LibCheck.find_header, header_in.
  destruct (find _ l) as [path|] eqn:E.
  - apply find_some in E as [Hin Hf]. repeat split; try assumption.
    apply existsb_exists. now exists path.
  - apply not_true_is_false. intros H. apply existsb_exists in H as (path & Hin & Hf).
    now rewrite (find_none _ _ E path Hin) in Hf.
Qed.

Lemma scan_headers_found (w : World) (l headers : list string)
      (acc : option (list string) * list string) :
  snd (fold_left
         (fun acc sCurHeader =>
            match LibCheck.find_header w l sCurHeader with
            | Some sCurSearchPath =>
                let sCurSearchPath :=
                  if os_sep w =? "\" then PyStr.replace_char "/"%char "\"%char sCurSearchPath
                  else sCurSearchPath in
                (LibCheck.extend_paths (fst acc) sCurSearchPath, (snd acc ++ [sCurHeader])%list)
            | None => acc
            end) headers acc)
  = (snd acc ++ filter (header_in w l) headers)%list.
Proof.
  revert acc. induction headers as [|h t IH]; intros acc; simpl.
  - now rewrite app_nil_r.
  - rewrite IH. pose proof (find_header_some w l h) as Hf.
    destruct (LibCheck.find_header w l h) as [path|].
    + destruct Hf as (_ & _ & ->). simpl. now rewrite <- app_assoc.
    + now rewrite Hf.
Qed.

Lemma filter_all_iff {A : Type} (f : A -> bool) (l : list A) :
  filter f l = l <-> forallb f l = true.
Proof.
  induction l as [|a t IH]; simpl; [tauto|].
  destruct (f a) eqn:E; simpl.
  - rewrite <- IH. split; [intros H; now injection H | intros H; now rewrite H].
  - split; [|discriminate]. intros H.
    assert (Hl : (List.length (filter f t) <= List.length t)%nat) by apply filter_length_le.
    rewrite H in Hl. simpl in Hl. lia.
Qed.

(** X13: [checkInc] on a probe without headers answers [True] and does
    nothing; on a probe with headers it answers [True] exactly when every
    declared header, the alternative ones included, is a regular file under
    one of the include search paths, and a [False] counts exactly one error.
    The store and the temporary files are not touched. *)
Theorem checkInc_requires_every_header (w : World) (s : State) :
  (asIncFiles (self s) = [] -> asAltIncFiles (self s) = [] -> LibCheck.checkInc w s = Ok true s)
  /\ (forall l,
         (asIncFiles (self s) ++ asAltIncFiles (self s))%list <> [] ->
         LibCheck.getIncSearchPaths w (g_oEnv s) (self s) = Val l ->
         exists s',
           LibCheck.checkInc w s
           = Ok (forallb (header_in w l) (asIncFiles (self s) ++ asAltIncFiles (self s))%list) s'
           /\ g_cErrors s'
              = (if forallb (header_in w l) (asIncFiles (self s) ++ asAltIncFiles (self s))%list
                 then g_cErrors s else S (g_cErrors s))
           /\ g_oEnv s' = g_oEnv s /\ fs_tmp s' = fs_tmp s).
Proof.
  split.
  - intros Hi Ha. unfold LibCheck.checkInc. run_monad. now rewrite Hi, Ha.
  - intros l Hne Hp. unfold LibCheck.checkInc. run_monad.
    assert (Hb : negb (PyStr.truthy_list (asIncFiles (self s)))
                 && negb (PyStr.truthy_list (asAltIncFiles (self s))) = false).
    { destruct (asIncFiles (self s)); [|reflexivity].
      destruct (asAltIncFiles (self s)); [now elim Hne | reflexivity]. }
    rewrite Hb, Hp. simpl.
    set (H := (asIncFiles (self s) ++ asAltIncFiles (self s))%list) in *.
    destruct (LibCheck.scan_headers w l H (asIncPaths (self s))) as [paths found] eqn:Es.
    assert (Hfound : found = filter (header_in w l) H).
    { pose proof (scan_headers_found w l H (asIncPaths (self s), [])) as Hs.
      change (snd (LibCheck.scan_headers w l H (asIncPaths (self s)))
              = ([] ++ filter (header_in w l) H)%list) in Hs.
      rewrite Es in Hs. exact Hs. }
    simpl. destruct (list_eq_dec string_dec found H) as [Heq|Hneq].
    + rewrite Hfound in Heq. apply filter_all_iff in Heq. rewrite Heq.
      eexists. split; [reflexivity|]. repeat split.
    + assert (Hf : forallb (header_in w l) H = false).
      { apply not_true_is_false. intros Hall. apply filter_all_iff in Hall. congruence. }
      rewrite Hf. eexists. split; [reflexivity|]. repeat split.
Qed.

Lemma checkInc_requires_every_header_witness :
  exists s',
    LibCheck.checkInc host_sdl_header (initial_state probe_sdl2 linux_env) = Ok false s'
    /\ g_cErrors s' = 1.
Proof.
  destruct (checkInc_requires_every_header host_sdl_header
              (initial_state probe_sdl2 linux_env)) as (_ & H).
  destruct (H ["/usr/include"]) as (s' & H1 & H2 & _); [discriminate | reflexivity |].
  exists s'. split; [exact H1 | exact H2].
Defined.

Lemma getIncSearchPaths_isdir (w : World) (env : Dict.t) (p : LibraryCheck) (l : list string) :
  LibCheck.getIncSearchPaths w env p = Val l -> forall q, In q l -> os_path_isdir w q = true.
Proof.
  unfold LibCheck.getIncSearchPaths. destruct (LibCheck.inc_candidates w env p); [|discriminate].
  intros H q Hq. inversion H; subst. now apply filter_In in Hq.
Qed.

Lemma getLibSearchPaths_exists (w : World) (env : Dict.t) (p : LibraryCheck) (l : list string) :
  LibCheck.getLibSearchPaths w env p = Val l -> forall q, In q l -> os_path_exists w q = true.
Proof.
  unfold LibCheck.getLibSearchPaths. destruct (LibCheck.lib_candidates w env p); [|discriminate].
  intros H q Hq. inversion H; subst. now apply filter_In in Hq.
Qed.

Lemma scan_headers_paths (w : World) (l headers : list string)
      (acc : option (list string) * list string) :
  (os_sep w =? "\") = false ->
  let r := fold_left
             (fun acc sCurHeader =>
                match LibCheck.find_header w l sCurHeader with
                | Some sCurSearchPath =>
                    (LibCheck.extend_paths (fst acc)
                       (if os_sep w =? "\"
                        then PyStr.replace_char "/"%char "\"%char sCurSearchPath
                        else sCurSearchPath),
                     (snd acc ++ [sCurHeader])%list)
                | None => acc
                end) headers acc in
  (forall q, In q (paths_of (fst r)) ->
             In q (paths_of (fst acc))
             \/ (In q l /\ exists h, In h headers
                                     /\ os_path_isfile w (os_path_join w q h) = true))
  /\ (forall q, In q (paths_of (fst acc)) -> In q (paths_of (fst r)))
  /\ (forall h, In h headers -> header_in w l h = true ->
                exists q, In q (paths_of (fst r))
                          /\ os_path_isfile w (os_path_join w q h) = true).
Proof.
  intros Hsep. revert acc. induction headers as [|h t IH]; intros acc; simpl.
  - repeat split; auto. intros h [].
  - pose proof (find_header_some w l h) as Hf.
    destruct (LibCheck.find_header w l h) as [path|].
    + destruct Hf as (Hin & Hfile & _).
      assert (Hp : (if os_sep w =? "\" then PyStr.replace_char "/"%char "\"%char path
                    else path) = path) by now rewrite Hsep.
      rewrite Hp.
      destruct (IH (LibCheck.extend_paths (fst acc) path, (snd acc ++ [h])%list))
        as (H1 & H2 & H3).
      cbn [fst snd] in H1, H2, H3. split; [|split].
      * intros q Hq. destruct (H1 q Hq) as [Ho|(Hl & h' & Hh' & Hfl)].
        -- rewrite paths_of_extend in Ho. apply in_app_or in Ho as [Ho|[<-|[]]];
             [now left | right].
           split; [exact Hin|]. exists h. split; [now left | exact Hfile].
        -- right. split; [exact Hl|]. exists h'. split; [now right | exact Hfl].
      * intros q Hq. apply H2. rewrite paths_of_extend. apply in_or_app. now left.
      * intros h' [<-|Hh'] Hfound.
        -- exists path. split; [|exact Hfile].
           apply H2. rewrite paths_of_extend. apply in_or_app. right. now left.
        -- now apply H3.
    + destruct (IH acc) as (H1 & H2 & H3). split; [|split].
      * intros q Hq. destruct (H1 q Hq) as [Ho|(Hl & h' & Hh' & Hfl)]; [now left | right].
        split; [exact Hl|]. exists h'. split; [now right | exact Hfl].
      * exact H2.
      * intros h' [<-|Hh'] Hfound; [congruence | now apply H3].
Qed.

(** X14: on a host whose separator is not the backslash, every include path
    [checkInc] adds to a probe is an existing directory under which one of
    the probe's headers is a regular file, the paths recorded before stay,
    and after a [True] every header of the probe is a regular file under one
    of the recorded paths. *)
Theorem checkInc_records_header_directories (w : World) (s s' : State) (b : bool) :
  (os_sep w =? "\") = false ->
  LibCheck.checkInc w s = Ok b s' ->
  let headers := (asIncFiles (self s) ++ asAltIncFiles (self s))%list in
  (forall q, In q (paths_of (asIncPaths (self s'))) ->
             In q (paths_of (asIncPaths (self s)))
             \/ (os_path_isdir w q = true
                 /\ exists h, In h headers /\ os_path_isfile w (os_path_join w q h) = true))
  /\ (forall q, In q (paths_of (asIncPaths (self s))) -> In q (paths_of (asIncPaths (self s'))))
  /\ (b = true -> forall h, In h headers ->
                            exists q, In q (paths_of (asIncPaths (self s')))
                                      /\ os_path_isfile w (os_path_join w q h) = true).
Proof.
  intros Hsep. unfold LibCheck.checkInc. run_monad.
  destruct (negb (PyStr.truthy_list (asIncFiles (self s)))
            && negb (PyStr.truthy_list (asAltIncFiles (self s)))) eqn:Hb.
  - intros H; inversion H; subst. split; [auto|]. split; [auto|].
    intros _ h Hh. exfalso.
    destruct (asIncFiles (self s')); [|discriminate Hb].
    destruct (asAltIncFiles (self s')); [destruct Hh | discriminate Hb].
  - simpl.
    destruct (LibCheck.getIncSearchPaths w (g_oEnv s) (self s)) as [l|e] eqn:Hp;
      simpl; [|discriminate].
    set (H := (asIncFiles (self s) ++ asAltIncFiles (self s))%list).
    pose proof (scan_headers_paths w l H (asIncPaths (self s), []) Hsep) as Hs.
    pose proof (scan_headers_found w l H (asIncPaths (self s), [])) as Hf.
    change (fold_left _ H (asIncPaths (self s), []))
      with (LibCheck.scan_headers w l H (asIncPaths (self s))) in Hs.
    change (snd (LibCheck.scan_headers w l H (asIncPaths (self s)))
            = ([] ++ filter (header_in w l) H)%list) in Hf.
    destruct (LibCheck.scan_headers w l H (asIncPaths (self s))) as [paths found].
    simpl in Hs, Hf. destruct Hs as (H1 & H2 & H3). simpl.
    assert (Hres : forall (bb : bool) (st : State),
               asIncPaths (self st) = paths -> (bb = true -> found = H) ->
               (forall q, In q (paths_of (asIncPaths (self st))) ->
                          In q (paths_of (asIncPaths (self s)))
                          \/ (os_path_isdir w q = true
                              /\ exists h, In h H
                                           /\ os_path_isfile w (os_path_join w q h) = true))
               /\ (forall q, In q (paths_of (asIncPaths (self s))) ->
                             In q (paths_of (asIncPaths (self st))))
               /\ (bb = true -> forall h, In h H ->
                      exists q, In q (paths_of (asIncPaths (self st)))
                                /\ os_path_isfile w (os_path_join w q h) = true)).
    { intros bb st -> Hbb. split; [|split].
      - intros q Hq. destruct (H1 q Hq) as [Ho|(Hl & Hh)]; [now left | right].
        split; [now apply (getIncSearchPaths_isdir w _ _ l Hp) | exact Hh].
      - exact H2.
      - intros Ht h Hh. apply H3; [exact Hh|].
        specialize (Hbb Ht). rewrite Hf in Hbb. apply filter_all_iff in Hbb.
        rewrite forallb_forall in Hbb. now apply Hbb. }
    destruct (list_eq_dec string_dec found H) as [Heq|Hneq];
      intros Hr; inversion Hr; subst b s'; apply Hres; simpl; auto; discriminate.
Qed.

Lemma checkInc_records_header_directories_witness :
  exists s',
    LibCheck.checkInc host_zlib_installed (initial_state probe_zlib linux_env) = Ok true s'
    /\ (forall q, In q (paths_of (asIncPaths (self s'))) -> os_path_isdir host_zlib_installed q = true)
    /\ exists q, In q (paths_of (asIncPaths (self s')))
                 /\ os_path_isfile host_zlib_installed
                                   (os_path_join host_zlib_installed q "zlib.h") = true.
Proof.
  exists (state_of (LibCheck.checkInc host_zlib_installed (initial_state probe_zlib linux_env))).
  destruct (checkInc_records_header_directories
              host_zlib_installed (initial_state probe_zlib linux_env)
              (state_of (LibCheck.checkInc host_zlib_installed
                                           (initial_state probe_zlib linux_env)))
              true eq_refl eq_refl) as (H1 & _ & H3).
  split; [reflexivity|]. split.
  - intros q Hq. destruct (H1 q Hq) as [[]|(Hd & _)]. exact Hd.
  - apply (H3 eq_refl "zlib.h"). now left.
Defined.

Lemma lib_matches_in (w : World) (l libs exts : list string) (path file : string) :
  In (path, file) (LibCheck.lib_matches w l libs exts) ->
  In path l
  /\ exists lib ext, In lib libs /\ In ext exts
                     /\ In file (glob_glob w (LibCheck.lib_pattern w path lib ext)).
Proof.
  unfold LibCheck.lib_matches. intros H.
  apply in_flat_map in H as (p & Hp & H).
  apply in_flat_map in H as (lib & Hlib & H).
  apply in_flat_map in H as (ext & Hext & H).
  apply in_map_iff in H as (f & Hf & Hin). inversion Hf; subst.
  split; [exact Hp|]. now exists lib, ext.
Qed.

(** X15: when [checkLib] answers [True] for a probe that declares libraries,
    the path it adds to the probe exists on disk and holds a regular file
    that matches one declared library with one extension accepted on the
    target, and no error is counted; when it answers [False] the probe's
    library paths are as before and exactly one error is counted.  A probe
    that declares no library gets [True] and nothing changes. *)
Theorem checkLib_records_library_directory (w : World) (s s' : State) (b : bool) :
  LibCheck.checkLib w s = Ok b s' ->
  (asLibFiles (self s) = [] -> b = true /\ s' = s)
  /\ (asLibFiles (self s) <> [] -> b = true ->
      exists path lib ext file,
        paths_of (asLibPaths (self s')) = (paths_of (asLibPaths (self s)) ++ [path])%list
        /\ os_path_exists w path = true
        /\ In lib (asLibFiles (self s))
        /\ In ext (LibCheck.lib_exts (EnvManager.getitem (g_oEnv s) "KBUILD_TARGET"))
        /\ In file (glob_glob w (LibCheck.lib_pattern w path lib ext))
        /\ os_path_isfile w file = true
        /\ g_cErrors s' = g_cErrors s)
  /\ (asLibFiles (self s) <> [] -> b = false ->
      asLibPaths (self s') = asLibPaths (self s) /\ g_cErrors s' = S (g_cErrors s)).
Proof.
  intros H. split.
  - intros He. unfold LibCheck.checkLib in H. revert H. run_monad. rewrite He. simpl.
    intros H; now inversion H.
  - assert (Hcases : asLibFiles (self s) <> [] ->
              exists l, LibCheck.getLibSearchPaths w (g_oEnv s) (self s) = Val l).
    { intros Hne. destruct (LibCheck.getLibSearchPaths w (g_oEnv s) (self s)) as [l|e] eqn:Hp;
        [now exists l|].
      exfalso. unfold LibCheck.checkLib in H. revert H. run_monad.
      destruct (asLibFiles (self s)); [congruence|]. simpl. rewrite Hp. discriminate. }
    split; intros Hne Hb; destruct (Hcases Hne) as (l & Hp);
      rewrite (checkLib_first_match w s l Hne Hp) in H;
      destruct (find _ _) as [[path file]|] eqn:Ef; inversion H; subst; try discriminate.
    + apply find_some in Ef as [Hin Hfile]. simpl in Hfile.
      apply lib_matches_in in Hin as (Hl & lib & ext & Hlib & Hext & Hg).
      exists path, lib, ext, file. simpl. rewrite paths_of_extend.
      repeat split; try assumption.
      now apply (getLibSearchPaths_exists w _ _ l Hp).
    + simpl. split; reflexivity.
Qed.

Lemma checkLib_records_library_directory_witness :
  exists s' path,
    LibCheck.checkLib host_zlib_installed (initial_state probe_zlib linux_env) = Ok true s'
    /\ paths_of (asLibPaths (self s')) = [path]
    /\ os_path_exists host_zlib_installed path = true.
Proof.
  destruct (checkLib_records_library_directory
              host_zlib_installed (initial_state probe_zlib linux_env)
              (state_of (LibCheck.checkLib host_zlib_installed
                                           (initial_state probe_zlib linux_env)))
              true eq_refl) as (_ & H & _).
  destruct H as (path & lib & ext & file & H1 & H2 & _); [discriminate | reflexivity |].
  exists (state_of (LibCheck.checkLib host_zlib_installed (initial_state probe_zlib linux_env))).
  exists path. split; [reflexivity|]. split; [exact H1 | exact H2].
Defined.

(** ** Reasoning about the monad *)

Lemma post_bind {A B : Type} (m : M A) (k : A -> M B) (s : State)
      (Q : B -> State -> Prop) (E : PyExn -> State -> Prop) :
  post m s (fun a s1 => post (k a) s1 Q E) E -> post (bind m k) s Q E.
Proof. unfold post, bind. destruct (m s); auto. Qed.

Lemma post_conseq {A : Type} (m : M A) (s : State)
      (Q Q' : A -> State -> Prop) (E E' : PyExn -> State -> Prop) :
  post m s Q E ->
  (forall a s', Q a s' -> Q' a s') -> (forall e s', E e s' -> E' e s') ->
  post m s Q' E'.
Proof. unfold post. destruct (m s); auto. Qed.

Lemma post_try {A : Type} (m : M A) (c : PyExn -> bool) (h : PyExn -> M A) (s : State)
      (Q : A -> State -> Prop) (E : PyExn -> State -> Prop) :
  post m s Q (fun e s1 => if c e then post (h e) s1 Q E else E e s1) ->
  post (try_except m c h) s Q E.
Proof. unfold post, try_except. destruct (m s) as [a s1|e s1]; [auto|]. now destruct (c e). Qed.

Lemma same_but_fs_refl (s : State) : same_but_fs s s.
Proof. repeat split. Qed.

Lemma same_but_fs_trans (a b c : State) :
  same_but_fs a b -> same_but_fs b c -> same_but_fs a c.
Proof.
  unfold same_but_fs. intros (H1 & H2 & H3 & H4) (K1 & K2 & K3 & K4).
  repeat split; congruence.
Qed.

Lemma same_but_fs_with_fs (f : list string -> list string) (s : State) :
  same_but_fs s (with_fs f s).
Proof. repeat split. Qed.

(** ** The clean-up never fails *)

Lemma remove_files_frame (w : World) (fs : list string) (s : State) :
  post (for_each fs (fun sFileToDel =>
                       try_except (os_remove w sFileToDel)
                                  (fun e => match e with PermissionError => true | _ => false end)
                                  (fun _ => ret tt)))
       s
       (fun _ s' => same_but_fs s s')
       (fun e s' => is_OSError e = true /\ same_but_fs s s').
Proof.
  revert s. induction fs as [|f t IH]; intros s.
  - apply same_but_fs_refl.
  - cbn [for_each]. apply post_bind. apply post_try.
    unfold post at 1. unfold os_remove.
    destruct (os_remove_denied w f).
    + unfold post, ret. apply (post_conseq _ _ _ _ _ _ (IH s)); auto.
    + destruct (PyStr.mem f (fs_tmp s)).
      * apply (post_conseq _ _ _ _ _ _ (IH (with_fs (remove_path f) s))).
        -- intros a s' H. eapply same_but_fs_trans; [apply same_but_fs_with_fs | exact H].
        -- intros e s' [He H]. split; [exact He|].
           eapply same_but_fs_trans; [apply same_but_fs_with_fs | exact H].
      * simpl. split; [reflexivity | apply same_but_fs_refl].
Qed.

Lemma cleanup_ok (w : World) (fs : list string) (d : string) (s : State) :
  post (cleanup w fs d) s (fun _ s' => same_but_fs s s') (fun _ _ => False).
Proof.
  unfold cleanup. apply post_try. unfold when.
  destruct (g_fDebug w); simpl.
  - apply same_but_fs_refl.
  - apply post_bind.
    apply (post_conseq _ _ _ _ _ _ (remove_files_frame w fs s)).
    + intros _ s1 H1. unfold post, os_rmdir.
      destruct (existsb _ (fs_tmp s1)); [simpl; exact H1|].
      destruct (PyStr.mem d (fs_tmp s1)); simpl.
      * eapply same_but_fs_trans; [exact H1 | apply same_but_fs_with_fs].
      * exact H1.
    + intros e s1 [He H1]. rewrite He. exact H1.
Qed.

(** ** The harness, case by case *)

Lemma compile_and_run_cases (w : World) (tgt : option string) (cmd : list string)
      (img : string) (fLog : bool) (s : State) :
  post (compile_and_run w tgt cmd img fLog) s
       (fun r s' =>
          self s' = self s /\ g_oEnv s' = g_oEnv s
          /\ ((exists out err fimg out2 err2,
                  run_compiler w cmd (g_oEnv s) = CompileExits 0 out err fimg
                  /\ run_image w img (g_oEnv s) = RunExits 0 out2 err2
                  /\ r = (true, Some (PyStr.strip out2), None)
                  /\ g_cErrors s' = g_cErrors s)
              \/ (fst (fst r) = false
                  /\ g_cErrors s' = g_cErrors s + (if fLog then 1 else 0))))
       (fun e s' =>
          self s' = self s /\ g_oEnv s' = g_oEnv s
          /\ child_raise_cause w tgt fLog cmd img (g_oEnv s) e
          /\ g_cErrors s <= g_cErrors s' <= S (g_cErrors s)
          /\ (handled_exn e = true -> g_cErrors s' = g_cErrors s)).
Proof.
  unfold post, compile_and_run, try_except, child_raise_cause. run_monad.
  destruct (run_compiler w cmd (g_oEnv s)) as [e|rc out err fimg] eqn:Ec; simpl.
  - repeat split; auto; lia.
  - destruct fimg; simpl;
      (destruct (rc =? 0)%Z eqn:Erc; simpl;
       [|destruct fLog; simpl; (repeat split; right; split; [reflexivity | lia])]);
      apply Z.eqb_eq in Erc; subst rc;
      (destruct (run_image w img (g_oEnv s)) as [e2|rc2 out2 err2] eqn:Er; simpl;
       [destruct e2; simpl;
          try (repeat split; auto; try lia; try discriminate;
               right; split; [do 3 eexists; reflexivity | now left]);
          destruct fLog; simpl; (repeat split; right; split; [reflexivity | lia])
       |]);
      (destruct (rc2 =? 0)%Z eqn:Erc2; simpl;
       [apply Z.eqb_eq in Erc2; subst rc2; repeat split; left;
        do 5 eexists; repeat split
       |]);
      apply Z.eqb_neq in Erc2;
      (destruct fLog; simpl; [|repeat split; right; split; [reflexivity | lia]]);
      (destruct (PyStr.eq_opt tgt BuildTarget.WINDOWS) eqn:Ew; simpl;
       [|destruct (PyStr.truthy err2); simpl;
         (repeat split; right; split; [reflexivity | lia])]);
      (destruct (getWinError w rc2) eqn:Eg; simpl;
       [destruct (PyStr.truthy err2); simpl;
        (repeat split; right; split; [reflexivity | lia])
       |]);
      repeat split; auto; try lia; try discriminate;
      right; (split; [do 3 eexists; reflexivity|]); right;
      repeat split; exists rc2, out2, err2; repeat split; auto.
Qed.

Lemma post_ret {A : Type} (a : A) (s : State) (Q : A -> State -> Prop)
      (E : PyExn -> State -> Prop) : Q a s -> post (ret a) s Q E.
Proof. auto. Qed.

Lemma post_raise {A : Type} (e : PyExn) (s : State) (Q : A -> State -> Prop)
      (E : PyExn -> State -> Prop) : E e s -> post (raise e) s Q E.
Proof. auto. Qed.

Lemma post_gets {A : Type} (f : State -> A) (s : State) (Q : A -> State -> Prop)
      (E : PyExn -> State -> Prop) : Q (f s) s -> post (gets f) s Q E.
Proof. auto. Qed.

Lemma post_update (f : State -> State) (s : State) (Q : unit -> State -> Prop)
      (E : PyExn -> State -> Prop) : Q tt (f s) -> post (update_state f) s Q E.
Proof. auto. Qed.

Lemma post_when (c : bool) (m : M unit) (s : State) (Q : unit -> State -> Prop)
      (E : PyExn -> State -> Prop) :
  (c = true -> post m s Q E) -> (c = false -> Q tt s) -> post (when c m) s Q E.
Proof. intros H1 H2. destruct c; [apply H1 | apply H2]; reflexivity. Qed.

Lemma for_each_env (l : list string) (f : string -> Dict.t -> Dict.t) (s : State) :
  for_each l (fun x => update_state (with_env (f x))) s
  = Ok tt (with_env (fun e => fold_left (fun e x => f x e) l e) s).
Proof.
  revert s. induction l as [|x t IH]; intros s; cbn [for_each fold_left].
  - unfold ret. now destruct s.
  - unfold bind, update_state. rewrite IH. reflexivity.
Qed.

Lemma prependPath_get_other (env : Dict.t) (sKey k : string) (sPath : option string)
      (tgt : string) :
  k <> sKey -> Dict.get (EnvManager.prependPath env sKey sPath tgt) k = Dict.get env k.
Proof.
  intros Hk. unfold EnvManager.prependPath. destruct sPath as [p|]; [|reflexivity].
  destruct (negb (PyStr.truthy p) || (String.length p =? 0)%nat); [reflexivity|].
  destruct (Dict.get env sKey); simpl; apply get_set_other; congruence.
Qed.

Lemma prepend_all_get_other (l : list string) (env : Dict.t) (sKey k tgt : string) :
  k <> sKey ->
  Dict.get (fold_left (fun e x => EnvManager.prependPath e sKey (Some x) tgt) l env) k
  = Dict.get env k.
Proof.
  intros Hk. revert env. induction l as [|x t IH]; intros env; cbn [fold_left];
    [reflexivity|].
  rewrite IH. now apply prependPath_get_other.
Qed.

Lemma harness_frame_intro (tgt : option string) (s s2 s3 : State) :
  self s3 = self s -> g_oEnv s3 = g_oEnv s2 ->
  (PyStr.eq_opt tgt BuildTarget.WINDOWS = false -> g_oEnv s2 = g_oEnv s) ->
  (forall k, k <> "INCLUDE" -> k <> "LIB" -> Dict.get (g_oEnv s2) k = Dict.get (g_oEnv s) k) ->
  harness_frame tgt s s3.
Proof.
  intros H1 H2 H3 H4. split; [exact H1|]. split.
  - intros Hw. rewrite H2. now apply H3.
  - intros k Hi Hl. rewrite H2. now apply H4.
Qed.

Lemma harness_cases (w : World) (sName : string) (tgt : option string)
      (incs libs : option (list string)) (incf libf : list string) (code : string)
      (fLog : bool) (s : State) :
  post (compileAndExecute w sName tgt incs libs incf libf code fLog) s
       (fun r s' =>
          harness_frame tgt s s'
          /\ ((exists sCompiler out err fimg out2 err2,
                  select_compiler (g_oEnv s) tgt incf = Some sCompiler
                  /\ run_compiler w (harness_cmd w sCompiler tgt incs libs libf)
                                  (harness_env w tgt incs libs (g_oEnv s))
                     = CompileExits 0 out err fimg
                  /\ run_image w (harness_image w tgt)
                               (harness_env w tgt incs libs (g_oEnv s))
                     = RunExits 0 out2 err2
                  /\ r = (true, Some (PyStr.strip out2), None)
                  /\ g_cErrors s' = g_cErrors s)
              \/ (fst (fst r) = false
                  /\ g_cErrors s <= g_cErrors s' <= S (g_cErrors s))))
       (fun e s' =>
          harness_frame tgt s s' /\ g_cErrors s <= g_cErrors s' <= S (g_cErrors s)
          /\ harness_raise_cause w tgt incs libs incf libf fLog (g_oEnv s) e).
Proof.
  unfold compileAndExecute, harness_raise_cause.
  apply post_bind, post_update. apply post_bind, post_gets. cbn [g_oEnv].
  destruct (select_compiler (g_oEnv s) tgt incf) as [sCompiler|] eqn:Esel;
    [|apply post_raise; split; [apply (harness_frame_intro tgt s s); simpl; auto|];
      simpl; split; [lia | reflexivity]].
  set (fWin := PyStr.eq_opt tgt BuildTarget.WINDOWS).
  apply post_bind.
  assert (Htmp : post (if g_fDebug w then gettempdir w else mkdtemp w)
                      (mkState (self s) (g_cErrors s) (g_oEnv s) (fs_tmp s)
                               (trace s ++ [EvHarness sName])%list)
                      (fun d s1 => d = harness_tempdir w /\ harness_tempdir_raises w = None
                                   /\ self s1 = self s /\ g_cErrors s1 = g_cErrors s
                                   /\ g_oEnv s1 = g_oEnv s)
                      (fun e s1 => harness_tempdir_raises w = Some e
                                   /\ self s1 = self s /\ g_cErrors s1 = g_cErrors s
                                   /\ g_oEnv s1 = g_oEnv s)).
  { unfold harness_tempdir, harness_tempdir_raises, gettempdir, mkdtemp, post.
    destruct (g_fDebug w);
      [destruct (tempfile_gettempdir_raises w) | destruct (tempfile_mkdtemp_raises w)];
      simpl; auto. }
  apply (post_conseq _ _ _ _ _ _ Htmp);
    [|intros e s1 (T & H1 & H2 & H3); split;
      [apply (harness_frame_intro tgt s s1); auto; intros; now rewrite H3|];
      split; [lia | now left]].
  intros sTempDir s1 (-> & T & H1 & H2 & H3).
  cbv zeta. apply post_bind. unfold write_source.
  change (os_path_join w (harness_tempdir w)
            (if PyStr.contains "g++" sCompiler || PyStr.contains "cl.exe" sCompiler
             then "testlib.cpp" else "testlib.c"))
    with (harness_source w sCompiler).
  change (os_path_join w (harness_tempdir w) (if negb fWin then "a.out" else "a.exe"))
    with (harness_image w tgt).
  destruct (open_write w (harness_source w sCompiler)) eqn:Eopen;
    [apply post_raise; split;
     [apply (harness_frame_intro tgt s s1); auto; intros; now rewrite H3|];
     split; [lia|]; right; split; [exact T | now left]|].
  apply post_update. apply post_bind.
  assert (Hwhen : post (when fWin
                          (for_each (match incs with Some l => l | None => [] end)
                             (fun sIncPath => update_state (with_env (fun e =>
                                EnvManager.prependPath e "INCLUDE" (Some sIncPath)
                                                       (g_enmHostTarget w)))) ;;;
                           for_each (match libs with Some l => l | None => [] end)
                             (fun sLibPath => update_state (with_env (fun e =>
                                EnvManager.prependPath e "LIB" (Some sLibPath)
                                                       (g_enmHostTarget w))))))
                       (with_fs (add_path (harness_source w sCompiler)) s1)
                       (fun _ s2 => self s2 = self s /\ g_cErrors s2 = g_cErrors s
                                    /\ (fWin = false -> g_oEnv s2 = g_oEnv s)
                                    /\ (forall k, k <> "INCLUDE" -> k <> "LIB" ->
                                           Dict.get (g_oEnv s2) k = Dict.get (g_oEnv s) k)
                                    /\ g_oEnv s2 = harness_env w tgt incs libs (g_oEnv s))
                       (fun _ _ => False)).
  { unfold harness_env. fold fWin. apply post_when.
    - intros Hw. unfold post, bind. rewrite for_each_env. rewrite for_each_env.
      unfold with_env, with_fs. cbn [self g_cErrors g_oEnv fs_tmp trace]. rewrite Hw, H3.
      repeat split; try assumption; [intros; congruence|].
      intros k Hi Hl. rewrite prepend_all_get_other by exact Hl.
      now rewrite prepend_all_get_other by exact Hi.
    - intros Hw. rewrite Hw. simpl. repeat split; auto. intros. now rewrite H3. }
  apply (post_conseq _ _ _ _ _ _ Hwhen); [|intros e s2 []].
  intros _ s2 (K1 & K2 & K3 & K4 & K5).
  apply post_bind. apply post_try.
  apply (post_conseq _ _ _ _ _ _
           (compile_and_run_cases w tgt (harness_cmd w sCompiler tgt incs libs libf)
                                  (harness_image w tgt) fLog s2)).
  - intros r s3 (L1 & L2 & L3).
    apply post_bind.
    apply (post_conseq _ _ _ _ _ _ (cleanup_ok w _ (harness_tempdir w) s3));
      [|intros e s4 []].
    intros _ s4 (M1 & M2 & M3 & M4). apply post_ret.
    split; [apply (harness_frame_intro tgt s s2 s4); auto; congruence|].
    destruct L3 as [(out & err & fimg & out2 & err2 & C1 & C2 & C3 & C4)|(F1 & F2)].
    + left. exists sCompiler, out, err, fimg, out2, err2. rewrite K5 in C1, C2.
      repeat split; [exact C1 | exact C2 | exact C3 | congruence].
    + right. split; [exact F1|]. rewrite M2, F2, K2. destruct fLog; lia.
  - intros e s3 (L1 & L2 & Lc & Lr & Lh). rewrite K5 in Lc.
    destruct e; cbn iota beta;
      try (split; [apply (harness_frame_intro tgt s s2 s3); auto; congruence|];
           split; [lia|]; right; split; [exact T|]; right; split; [reflexivity|];
           split; [reflexivity | exact Lc]);
      specialize (Lh eq_refl);
      apply post_bind; unfold printError;
      repeat (first [apply post_update | apply post_bind]);
      match goal with |- post (cleanup _ _ _) ?st _ _ =>
        apply (post_conseq _ _ _ _ _ _ (cleanup_ok w _ (harness_tempdir w) st));
          [|intros e s4 []]
      end;
      intros _ s4 (M1 & M2 & M3 & M4); apply post_ret; simpl in M1, M2, M3;
      (split; [apply (harness_frame_intro tgt s s2 s4); auto; congruence|]);
      right; (split; [reflexivity | lia]).
Qed.

(** X16: the harness reports success only when the compiler it picked from
    the store, run on the command line the harness built and in the process
    environment it prepared, exited with 0, and the binary that command line
    names, run in the same environment, exited with 0; the output returned
    is then the stripped standard output of that binary, there is no error
    text, and no error is counted. *)
Theorem harness_success_is_earned (w : World) (sName : string) (tgt : option string)
        (incs libs : option (list string)) (incf libf : list string) (code : string)
        (fLog : bool) (s s' : State) (r : HarnessResult) :
  compileAndExecute w sName tgt incs libs incf libf code fLog s = Ok r s' ->
  fst (fst r) = true ->
  exists sCompiler out err fimg out2 err2,
    select_compiler (g_oEnv s) tgt incf = Some sCompiler
    /\ run_compiler w (harness_cmd w sCompiler tgt incs libs libf)
                    (harness_env w tgt incs libs (g_oEnv s))
       = CompileExits 0 out err fimg
    /\ run_image w (harness_image w tgt) (harness_env w tgt incs libs (g_oEnv s))
       = RunExits 0 out2 err2
    /\ r = (true, Some (PyStr.strip out2), None)
    /\ g_cErrors s' = g_cErrors s.
Proof.
  intros H Hr. pose proof (harness_cases w sName tgt incs libs incf libf code fLog s) as Hc.
  unfold post in Hc. rewrite H in Hc. destruct Hc as (_ & [Hs|(Hf & _)]); [exact Hs|].
  congruence.
Qed.

Lemma harness_success_is_earned_witness :
  exists out err fimg out2 err2,
    run_compiler host_cc_ok
                 ["g++"; "-I/usr/include"; "-L/usr/lib"; "/tmp/tmpq1w2e3/testlib.cpp"; "-o";
                  "/tmp/tmpq1w2e3/a.out"; "-lz"]
                 linux_env
    = CompileExits 0 out err fimg
    /\ run_image host_cc_ok "/tmp/tmpq1w2e3/a.out" linux_env = RunExits 0 out2 err2
    /\ (true, Some "1.3.1", @None string) = (true, Some (PyStr.strip out2), None).
Proof.
  destruct (harness_success_is_earned
              host_cc_ok "zlib" (Some BuildTarget.LINUX) (Some ["/usr/include"])
              (Some ["/usr/lib"]) ["zlib.h"] ["libz"] zlib_code true
              (initial_state probe_zlib linux_env)
              (state_of (harness_zlib host_cc_ok (initial_state probe_zlib linux_env)))
              (true, Some "1.3.1", None) eq_refl eq_refl)
    as (cc & out & err & fimg & out2 & err2 & H0 & H1 & H2 & H3 & _).
  injection H0 as <-.
  exists out, err, fimg, out2, err2. repeat split; assumption.
Defined.

(** X17: however the harness ends, returning or raising, it leaves the probe
    as it was, counts at most one error and never takes one back, and changes
    no key of the configuration store but [INCLUDE] and [LIB]; on a target
    other than Windows it leaves the whole store as it was. *)
Theorem harness_keeps_probe_and_store (w : World) (sName : string) (tgt : option string)
        (incs libs : option (list string)) (incf libf : list string) (code : string)
        (fLog : bool) (s : State) :
  let s' := state_of (compileAndExecute w sName tgt incs libs incf libf code fLog s) in
  self s' = self s
  /\ g_cErrors s <= g_cErrors s' <= S (g_cErrors s)
  /\ (PyStr.eq_opt tgt BuildTarget.WINDOWS = false -> g_oEnv s' = g_oEnv s)
  /\ (forall k, k <> "INCLUDE" -> k <> "LIB" ->
                Dict.get (g_oEnv s') k = Dict.get (g_oEnv s) k).
Proof.
  pose proof (harness_cases w sName tgt incs libs incf libf code fLog s) as Hc.
  unfold post in Hc.
  destruct (compileAndExecute w sName tgt incs libs incf libf code fLog s) as [r s1|e s1];
    simpl.
  - destruct Hc as ((H1 & H2 & H4) & [(? & ? & ? & ? & ? & ? & _ & _ & _ & _ & H3)|(_ & H3)]);
      repeat split; try assumption; lia.
  - destruct Hc as ((H1 & H2 & H4) & H3 & _). repeat split; try assumption; lia.
Qed.

(** X18: the harness raises only for one of these reasons: no compiler is
    configured (the assertion); [gettempdir()] in debug mode, or [mkdtemp()]
    otherwise, raises; the source file the harness names cannot be opened
    for writing; running the command line it built raises an exception other
    than a permission error, a missing file or a subprocess error (a timeout
    is one); that command exits with 0 and running the binary it names raises
    such an exception; or, on the Windows target with logging, the binary
    exits with another code than 0 and the text of that code is not to be
    had.  So with a compiler configured, a temporary directory to be had, a
    writable source, and a compiler run and a binary run that exit or fail in
    one of the handled ways, on a target other than Windows the harness
    always returns a result. *)
Theorem harness_contains_faults (w : World) (sName : string) (tgt : option string)
        (incs libs : option (list string)) (incf libf : list string) (code : string)
        (fLog : bool) (s : State) :
  (forall e s', compileAndExecute w sName tgt incs libs incf libf code fLog s = Raise e s' ->
                harness_raise_cause w tgt incs libs incf libf fLog (g_oEnv s) e)
  /\ (forall sCompiler,
         select_compiler (g_oEnv s) tgt incf = Some sCompiler ->
         harness_tempdir_raises w = None ->
         open_write w (harness_source w sCompiler) = None ->
         compile_handled (run_compiler w (harness_cmd w sCompiler tgt incs libs libf)
                                       (harness_env w tgt incs libs (g_oEnv s))) ->
         run_handled (run_image w (harness_image w tgt)
                                (harness_env w tgt incs libs (g_oEnv s))) ->
         PyStr.eq_opt tgt BuildTarget.WINDOWS = false ->
         exists r s', compileAndExecute w sName tgt incs libs incf libf code fLog s = Ok r s').
Proof.
  pose proof (harness_cases w sName tgt incs libs incf libf code fLog s) as Hc.
  unfold post in Hc. split.
  - intros e s' H. rewrite H in Hc. apply Hc.
  - intros sCompiler Hsel Htmp Hopen Hcc Hrun Hwin.
    destruct (compileAndExecute w sName tgt incs libs incf libf code fLog s) as [r s1|e s1];
      [now exists r, s1|].
    exfalso. destruct Hc as (_ & _ & Hc). unfold harness_raise_cause in Hc.
    rewrite Hsel in Hc.
    destruct Hc as [Hc|(_ & [Hc|(_ & He & [Hc|(_ & [Hc|(_ & _ & Hc & _)])])])].
    + congruence.
    + congruence.
    + rewrite Hc in Hcc. simpl in Hcc. congruence.
    + rewrite Hc in Hrun. simpl in Hrun. congruence.
    + congruence.
Qed.

Lemma harness_contains_faults_witness :
  exists r s',
    harness_zlib host_cc_timeout (initial_state probe_zlib linux_env) = Ok r s'.
Proof.
  destruct (harness_contains_faults
              host_cc_timeout "zlib" (Some BuildTarget.LINUX) (Some ["/usr/include"])
              (Some ["/usr/lib"]) ["zlib.h"] ["libz"] zlib_code true
              (initial_state probe_zlib linux_env)) as (_ & H).
  apply (H "g++"); reflexivity.
Defined.

(** A host where no temporary directory can be made: the harness raises
    before it writes or runs anything. *)
Example harness_no_tempdir :
  harness_zlib host_no_tempdir (initial_state probe_zlib linux_env)
  = Raise OSError_other
          (mkState probe_zlib 0 linux_env [] [EvHarness "zlib"]).
Proof. reflexivity. Qed.

(** The compiler that does not finish in time: a failed result, one error,
    nothing raised. *)
Example harness_timeout :
  exists s',
    harness_zlib host_cc_timeout (initial_state probe_zlib linux_env)
    = Ok (false, None, None) s'
    /\ g_cErrors s' = 1.
Proof. eexists. split; [lazy; reflexivity | reflexivity]. Qed.

(** ** What a check leaves of a probe *)

Lemma same_decl_refl (p : LibraryCheck) : same_decl p p.
Proof. repeat split. Qed.

Lemma same_decl_trans (a b c : LibraryCheck) :
  same_decl a b -> same_decl b c -> same_decl a c.
Proof.
  unfold same_decl. intros H K.
  destruct H as (H1 & H2 & H3 & H4 & H5 & H6 & H7 & H8 & H9).
  destruct K as (K1 & K2 & K3 & K4 & K5 & K6 & K7 & K8 & K9).
  repeat split; congruence.
Qed.

Lemma env_kept_refl (env : Dict.t) : env_kept env env.
Proof. intros k _ _. reflexivity. Qed.

Lemma env_kept_trans (a b c : Dict.t) : env_kept a b -> env_kept b c -> env_kept a c.
Proof. intros H K k Hi Hl. rewrite (K k Hi Hl). now apply H. Qed.

Lemma checkLib_frame (w : World) (s s1 : State) (b : bool) :
  LibCheck.checkLib w s = Ok b s1 ->
  same_decl (self s) (self s1) /\ fHave (self s1) = fHave (self s)
  /\ g_oEnv s1 = g_oEnv s
  /\ g_cErrors s1 = (if b then g_cErrors s else S (g_cErrors s))
  /\ sVer (self s1) = sVer (self s).
Proof.
  intros H. destruct (asLibFiles (self s)) as [|lib libs] eqn:El.
  - unfold LibCheck.checkLib in H. revert H. run_monad. rewrite El. simpl.
    intros H; inversion H; subst. repeat split.
  - assert (Hne : asLibFiles (self s) <> []) by (rewrite El; discriminate).
    destruct (LibCheck.getLibSearchPaths w (g_oEnv s) (self s)) as [l|e] eqn:Hp.
    + rewrite (checkLib_first_match w s l Hne Hp) in H.
      destruct (find _ _) as [[path file]|]; inversion H; subst; simpl; repeat split.
    + exfalso. unfold LibCheck.checkLib in H. revert H. run_monad. rewrite El. simpl.
      rewrite Hp. discriminate.
Qed.

Lemma method_cases (w : World) (tgt : option string) (s : State) :
  post (LibCheck.compileAndExecute w tgt) s
       (fun r s' =>
          same_decl (self s) (self s') /\ fHave (self s') = fHave (self s)
          /\ env_kept (g_oEnv s) (g_oEnv s')
          /\ (sVer (self s')
              = if fst (fst r) && PyStr.truthy_opt (snd (fst r)) then snd (fst r)
                else sVer (self s))
          /\ (fst (fst r) = true -> g_cErrors s' = g_cErrors s)
          /\ g_cErrors s <= g_cErrors s' <= S (g_cErrors s))
       (fun _ _ => True).
Proof.
  unfold LibCheck.compileAndExecute. apply post_bind, post_gets. apply post_bind.
  apply (post_conseq _ _ _ _ _ _
           (harness_cases w (sName (self s)) tgt (asIncPaths (self s)) (asLibPaths (self s))
                          (asIncFiles (self s)) (asLibFiles (self s))
                          (LibCheck.getTestCode (self s)) true s)); [|auto].
  intros [[fRc sStdOut] sStdErr] s1 ((H1 & H2 & H3) & H4).
  apply post_bind. unfold when. cbn [fst snd] in *.
  assert (He : g_cErrors s <= g_cErrors s1 <= S (g_cErrors s)
               /\ (fRc = true -> g_cErrors s1 = g_cErrors s)).
  { destruct H4 as [(? & ? & ? & ? & ? & ? & _ & _ & _ & _ & H4)|(Hf & H4)];
      split; try lia; intros; congruence. }
  destruct He as (He1 & He2).
  destruct (fRc && PyStr.truthy_opt sStdOut) eqn:Eb.
  - apply post_update, post_ret. unfold with_self. cbn [self g_cErrors g_oEnv fst snd].
    rewrite H1, Eb. repeat split; try assumption; lia.
  - apply post_ret, post_ret. cbn [fst snd]. rewrite H1, Eb.
    repeat split; try assumption; lia.
Qed.

Lemma post_ok {A : Type} (m : M A) (s : State) (Q : A -> State -> Prop) :
  (forall a s', m s = Ok a s' -> Q a s') -> post m s Q (fun _ _ => True).
Proof. unfold post. intros H. destruct (m s); auto. Qed.

Lemma post_bind_assoc {A B C : Type} (m : M A) (k : A -> M B) (h : B -> M C) (s : State)
      (Q : C -> State -> Prop) (E : PyExn -> State -> Prop) :
  post (bind (bind m k) h) s Q E -> post (bind m (fun a => bind (k a) h)) s Q E.
Proof. unfold post, bind. destruct (m s); auto. Qed.

Lemma same_decl_set_fHave (p q : LibraryCheck) (v : option bool) :
  same_decl p q -> same_decl p (LibCheck.set_fHave v q).
Proof. intros H. exact H. Qed.

(** The three checks in a row, from a state whose result flag is [False]. *)
Lemma checks_cases (w : World) (target : option string) (s : State) :
  post (fInc <- LibCheck.checkInc w ;;
        when fInc
             (fLib <- LibCheck.checkLib w ;;
              when fLib
                   (r <- LibCheck.compileAndExecute w target ;;
                    update_state (with_self (LibCheck.set_fHave (Some (fst (fst r)))))))) s
       (fun _ s' =>
          same_decl (self s) (self s') /\ env_kept (g_oEnv s) (g_oEnv s')
          /\ ((fHave (self s') = fHave (self s) /\ g_cErrors s' = S (g_cErrors s)
               /\ sVer (self s') = sVer (self s))
              \/ (fHave (self s') = Some true /\ g_cErrors s' = g_cErrors s)
              \/ (fHave (self s') = Some false
                  /\ g_cErrors s <= g_cErrors s' <= S (g_cErrors s)
                  /\ sVer (self s') = sVer (self s))))
       (fun _ _ => True).
Proof.
  apply post_bind. apply post_ok. intros fInc s1 Hinc.
  apply checkInc_frame in Hinc. destruct Hinc as ((x & Hx) & Henv1 & _ & Herr1 & _).
  assert (D1 : same_decl (self s) (self s1)) by (rewrite Hx; repeat split).
  assert (F1 : fHave (self s1) = fHave (self s)) by (rewrite Hx; reflexivity).
  assert (V1 : sVer (self s1) = sVer (self s)) by (rewrite Hx; reflexivity).
  apply post_when.
  - intros ->. apply post_bind. apply post_ok. intros fLib s2 Hlib.
    apply checkLib_frame in Hlib. destruct Hlib as (D2 & F2 & Henv2 & Herr2 & V2).
    apply post_when.
    + intros ->. apply post_bind.
      apply (post_conseq _ _ _ _ _ _ (method_cases w target s2)); [|auto].
      intros [[fRc sStdOut] sStdErr] s3 (D3 & F3 & K3 & V3 & Hrc & Hrange).
      apply post_update. unfold with_self. cbn [self g_cErrors g_oEnv fst snd] in *.
      split; [|split].
      * apply same_decl_set_fHave.
        exact (same_decl_trans _ _ _ D1 (same_decl_trans _ _ _ D2 D3)).
      * rewrite <- Henv1, <- Henv2. exact K3.
      * right. destruct fRc; [left|right]; (split; [reflexivity|]).
        -- rewrite (Hrc eq_refl). congruence.
        -- rewrite Herr2, Herr1 in Hrange. split; [exact Hrange|].
           cbn [andb] in V3. change (sVer (self s3) = sVer (self s)). congruence.
    + intros ->. split; [|split].
      * exact (same_decl_trans _ _ _ D1 D2).
      * rewrite Henv2, Henv1. apply env_kept_refl.
      * left. repeat split; congruence.
  - intros ->. split; [|split].
    + exact D1.
    + rewrite Henv1. apply env_kept_refl.
    + left. repeat split; congruence.
Qed.

Lemma performCheck_cases (w : World) (s : State) :
  post (LibCheck.performCheck w) s (performCheck_post s) (fun _ _ => True).
Proof.
  unfold LibCheck.performCheck, performCheck_post, not_checked.
  apply post_bind, post_gets. apply post_bind, post_gets. cbv zeta.
  set (target := EnvManager.getitem (g_oEnv s) "KBUILD_TARGET").
  destruct (PyStr.mem_opt target (aeTargetsExcluded (self s))) eqn:Ex.
  { apply post_ret. cbn [orb].
    repeat split; try reflexivity; try discriminate; try apply env_kept_refl. }
  destruct (fDisabled (self s)) eqn:Ed.
  { apply post_ret. cbn [orb].
    repeat split; try reflexivity; try discriminate; try apply env_kept_refl. }
  cbn [orb].
  destruct (if negb (PyStr.truthy_opt (sCustomPath (self s)))
            then glob_glob w (LibCheck.intree_pattern w (self s)) else [])
    as [|sCurMatch rest].
  - apply post_bind, post_update. apply post_bind.
    + fold (applicable target (self s)).
      apply post_when.
      * intros Happ. apply post_bind_assoc. apply post_bind.
        apply (post_conseq _ _ _ _ _ _
                 (checks_cases w target (with_self (LibCheck.set_fHave (Some false)) s)));
          [|auto].
        intros [] s1 (D1 & K1 & Hc). unfold with_self in D1, K1, Hc.
        cbn [self g_cErrors g_oEnv LibCheck.set_fHave fHave sVer] in D1, K1, Hc.
        apply post_bind, post_gets. unfold when.
        assert (Hb : exists b, fHave (self s1) = Some b
                               /\ g_cErrors s1 <= S (g_cErrors s)
                               /\ g_cErrors s <= g_cErrors s1
                               /\ (b = true -> g_cErrors s1 = g_cErrors s)
                               /\ (b = false -> sVer (self s1) = sVer (self s))).
        { destruct Hc as [(F & Er & V)|[(F & Er)|(F & Er & V)]].
          - exists false. repeat split; auto; try lia; discriminate.
          - exists true. repeat split; auto; lia.
          - exists false. repeat split; auto; try lia; discriminate. }
        destruct Hb as (b & Fb & Hle & Hge & Htrue & Hver). rewrite Fb.
        destruct b; cbn [negb].
        -- apply post_ret. apply post_bind, post_gets. apply post_ret. rewrite Fb.
           rewrite Happ. split; [exact D1|split; [exact K1|]].
           repeat split; auto; try discriminate.
        -- unfold printError. apply post_update.
           apply post_bind, post_gets. apply post_ret.
           cbn [self g_cErrors g_oEnv]. rewrite Fb, Happ.
           split; [exact D1|split; [exact K1|]].
           repeat split; auto; try discriminate; lia.
      * intros Happ. apply post_bind, post_gets. apply post_ret.
        unfold with_self. cbn [self g_cErrors g_oEnv LibCheck.set_fHave fHave].
        rewrite Happ. repeat split; auto; try discriminate; try apply env_kept_refl.
  - apply post_bind, post_update. apply post_bind.
    + destruct (re_search_version _).
      * apply post_update. apply post_bind, post_update. apply post_ret.
        unfold with_self. cbn.
        repeat split; auto; try discriminate; try apply env_kept_refl.
      * apply post_ret. apply post_bind, post_update. apply post_ret.
        unfold with_self. cbn.
        repeat split; auto; try discriminate; try apply env_kept_refl.
Qed.

(** ** The result of a library check, its flag and the error counter *)

(** X19: the result of [performCheck] and the error counter move together.
    A check that returns [True] counts no error.  A check that returns
    [False] for a probe of the current target (or of every target) counts
    one error or two, and for a probe of another target it counts none. *)
Theorem performCheck_error_accounting (w : World) (s s' : State) (r : bool) :
  LibCheck.performCheck w s = Ok r s' ->
  (r = true -> g_cErrors s' = g_cErrors s)
  /\ (r = false ->
      if applicable (EnvManager.getitem (g_oEnv s) "KBUILD_TARGET") (self s)
      then S (g_cErrors s) <= g_cErrors s' <= S (S (g_cErrors s))
      else g_cErrors s' = g_cErrors s).
Proof.
  intros H. pose proof (performCheck_cases w s) as Hc.
  unfold post in Hc. rewrite H in Hc.
  destruct Hc as (_ & _ & _ & _ & Ht & Hf & _). split; assumption.
Qed.

Lemma performCheck_error_accounting_witness :
  S (g_cErrors (initial_state probe_zlib linux_env))
  <= g_cErrors (state_of (LibCheck.performCheck host_zlib_header_only
                                                (initial_state probe_zlib linux_env)))
  <= S (S (g_cErrors (initial_state probe_zlib linux_env))).
Proof.
  assert (E : LibCheck.performCheck host_zlib_header_only
                                    (initial_state probe_zlib linux_env)
              = Ok false (state_of (LibCheck.performCheck
                                      host_zlib_header_only
                                      (initial_state probe_zlib linux_env))))
    by (vm_compute; reflexivity).
  destruct (performCheck_error_accounting _ _ _ _ E) as (_ & H).
  exact (H eq_refl).
Defined.

(** X20: for a probe that is neither excluded on the target nor disabled,
    the value [performCheck] returns is the value it leaves in [fHave], and
    the status shown for the probe afterwards is [ok] for [True] and
    [failed] for [False], never [?] or [DISABLED]. *)
Theorem performCheck_status_matches_result (w : World) (s s' : State) (r : bool) :
  not_checked (EnvManager.getitem (g_oEnv s) "KBUILD_TARGET") (self s) = false ->
  LibCheck.performCheck w s = Ok r s' ->
  fHave (self s') = Some r
  /\ getStatusString (self s') = if r then "ok" else "failed".
Proof.
  intros Hn H. pose proof (performCheck_cases w s) as Hc.
  unfold post in Hc. rewrite H in Hc.
  destruct Hc as (D & _ & _ & Hh & _). specialize (Hh Hn).
  destruct D as (_ & _ & _ & _ & _ & _ & _ & Hd & _).
  apply Bool.orb_false_iff in Hn. destruct Hn as (_ & Hn).
  split; [exact Hh|]. unfold getStatusString. rewrite Hd, Hn, Hh. now destruct r.
Qed.

Lemma performCheck_status_matches_result_witness :
  fHave (self (state_of (LibCheck.performCheck host_zlib_installed
                                               (initial_state probe_zlib linux_env))))
  = Some true
  /\ getStatusString (self (state_of (LibCheck.performCheck host_zlib_installed
                                        (initial_state probe_zlib linux_env))))
     = "ok".
Proof.
  assert (E : LibCheck.performCheck host_zlib_installed
                                    (initial_state probe_zlib linux_env)
              = Ok true (state_of (LibCheck.performCheck
                                     host_zlib_installed
                                     (initial_state probe_zlib linux_env))))
    by (vm_compute; reflexivity).
  exact (performCheck_status_matches_result
           host_zlib_installed (initial_state probe_zlib linux_env) _ _ eq_refl E).
Defined.

(** X21: a check that returns leaves the declaration of the probe (name,
    headers, libraries, test code, targets) and the arguments given to it as
    they were, and changes no key of the configuration store other than
    [INCLUDE] and [LIB]; a probe that is excluded on the target or disabled
    is returned from with [True] and the whole state untouched. *)
Theorem performCheck_keeps_declaration (w : World) (s s' : State) (r : bool) :
  LibCheck.performCheck w s = Ok r s' ->
  same_decl (self s) (self s') /\ env_kept (g_oEnv s) (g_oEnv s')
  /\ (not_checked (EnvManager.getitem (g_oEnv s) "KBUILD_TARGET") (self s) = true ->
      r = true /\ s' = s).
Proof.
  intros H. pose proof (performCheck_cases w s) as Hc.
  unfold post in Hc. rewrite H in Hc.
  destruct Hc as (D & K & Hn & _). split; [exact D|split; [exact K|exact Hn]].
Qed.

Lemma performCheck_keeps_declaration_witness :
  same_decl probe_zlib
            (self (state_of (LibCheck.performCheck host_zlib_installed
                                                   (initial_state probe_zlib linux_env))))
  /\ env_kept linux_env
              (g_oEnv (state_of (LibCheck.performCheck host_zlib_installed
                                                       (initial_state probe_zlib linux_env)))).
Proof.
  assert (E : LibCheck.performCheck host_zlib_installed
                                    (initial_state probe_zlib linux_env)
              = Ok true (state_of (LibCheck.performCheck
                                     host_zlib_installed
                                     (initial_state probe_zlib linux_env))))
    by (vm_compute; reflexivity).
  destruct (performCheck_keeps_declaration _ _ _ _ E) as (D & K & _).
  split; assumption.
Defined.

(** X22: a version is recorded only for a library that was found: when
    [performCheck] returns [False] the version of the probe is what it was
    before the check, whatever the test program printed. *)
Theorem performCheck_failed_records_no_version (w : World) (s s' : State) :
  LibCheck.performCheck w s = Ok false s' ->
  sVer (self s') = sVer (self s) /\ fHave (self s') = Some false.
Proof.
  intros H. pose proof (performCheck_cases w s) as Hc.
  unfold post in Hc. rewrite H in Hc.
  destruct Hc as (_ & _ & Hn & Hh & _ & _ & Hv). split; [now apply Hv|].
  apply Hh. destruct (not_checked _ _); [|reflexivity].
  destruct (Hn eq_refl) as (Hr & _). discriminate.
Qed.

Lemma performCheck_failed_records_no_version_witness :
  sVer (self (state_of (LibCheck.performCheck host_zlib_header_only
                                              (initial_state probe_zlib linux_env))))
  = None
  /\ fHave (self (state_of (LibCheck.performCheck host_zlib_header_only
                                                  (initial_state probe_zlib linux_env))))
     = Some false.
Proof.
  assert (E : LibCheck.performCheck host_zlib_header_only
                                    (initial_state probe_zlib linux_env)
              = Ok false (state_of (LibCheck.performCheck
                                      host_zlib_header_only
                                      (initial_state probe_zlib linux_env))))
    by (vm_compute; reflexivity).
  exact (performCheck_failed_records_no_version _ _ _ E).
Defined.

(** X23: the method [compileAndExecute] of a probe records the standard
    output of the test program as the version exactly when the harness
    reports success with a non-empty output; otherwise the version stays,
    and in both cases the result flag of the probe is not touched. *)
Theorem method_records_version_on_success (w : World) (tgt : option string)
        (s s' : State) (r : HarnessResult) :
  LibCheck.compileAndExecute w tgt s = Ok r s' ->
  sVer (self s') = (if fst (fst r) && PyStr.truthy_opt (snd (fst r)) then snd (fst r)
                    else sVer (self s))
  /\ fHave (self s') = fHave (self s)
  /\ same_decl (self s) (self s').
Proof.
  intros H. pose proof (method_cases w tgt s) as Hc.
  unfold post in Hc. rewrite H in Hc.
  destruct Hc as (D & F & _ & V & _). split; [exact V|split; [exact F|exact D]].
Qed.

Lemma method_records_version_on_success_witness :
  sVer (self (state_of (LibCheck.compileAndExecute host_cc_ok (Some BuildTarget.LINUX)
                                                   (initial_state probe_zlib linux_env))))
  = Some "1.3.1".
Proof.
  assert (E : LibCheck.compileAndExecute host_cc_ok (Some BuildTarget.LINUX)
                                         (initial_state probe_zlib linux_env)
              = Ok (true, Some "1.3.1", None)
                   (state_of (LibCheck.compileAndExecute
                                host_cc_ok (Some BuildTarget.LINUX)
                                (initial_state probe_zlib linux_env))))
    by (vm_compute; reflexivity).
  destruct (method_records_version_on_success _ _ _ _ _ E) as (V & _).
  exact V.
Defined.

(** ** The loop over the libraries and the exit status *)

Lemma target_kept (env env' : Dict.t) :
  env_kept env env' ->
  EnvManager.getitem env' "KBUILD_TARGET" = EnvManager.getitem env "KBUILD_TARGET".
Proof.
  intros H. unfold EnvManager.getitem, EnvManager.get.
  rewrite (H "KBUILD_TARGET"); [reflexivity| |]; discriminate.
Qed.

Lemma status_after_check (s : State) (r : bool) (s1 : State) :
  fHave (self s) = None ->
  performCheck_post s r s1 ->
  (getStatusString (self s1) = "failed" <-> r = false).
Proof.
  intros Hfresh (D & _ & Hn & Hh & _).
  destruct (not_checked (EnvManager.getitem (g_oEnv s) "KBUILD_TARGET") (self s)) eqn:En.
  - destruct (Hn eq_refl) as (-> & ->). unfold getStatusString. rewrite Hfresh.
    destruct (fDisabled (self s)); split; discriminate.
  - specialize (Hh eq_refl). destruct D as (_ & _ & _ & _ & _ & _ & _ & Hd & _).
    unfold not_checked in En. apply Bool.orb_false_iff in En. destruct En as (_ & En).
    unfold getStatusString. rewrite Hd, En, Hh. destruct r; split; try discriminate; auto.
Qed.

Lemma lib_loop_cases (w : World) (fContOnErr : bool) (oArgs : LibArgs)
      (libs : list LibraryCheck) :
  forall s, post (lib_loop w fContOnErr oArgs libs) s (loop_post fContOnErr libs s)
                 (fun _ _ => True).
Proof.
  induction libs as [|p rest IH]; intros s.
  - apply post_ret. unfold loop_post. repeat split; auto; try apply env_kept_refl.
  - cbn [lib_loop]. apply post_bind, post_update.
    set (s0 := with_self _ s).
    assert (Hs0 : g_oEnv s0 = g_oEnv s /\ g_cErrors s0 = g_cErrors s
                  /\ sName (self s0) = sName p /\ fHave (self s0) = fHave p
                  /\ aeTargets (self s0) = aeTargets p) by (repeat split).
    destruct Hs0 as (E0 & C0 & N0 & F0 & T0).
    apply post_bind.
    apply (post_conseq _ _ _ _ _ _ (performCheck_cases w s0)); [|auto].
    intros r s1 Hp. pose proof Hp as (D & K & Hn & Hh & Ht & Hf & _).
    rewrite E0 in K, Hf. rewrite C0 in Ht, Hf.
    assert (Happ : applicable (EnvManager.getitem (g_oEnv s) "KBUILD_TARGET") (self s0)
                   = applicable (EnvManager.getitem (g_oEnv s) "KBUILD_TARGET") p)
      by (unfold applicable; now rewrite T0).
    rewrite Happ in Hf.
    assert (Hname : sName (self s1) = sName p)
      by (destruct D as (D & _); congruence).
    assert (Hmono : g_cErrors s <= g_cErrors s1 <= S (S (g_cErrors s))).
    { destruct r.
      - rewrite (Ht eq_refl). lia.
      - specialize (Hf eq_refl). destruct (applicable _ p); lia. }
    assert (Hone : forall (Ha : applicable (EnvManager.getitem (g_oEnv s) "KBUILD_TARGET") p
                                = true) (Hfr : fHave p = None),
               (g_cErrors s1 = g_cErrors s <-> getStatusString (self s1) <> "failed")).
    { intros Ha Hfr. assert (Hst := status_after_check s0 r s1).
      rewrite F0 in Hst. specialize (Hst Hfr Hp). destruct r.
      - split; [|intros _; now apply Ht].
        intros _ Hx. apply Hst in Hx. discriminate.
      - specialize (Hf eq_refl). rewrite Ha in Hf. split; [lia|].
        intros Hx. exfalso. apply Hx. now apply Hst. }
    apply post_bind, post_gets.
    destruct (negb r && negb fContOnErr) eqn:Eb.
    + apply Bool.andb_true_iff in Eb. destruct Eb as (Er & Ec).
      apply Bool.negb_true_iff in Er, Ec. subst r fContOnErr.
      apply post_ret. unfold loop_post. cbn [map].
      split; [now rewrite Hname|]. split; [exact K|]. split; [lia|]. split; [lia|].
      intros Hall. apply Forall_cons_iff in Hall. destruct Hall as ((Ha & Hfr) & _).
      specialize (Hone Ha Hfr). specialize (Hf eq_refl). rewrite Ha in Hf.
      split; [lia|].
      intros Hx. apply Forall_cons_iff in Hx. destruct Hx as (Hx & _).
      apply Hone in Hx. lia.
    + apply post_bind.
      apply (post_conseq _ _ _ _ _ _ (IH s1)); [|auto].
      intros tl s2 (N2 & K2 & M2 & B2 & I2). apply post_ret.
      unfold loop_post. cbn [map].
      split; [now rewrite Hname, N2|].
      split; [exact (env_kept_trans _ _ _ K K2)|]. split; [lia|].
      split.
      * intros ->. specialize (B2 eq_refl). destruct r; [|discriminate].
        rewrite (Ht eq_refl) in B2. exact B2.
      * intros Hall. apply Forall_cons_iff in Hall. destruct Hall as ((Ha & Hfr) & Hall).
        specialize (Hone Ha Hfr). rewrite (target_kept _ _ K) in I2. specialize (I2 Hall).
        rewrite Forall_cons_iff. split.
        -- intros Hx. assert (H1 : g_cErrors s1 = g_cErrors s) by lia.
           split; [now apply Hone|]. apply I2. lia.
        -- intros (Hx & Hy). apply Hone in Hx. apply I2 in Hy. lia.
Qed.

(** X24: the loop over the libraries returns the probes it was given, in
    their order and under their names, whether it ran to the end or stopped
    at a failed check; it takes no counted error back, and when errors are
    not continued on it counts at most two, those of the one check that
    stopped it. *)
Theorem lib_loop_keeps_the_list (w : World) (fContOnErr : bool) (oArgs : LibArgs)
        (libs out : list LibraryCheck) (s s' : State) :
  lib_loop w fContOnErr oArgs libs s = Ok out s' ->
  map sName out = map sName libs
  /\ g_cErrors s <= g_cErrors s'
  /\ (fContOnErr = false -> g_cErrors s' <= S (S (g_cErrors s)))
  /\ EnvManager.getitem (g_oEnv s') "KBUILD_TARGET"
     = EnvManager.getitem (g_oEnv s) "KBUILD_TARGET".
Proof.
  intros H. pose proof (lib_loop_cases w fContOnErr oArgs libs s) as Hc.
  unfold post in Hc. rewrite H in Hc. destruct Hc as (N & K & M & B & _).
  repeat split; try assumption. now apply target_kept.
Qed.

(** X25: the error counter agrees with the summary.  When no error was
    counted before the library checks, the probes are fresh (no result yet)
    and are those declared for the target, as [main] filters them, the
    counter right after the checks is zero exactly when no probe shows the
    status [failed].  [main] returns 0 when the counter is zero at its end
    and 1 otherwise, and between the checks and that end the counter can only
    grow (writing [AutoConfig.kmk] or the environment file counts an error
    when it fails): so whatever number [later] of errors these steps count,
    the value returned is 0 exactly when no probe shows [failed] and [later]
    is zero; a probe that shows [failed] always makes it 1. *)
Theorem library_errors_agree_with_summary (w : World) (fContOnErr : bool)
        (oArgs : LibArgs) (libs out : list LibraryCheck) (s s' : State) :
  g_cErrors s = 0 ->
  Forall (fun p => fHave p = None) libs ->
  perform_library_checks
    w fContOnErr oArgs
    (libs_for_target (EnvManager.getitem (g_oEnv s) "KBUILD_TARGET") libs) s
  = Ok out s' ->
  (g_cErrors s' = 0 <-> Forall (fun p => getStatusString p <> "failed") out)
  /\ (forall later : nat,
         exit_status (g_cErrors s' + later) = 0%Z
         <-> (Forall (fun p => getStatusString p <> "failed") out /\ later = 0)).
Proof.
  intros H0 Hfresh H. unfold perform_library_checks, bind, gets in H.
  rewrite H0 in H. cbn [Nat.eqb orb] in H.
  pose proof (lib_loop_cases
                w fContOnErr oArgs
                (libs_for_target (EnvManager.getitem (g_oEnv s) "KBUILD_TARGET") libs) s)
    as Hc.
  unfold post in Hc. rewrite H in Hc. destruct Hc as (_ & _ & _ & _ & I).
  assert (Hall : Forall (fun p => applicable (EnvManager.getitem (g_oEnv s) "KBUILD_TARGET") p
                                  = true /\ fHave p = None)
                        (libs_for_target (EnvManager.getitem (g_oEnv s) "KBUILD_TARGET")
                                         libs)).
  { apply Forall_forall. intros p Hin. unfold libs_for_target in Hin.
    apply filter_In in Hin. destruct Hin as (Hin & Ha). split; [exact Ha|].
    rewrite Forall_forall in Hfresh. now apply Hfresh. }
  specialize (I Hall). rewrite H0 in I. split; [exact I|].
  intros later. rewrite <- I. unfold exit_status.
  destruct (g_cErrors s' + later =? 0)%nat eqn:E.
  - apply Nat.eqb_eq in E. split; [intros _; lia | reflexivity].
  - apply Nat.eqb_neq in E. split; [discriminate | intros (A & B); lia].
Qed.

Lemma lib_loop_keeps_the_list_witness :
  exists out s',
    lib_loop host_zlib_installed false no_lib_args [probe_zlib; probe_xrandr]
             (initial_state probe_zlib linux_env) = Ok out s'
    /\ map sName out = ["zlib"; "xrandr"]
    /\ g_cErrors s' <= 2.
Proof.
  destruct (lib_loop host_zlib_installed false no_lib_args [probe_zlib; probe_xrandr]
                     (initial_state probe_zlib linux_env)) as [out s'|e s'] eqn:E.
  - exists out, s'. split; [reflexivity|].
    destruct (lib_loop_keeps_the_list _ _ _ _ _ _ _ E) as (N & _ & B & _).
    split; [exact N|exact (B eq_refl)].
  - exfalso. vm_compute in E. discriminate.
Defined.

Lemma library_errors_agree_with_summary_witness :
  exists out s',
    perform_library_checks
      host_zlib_installed false no_lib_args
      (libs_for_target (Some BuildTarget.LINUX) [probe_zlib; probe_xrandr])
      (initial_state probe_zlib linux_env) = Ok out s'
    /\ (g_cErrors s' = 0 <-> Forall (fun p => getStatusString p <> "failed") out)
    /\ (forall later : nat,
           exit_status (g_cErrors s' + later) = 0%Z
           <-> (Forall (fun p => getStatusString p <> "failed") out /\ later = 0)).
Proof.
  destruct (perform_library_checks
              host_zlib_installed false no_lib_args
              (libs_for_target (Some BuildTarget.LINUX) [probe_zlib; probe_xrandr])
              (initial_state probe_zlib linux_env)) as [out s'|e s'] eqn:E.
  - exists out, s'. split; [reflexivity|].
    apply (library_errors_agree_with_summary
             host_zlib_installed false no_lib_args [probe_zlib; probe_xrandr] out
             (initial_state probe_zlib linux_env) s' eq_refl).
    + repeat constructor.
    + exact E.
  - exfalso. vm_compute in E. discriminate.
Defined.

(** On a host with zlib installed and no X11 headers, the check of [zlib]
    passes, the check of [xrandr] fails with two errors, and the counter
    [main] returns 1 for is not zero. *)
Example library_checks_zlib_xrandr :
  exists out s',
    perform_library_checks
      host_zlib_installed false no_lib_args
      (libs_for_target (Some BuildTarget.LINUX) [probe_zlib; probe_xrandr])
      (initial_state probe_zlib linux_env) = Ok out s'
    /\ map getStatusString out = ["ok"; "failed"]
    /\ map sVer out = [Some "1.3.1"; None]
    /\ exit_status (g_cErrors s') = 1%Z.
Proof. eexists. eexists. split; [vm_compute; reflexivity|]. repeat split. Qed.
